(** * Funcional: multi-tenant legal-practice API

    A shallow embedding of the server side of the repository, followed by
    the properties proved of it.

    Definitions:
    - [JsString]: the JavaScript string operations the code relies on
      ([String.prototype.replace] with a global literal regex and a
      replacement string, [split], [includes], [join]);
    - [Tenant]: the schema name derived from a tenant id and the
      [${schema}] substitution of [server/config/database.ts];
    - [Js]: untyped values, exceptions and the effect monad;
    - [Http]: the parts of Express requests and responses the code uses;
    - [Auth]: [server/middleware/auth.ts] ([authenticateToken],
      [requireAccountType], [AuthService]);
    - [Schema]: the tables of a tenant schema and the world a service
      runs in;
    - [Service]: the [BaseService] class;
    - [CashFlow]: [CashFlowService] and the cash-flow router;
    - [Publications]: [PublicationService] over the [publications] table;
    - [PublicationCreation]: [PublicationService.create];
    - [Notifications]: [NotificationService] and its router;
    - [Dashboard]: [DashboardService], the statistics of the other
      services it gathers, and its router;
    - [Invoices]: [InvoiceService] and its router;
    - [AuthRoutes]: the authentication router;
    - [Notions]: notions used to state properties;
    - [Samples]: concrete data and library instances.

    Properties: [JsStringFacts], [ServiceFacts], [AuthFacts],
    [TenantFacts], [CashFlowFacts], [PublicationsFacts]; then
    [SchemaNameFacts], [TokenFacts], [ServiceRunFacts],
    [PublicationOpsFacts], [CashFlowOpsFacts], [NotificationFacts],
    [DashboardFacts], [AuthRoutesFacts], [InvoiceFacts].

    Modelling conventions.  An [async] method is a state-passing function
    [World -> Result A * World]; a JavaScript [throw] is the [Throw]
    result.  Requests are handled one at a time.  The PostgreSQL engine
    behind the [exec_sql] RPC is outside the repository: each SQL
    statement carries its text, its parameters and the relational meaning
    of that text as a function on tables; for the tables no property
    looks into, that meaning is a parameter.  Any engine-side failure of
    an RPC (transport error, constraint violation, malformed literal) is
    represented by the fault script of the world: a faulting call returns
    an error and leaves the tables unchanged.  The [admin] schema reached
    through the Supabase query builder is modelled as a reliable store.
    [jsonwebtoken], [bcryptjs], [JSON.stringify] and floating-point
    arithmetic are parameters.  [console.error] output is not modelled. *)

From Stdlib Require Import String Ascii List ZArith Lia Bool Arith.
From Stdlib Require Import DecimalString.
From Stdlib Require Import Sorted Permutation.
Import ListNotations.
Open Scope string_scope.
Set Warnings "-register-all".

(* ================================================================== *)
(** * JavaScript strings *)
(* ================================================================== *)

Module JsString.

(** [s.slice(n)]. *)
Fixpoint drop (n : nat) (s : string) : string :=
  match n, s with
  | O, _ => s
  | S _, EmptyString => EmptyString
  | S k, String _ s' => drop k s'
  end.

(** [s.startsWith(p)]. *)
Fixpoint starts_with (p s : string) : bool :=
  match p, s with
  | EmptyString, _ => true
  | String _ _, EmptyString => false
  | String a p', String b s' => (a =? b)%char && starts_with p' s'
  end.

(** Does [pat] occur somewhere in [s]? *)
Fixpoint occurs (pat s : string) : bool :=
  match s with
  | EmptyString => starts_with pat EmptyString
  | String _ s' => starts_with pat s || occurs pat s'
  end.

(** ECMAScript [GetSubstitution] for a pattern without capture groups:
    in the replacement string [$$] stands for a dollar sign, [$&] for the
    matched text, [$`] for the text before the match and [$'] for the text
    after it.  [$n] and [$<] are literal when the pattern has no groups. *)
Fixpoint get_substitution (matched before after repl : string) : string :=
  match repl with
  | EmptyString => EmptyString
  | String c r =>
      if (c =? "$")%char then
        match r with
        | EmptyString => String c EmptyString
        | String d r' =>
            if (d =? "$")%char then
              String "$" (get_substitution matched before after r')
            else if (d =? "&")%char then
              matched ++ get_substitution matched before after r'
            else if (d =? "`")%char then
              before ++ get_substitution matched before after r'
            else if (d =? "'")%char then
              after ++ get_substitution matched before after r'
            else String c (get_substitution matched before after r)
        end
      else String c (get_substitution matched before after r)
  end.

(** [s.replace(/pat/g, repl)] for a literal, non-empty pattern.  The scan
    goes left to right; after a match the next [length pat - 1]
    characters belong to the match and are skipped.  [before] is the part
    of the subject already scanned. *)
Fixpoint replace_go (pat repl : string) (skip : nat) (before s : string)
  {struct s} : string :=
  match s with
  | EmptyString => EmptyString
  | String c s' =>
      match skip with
      | S k => replace_go pat repl k (before ++ String c EmptyString) s'
      | O =>
          if starts_with pat s then
            get_substitution pat before (drop (String.length pat) s) repl
            ++ replace_go pat repl (String.length pat - 1)
                 (before ++ String c EmptyString) s'
          else
            String c (replace_go pat repl 0 (before ++ String c EmptyString) s')
      end
  end.

Definition replace_all (pat repl s : string) : string :=
  replace_go pat repl 0 EmptyString s.

(** [s.split(sep)] for a one-character separator. *)
Fixpoint split_go (sep : ascii) (cur : string) (s : string) : list string :=
  match s with
  | EmptyString => [cur]
  | String c s' =>
      if (c =? sep)%char then cur :: split_go sep EmptyString s'
      else split_go sep (cur ++ String c EmptyString) s'
  end.

Definition split (sep : ascii) (s : string) : list string :=
  split_go sep EmptyString s.

(** [xs.includes(x)] on an array of strings. *)
Definition includes (xs : list string) (x : string) : bool :=
  existsb (String.eqb x) xs.

(** [xs.join(sep)]. *)
Definition join (sep : string) (xs : list string) : string :=
  String.concat sep xs.

(** No dollar sign: the replacement string is then taken literally. *)
Fixpoint dollar_free (s : string) : bool :=
  match s with
  | EmptyString => true
  | String c s' => negb (c =? "$")%char && dollar_free s'
  end.

(** Removal of every occurrence of one character. *)
Fixpoint remove_char (x : ascii) (s : string) : string :=
  match s with
  | EmptyString => EmptyString
  | String c s' =>
      if (c =? x)%char then remove_char x s' else String c (remove_char x s')
  end.

End JsString.

(* ================================================================== *)
(** * Tenant schema and the [${schema}] substitution *)
(* ================================================================== *)

Module Tenant.
Import JsString.

(** The placeholder written [\${schema}] in the SQL template literals. *)
Definition placeholder : string := "${schema}".

(** [`tenant_${tenantId.replace(/-/g, '')}`], the expression shared by
    [getTenantConnection], the [BaseService] constructor and
    [authenticateToken]. *)
Definition schema_of (tenantId : string) : string :=
  "tenant_" ++ replace_all "-" "" tenantId.

(** [sql.replace(/\$\{schema\}/g, schema)]. *)
Definition tenant_sql (schema sql : string) : string :=
  replace_all placeholder schema sql.

(** One call of the generic RPC: [client.rpc(fn, { query, params })]. *)
Record RpcCall (P : Type) : Type := mkRpc {
  rpc_fn : string;
  rpc_query : string;
  rpc_params : list P
}.
Arguments mkRpc {P} _ _ _.
Arguments rpc_fn {P} _.
Arguments rpc_query {P} _.
Arguments rpc_params {P} _.

(** [getTenantConnection(tenantId)]: the connection object, and the RPC
    request its [query] method sends. *)
Record TenantConnection : Type := mkConn {
  conn_schema : string;
  conn_tenantId : string
}.

Definition getTenantConnection (tenantId : string) : TenantConnection :=
  {| conn_schema := schema_of tenantId; conn_tenantId := tenantId |}.

Definition connection_request {P} (c : TenantConnection) (sql : string)
  (params : list P) : RpcCall P :=
  mkRpc "exec_sql" (tenant_sql (conn_schema c) sql) params.

(** Textual form of a PostgreSQL [UUID] value: 8-4-4-4-12 hexadecimal
    digits separated by hyphens.  [true] marks a hyphen position. *)
Definition is_hex_digit (c : ascii) : bool :=
  let n := nat_of_ascii c in
  ((48 <=? n)%nat && (n <=? 57)%nat) || ((97 <=? n)%nat && (n <=? 102)%nat).

Definition uuid_shape : list bool :=
  (repeat false 8 ++ [true] ++ repeat false 4 ++ [true] ++ repeat false 4
   ++ [true] ++ repeat false 4 ++ [true] ++ repeat false 12)%list.

Fixpoint has_shape (shape : list bool) (s : string) : bool :=
  match shape, s with
  | [], EmptyString => true
  | true :: sh, String c s' => (c =? "-")%char && has_shape sh s'
  | false :: sh, String c s' => is_hex_digit c && has_shape sh s'
  | _, _ => false
  end.

Definition is_uuid (s : string) : bool := has_shape uuid_shape s.

End Tenant.

(* ================================================================== *)
(** * JavaScript values, exceptions and the effect monad *)
(* ================================================================== *)

Module Js.

(** Built-ins of the runtime that a property read returns without the
    data holding them.  The first twelve are the members every plain
    object inherits from [Object.prototype]: what [o[k]] gives when [o]
    has no own property [k] and [k] is one of these names; eleven are
    functions, [__proto__] gives [Object.prototype] itself.  The last is
    the method [search] of [String.prototype], the one member of the
    prototype of a string, array, number, boolean or function whose name
    the server reads with a literal name ([filters?.search]). *)
Inductive Builtin : Type :=
| B_constructor             (* [constructor], the function [Object] *)
| B_defineGetter            (* [__defineGetter__] *)
| B_defineSetter            (* [__defineSetter__] *)
| B_hasOwnProperty          (* [hasOwnProperty] *)
| B_lookupGetter            (* [__lookupGetter__] *)
| B_lookupSetter            (* [__lookupSetter__] *)
| B_isPrototypeOf           (* [isPrototypeOf] *)
| B_propertyIsEnumerable    (* [propertyIsEnumerable] *)
| B_toString                (* [toString] *)
| B_valueOf                 (* [valueOf] *)
| B_proto                   (* [__proto__], the object [Object.prototype] *)
| B_toLocaleString          (* [toLocaleString] *)
| B_search                  (* [String.prototype.search] *).

(** Untyped data ([any]): request bodies, query strings, SQL parameters
    and the rows the generic RPC returns.  Numbers are the safe integers
    (of magnitude below 2^53), which print as their decimal digits.  A
    [VObj] is a plain object (its prototype is [Object.prototype]) with
    the own properties listed, as [JSON.parse] and the query-string
    parser build them; a [VBuiltin] is what a read through the prototype
    chain returns.  Parameter arrays hold the values as the code passes
    them to the RPC client, not their JSON rendering (in which
    [undefined] and a function inside an array become [null]). *)
Inductive Value : Type :=
| VUndefined
| VNull
| VBool (b : bool)
| VNum (n : Z)
| VStr (s : string)
| VArr (xs : list Value)
| VObj (fields : list (string * Value))
| VBuiltin (b : Builtin).

(** Exceptions the server code throws or receives. *)
Inductive Exn : Type :=
| Error (message : string)          (* [new Error(message)] *)
| TypeError (message : string)      (* a read on [undefined]/[null], a failed conversion *)
| TokenExpiredError                 (* [jwt.TokenExpiredError] *)
| JsonWebTokenError                 (* any other [jwt.verify] failure *)
| PostgrestError (message : string) (* the [error] member of an RPC result *).

Inductive Result (A : Type) : Type :=
| Ok (a : A)
| Throw (e : Exn).
Arguments Ok {A} _.
Arguments Throw {A} _.

(** Truthiness ([if (v)], [!v], [a || b], [a && b]). *)
Definition truthy (v : Value) : bool :=
  match v with
  | VUndefined | VNull => false
  | VBool b => b
  | VNum n => negb (n =? 0)%Z
  | VStr s => negb (s =? "")
  | VArr _ | VObj _ | VBuiltin _ => true
  end.

Definition js_or (a b : Value) : Value := if truthy a then a else b.

(** Strict equality with a string literal: [v === 'lit']. *)
Definition is_str (v : Value) (lit : string) : bool :=
  match v with
  | VStr s => (s =? lit)
  | _ => false
  end.

Fixpoint assoc (k : string) (fields : list (string * Value)) : Value :=
  match fields with
  | [] => VUndefined
  | (k', v) :: rest => if (k' =? k) then v else assoc k rest
  end.

(** Property read [v.k] with one of the literal names the server
    reads: a [TypeError] on [undefined] and [null], [undefined] for a
    property that is absent.  None of those names is a member of
    [Object.prototype]; a string has the method [search]. *)
Definition get_prop (v : Value) (k : string) : Result Value :=
  match v with
  | VUndefined | VNull =>
      Throw (TypeError ("Cannot read properties of undefined (reading '"
                        ++ k ++ "')"))
  | VObj fields => Ok (assoc k fields)
  | VStr _ => Ok (if (k =? "search") then VBuiltin B_search else VUndefined)
  | _ => Ok VUndefined
  end.

(** Optional chaining [v?.k], and the read behind a destructuring. *)
Definition get_opt (v : Value) (k : string) : Value :=
  match v with
  | VObj fields => assoc k fields
  | VStr _ => if (k =? "search") then VBuiltin B_search else VUndefined
  | _ => VUndefined
  end.

(** Object destructuring [const { a, b } = v]: a [TypeError] on
    [undefined] and [null], otherwise every name reads its property. *)
Definition destructure (v : Value) : Result (string -> Value) :=
  match v with
  | VUndefined | VNull =>
      Throw (TypeError "Cannot destructure property of undefined")
  | _ => Ok (get_opt v)
  end.

Definition string_of_nat (n : nat) : string :=
  NilZero.string_of_uint (Nat.to_uint n).

Definition string_of_Z (n : Z) : string :=
  NilZero.string_of_int (Z.to_int n).

(** Sequencing of pure steps that may throw. *)
Definition rbind {A B} (r : Result A) (k : A -> Result B) : Result B :=
  match r with
  | Ok a => k a
  | Throw e => Throw e
  end.

(** The names under which [Object.prototype] has a member. *)
Definition inherited_members : list (string * Builtin) :=
  [ ("constructor", B_constructor);
    ("__defineGetter__", B_defineGetter);
    ("__defineSetter__", B_defineSetter);
    ("hasOwnProperty", B_hasOwnProperty);
    ("__lookupGetter__", B_lookupGetter);
    ("__lookupSetter__", B_lookupSetter);
    ("isPrototypeOf", B_isPrototypeOf);
    ("propertyIsEnumerable", B_propertyIsEnumerable);
    ("toString", B_toString);
    ("valueOf", B_valueOf);
    ("__proto__", B_proto);
    ("toLocaleString", B_toLocaleString) ].

Fixpoint inherited_in (k : string) (members : list (string * Builtin))
  : option Builtin :=
  match members with
  | [] => None
  | (k', b) :: rest => if (k' =? k) then Some b else inherited_in k rest
  end.

(** The member of [Object.prototype] named [k], if there is one. *)
Definition inherited (k : string) : option Builtin :=
  inherited_in k inherited_members.

(** How a built-in function prints. *)
Definition native (name : string) : string :=
  "function " ++ name ++ "() { [native code] }".

(** The string conversion of the inherited members. *)
Definition builtin_text (b : Builtin) : string :=
  match b with
  | B_constructor => native "Object"
  | B_defineGetter => native "__defineGetter__"
  | B_defineSetter => native "__defineSetter__"
  | B_hasOwnProperty => native "hasOwnProperty"
  | B_lookupGetter => native "__lookupGetter__"
  | B_lookupSetter => native "__lookupSetter__"
  | B_isPrototypeOf => native "isPrototypeOf"
  | B_propertyIsEnumerable => native "propertyIsEnumerable"
  | B_toString => native "toString"
  | B_valueOf => native "valueOf"
  | B_proto => "[object Object]"
  | B_toLocaleString => native "toLocaleString"
  | B_search => native "search"
  end.

(** The object has an own property named [k] (whatever its value). *)
Definition has_own (k : string) (fields : list (string * Value)) : bool :=
  existsb (fun kv => (fst kv =? k)) fields.

(** The error of a string conversion that finds no usable [toString]
    or [valueOf]. *)
Definition not_primitive : Exn :=
  TypeError "Cannot convert object to primitive value".

(** String conversion, as a template literal [`${v}`] and a computed
    property key [o[v]] perform it.  An array joins the conversions of
    its elements, [null] and [undefined] giving the empty string.  A
    plain object is converted by its [toString]: the inherited one
    answers "[object Object]"; an own property [toString] hides it, and
    since no value of the data is callable (and the inherited [valueOf]
    returns the object itself) the conversion then throws a
    [TypeError]. *)
Fixpoint to_js_string (v : Value) : Result string :=
  match v with
  | VUndefined => Ok "undefined"
  | VNull => Ok "null"
  | VBool true => Ok "true"
  | VBool false => Ok "false"
  | VNum n => Ok (string_of_Z n)
  | VStr s => Ok s
  | VArr xs =>
      (fix elems (l : list Value) : Result string :=
         match l with
         | [] => Ok ""
         | x :: r =>
             match (match x with
                    | VUndefined | VNull => Ok ""
                    | _ => to_js_string x
                    end) with
             | Throw e => Throw e
             | Ok e =>
                 match r with
                 | [] => Ok e
                 | _ => match elems r with
                        | Throw e' => Throw e'
                        | Ok t => Ok (e ++ "," ++ t)
                        end
                 end
             end
         end) xs
  | VObj fields =>
      if has_own "toString" fields then Throw not_primitive
      else Ok "[object Object]"
  | VBuiltin b => Ok (builtin_text b)
  end.

(** The template literal [`%${v}%`]. *)
Definition like_pattern (v : Value) : Result Value :=
  rbind (to_js_string v) (fun s => Ok (VStr ("%" ++ s ++ "%"))).

(** [xs[0]] on an array of rows. *)
Definition first (xs : list Value) : Value := hd VUndefined xs.

(** State-passing computations that may throw: the shape of every
    [async] method of the server. *)
Definition M (S A : Type) : Type := S -> Result A * S.

Definition ret {S A} (a : A) : M S A := fun s => (Ok a, s).

Definition throw {S A} (e : Exn) : M S A := fun s => (Throw e, s).

Definition bind {S A B} (m : M S A) (k : A -> M S B) : M S B :=
  fun s =>
    match m s with
    | (Ok a, s') => k a s'
    | (Throw e, s') => (Throw e, s')
    end.

(** [try { body } catch (error) { handler }]. *)
Definition try_catch {S A} (body : M S A) (handler : Exn -> M S A) : M S A :=
  fun s =>
    match body s with
    | (Ok a, s') => (Ok a, s')
    | (Throw e, s') => handler e s'
    end.

(** A pure step that may throw. *)
Definition lift {S A} (r : Result A) : M S A := fun s => (r, s).

(** [Promise.all] over calls that were all started: every call runs, the
    whole rejects with the first rejection in array order. *)
Fixpoint all {S A} (ms : list (M S A)) : M S (list A) :=
  match ms with
  | [] => ret []
  | m :: rest =>
      fun s =>
        match m s with
        | (Ok a, s1) =>
            match all rest s1 with
            | (Ok xs, s2) => (Ok (a :: xs), s2)
            | (Throw e, s2) => (Throw e, s2)
            end
        | (Throw e, s1) => (Throw e, snd (all rest s1))
        end
  end.

End Js.

Declare Scope js_scope.
Delimit Scope js_scope with js.
Notation "x <- c ;; k" := (Js.bind c (fun x => k))
  (at level 61, c at next level, right associativity) : js_scope.
Notation "c ;;; k" := (Js.bind c (fun _ => k))
  (at level 61, right associativity) : js_scope.

(* ================================================================== *)
(** * HTTP requests and responses (Express) *)
(* ================================================================== *)

Module Http.
Import Js.

(** [AuthenticatedUser] of [server/middleware/auth.ts].  [accountType] is
    read from the nullable column [admin.users.account_type]. *)
Record AuthenticatedUser : Type := mkUser {
  usr_id : string;
  usr_tenantId : string;
  usr_email : string;
  usr_name : string;
  usr_accountType : option string
}.

(** The parts of an Express request the server reads or sets. *)
Record Request : Type := mkRequest {
  req_authorization : option string;   (* [req.headers.authorization] *)
  req_query : Value;                   (* [req.query] *)
  req_params_id : string;              (* [req.params.id] *)
  req_body : Value;                    (* [req.body] *)
  req_user : option AuthenticatedUser; (* [req.user] *)
  req_tenantId : option string;        (* [req.tenantId] *)
  req_tenantSchema : option string     (* [req.tenantSchema] *)
}.

Inductive Body : Type :=
| BJson (v : Value)     (* [res.json(v)] *)
| BText (s : string)    (* [res.send(s)] *).

Record Response : Type := mkResponse {
  res_status : Z;
  res_headers : list (string * string);
  res_body : Body
}.

(** [res.status(code).json(v)]; [res.json(v)] answers 200. *)
Definition json (code : Z) (v : Value) : Response :=
  mkResponse code [] (BJson v).

(** [{ error: msg }]. *)
Definition error_body (msg : string) : Value := VObj [("error", VStr msg)].

(** What a middleware does with a request: answer it, or call [next()]
    with the request as it left it. *)
Inductive Outcome : Type :=
| Respond (r : Response)
| Next (req : Request).

Definition set_auth (req : Request) (u : AuthenticatedUser) (tenantId schema : string)
  : Request :=
  mkRequest (req_authorization req) (req_query req) (req_params_id req)
            (req_body req) (Some u) (Some tenantId) (Some schema).

End Http.

(* ================================================================== *)
(** * [server/middleware/auth.ts] *)
(* ================================================================== *)

Module Auth.
Import Js JsString Tenant Http.

(** A row of [admin.users].  [tenant_id] and [account_type] are nullable;
    a NULL [is_active] behaves like [false] at both places that read it
    ([!user.is_active], [.eq('is_active', true)]) and is stored as such. *)
Record AdminUser : Type := mkAdminUser {
  u_id : string;
  u_tenant_id : option string;
  u_email : string;
  u_password_hash : string;
  u_name : string;
  u_account_type : option string;
  u_is_active : bool;
  u_last_login : option Z
}.

(** A row of [admin.refresh_tokens]; [expires_at] in milliseconds. *)
Record RefreshToken : Type := mkRefreshToken {
  rt_id : string;
  rt_user_id : string;
  rt_token_hash : string;
  rt_expires_at : Z;
  rt_is_active : bool
}.

Record AdminDb : Type := mkAdminDb {
  users : list AdminUser;
  refresh_tokens : list RefreshToken
}.

(** What one call reads from its environment: the clock ([Date.now()],
    in milliseconds), the salt [bcrypt.hash] draws and the primary key
    the database generates for an inserted row. *)
Record Env : Type := mkEnv {
  env_now : Z;
  env_salt : string;
  env_new_id : string
}.

Record Tokens : Type := mkTokens {
  accessToken : string;
  refreshToken : string
}.

(** PostgREST [.single()]: the row when exactly one matches, an error
    otherwise. *)
Definition single {A} (rows : list A) : option A :=
  match rows with
  | [r] => Some r
  | _ => None
  end.

(** [.eq(column, v)] against a text or uuid column. *)
Definition eq_col (v : Value) (col : string) : bool :=
  match v with
  | VStr s => (s =? col)
  | _ => false
  end.

(** [authHeader && authHeader.split(' ')[1]]; [None] is [undefined]. *)
Definition bearer_token (authHeader : option string) : option string :=
  match authHeader with
  | None => None
  | Some h => if (h =? "") then Some "" else nth_error (split " " h) 1
  end.

(** [!token]. *)
Definition no_token (token : option string) : bool :=
  match token with
  | None => true
  | Some t => (t =? "")
  end.

Definition opt_str (o : option string) : Value :=
  match o with
  | Some s => VStr s
  | None => VNull
  end.

(** [(error as any).userId]: no exception of the model carries one. *)
Definition exn_userId (e : Exn) : Value := VUndefined.

Definition deactivate (t : RefreshToken) : RefreshToken :=
  mkRefreshToken (rt_id t) (rt_user_id t) (rt_token_hash t) (rt_expires_at t) false.

Definition touch_login (now : Z) (u : AdminUser) : AdminUser :=
  mkAdminUser (u_id u) (u_tenant_id u) (u_email u) (u_password_hash u)
              (u_name u) (u_account_type u) (u_is_active u) (Some now).

Section Libraries.

(** [jsonwebtoken] and [bcryptjs] are external libraries and the two
    secrets come from the process environment. *)
Variable JWT_ACCESS_SECRET JWT_REFRESH_SECRET : string.
(** [jwt.verify(token, secret)] at a given instant. *)
Variable jwt_verify : string -> string -> Z -> Result Value.
(** [jwt.sign(payload, secret, { expiresIn })] at a given instant. *)
Variable jwt_sign : Value -> string -> string -> Z -> string.
(** [bcrypt.hash(data, rounds)] with the salt it drew. *)
Variable bcrypt_hash : string -> nat -> string -> string.
(** [bcrypt.compare(data, hash)]. *)
Variable bcrypt_compare : string -> string -> bool.

(** The [try] block of [authenticateToken], after the token check. *)
Definition authenticate_try (now : Z) (req : Request) (token : string)
  (db : AdminDb) : Result Outcome :=
  rbind (jwt_verify token JWT_ACCESS_SECRET now) (fun decoded =>
  rbind (get_prop decoded "userId") (fun userId =>
  match single (filter (fun u => eq_col userId (u_id u)) (users db)) with
  | None =>
      Ok (Respond (json 401 (error_body "Usuário inativo ou não encontrado")))
  | Some user =>
      if negb (u_is_active user) then
        Ok (Respond (json 401 (error_body "Usuário inativo ou não encontrado")))
      else
        match u_tenant_id user with
        | None =>
            Throw (TypeError "Cannot read properties of null (reading 'replace')")
        | Some tenant_id =>
            Ok (Next (set_auth req
                        (mkUser (u_id user) tenant_id (u_email user)
                                (u_name user) (u_account_type user))
                        tenant_id (schema_of tenant_id)))
        end
  end)).

Definition authenticateToken (now : Z) (req : Request) (db : AdminDb)
  : Outcome :=
  let token := bearer_token (req_authorization req) in
  if no_token token then
    Respond (json 401 (error_body "Token de acesso necessário"))
  else
    match authenticate_try now req (match token with Some t => t | None => "" end) db with
    | Ok o => o
    | Throw TokenExpiredError =>
        Respond (json 401 (VObj [("error", VStr "Token expirado");
                                 ("code", VStr "TOKEN_EXPIRED")]))
    | Throw _ => Respond (json 403 (error_body "Token inválido"))
    end.

(** The request a middleware hands to [next()] carries the user of one
    active row of [admin.users], found through the token. *)
Definition resolves (now : Z) (req : Request) (db : AdminDb) (req' : Request)
  : Prop :=
  exists (token : string) (decoded userId : Value) (row : AdminUser)
         (tenant_id : string),
    bearer_token (req_authorization req) = Some token
    /\ token <> ""
    /\ jwt_verify token JWT_ACCESS_SECRET now = Ok decoded
    /\ get_prop decoded "userId" = Ok userId
    /\ In row (users db)
    /\ eq_col userId (u_id row) = true
    /\ u_is_active row = true
    /\ u_tenant_id row = Some tenant_id
    /\ req_user req' = Some (mkUser (u_id row) tenant_id (u_email row)
                                     (u_name row) (u_account_type row))
    /\ req_tenantId req' = Some tenant_id
    /\ req_tenantSchema req' = Some (schema_of tenant_id).

(** [requireAccountType(allowedTypes)]: reading [req.user.accountType]
    throws when no user was attached to the request. *)
Definition requireAccountType (allowedTypes : list string) (req : Request)
  : Result Outcome :=
  match req_user req with
  | None =>
      Throw (TypeError "Cannot read properties of undefined (reading 'accountType')")
  | Some u =>
      let userAccountType := usr_accountType u in
      let allowed :=
        match userAccountType with
        | Some t => includes allowedTypes t
        | None => false
        end in
      if negb allowed then
        Ok (Respond (json 403 (VObj [
              ("error", VStr "Acesso negado");
              ("required", VArr (map VStr allowedTypes));
              ("current", opt_str userAccountType);
              ("message", VStr ("Apenas contas " ++ join ", " allowedTypes
                                ++ " têm acesso a esta funcionalidade"))])))
      else Ok (Next req)
  end.

(** [AuthService.generateTokens]. *)
Definition generateTokens (env : Env) (user : AdminUser) : M AdminDb Tokens :=
  fun db =>
    let payload := VObj [("userId", VStr (u_id user));
                         ("tenantId", opt_str (u_tenant_id user));
                         ("email", VStr (u_email user));
                         ("accountType", opt_str (u_account_type user))] in
    let accessToken := jwt_sign payload JWT_ACCESS_SECRET "15m" (env_now env) in
    let refreshToken :=
      jwt_sign (VObj [("userId", VStr (u_id user)); ("type", VStr "refresh")])
               JWT_REFRESH_SECRET "7d" (env_now env) in
    let hashedRefreshToken := bcrypt_hash refreshToken 10 (env_salt env) in
    let row := mkRefreshToken (env_new_id env) (u_id user) hashedRefreshToken
                 (env_now env + 7 * 24 * 60 * 60 * 1000)%Z true in
    (Ok (mkTokens accessToken refreshToken),
     mkAdminDb (users db) (refresh_tokens db ++ [row])).

(** [.update({ is_active: false }).eq('id', id)]. *)
Definition deactivate_by_id (id : string) : M AdminDb unit :=
  fun db =>
    (Ok tt,
     mkAdminDb (users db)
       (map (fun t => if (rt_id t =? id) then deactivate t else t)
            (refresh_tokens db))).

(** [.update({ is_active: false }).eq('user_id', v)]. *)
Definition deactivate_by_user (v : Value) : M AdminDb unit :=
  fun db =>
    (Ok tt,
     mkAdminDb (users db)
       (map (fun t => if eq_col v (rt_user_id t) then deactivate t else t)
            (refresh_tokens db))).

(** The [try] block of [AuthService.refreshAccessToken]. *)
Definition refresh_try (env : Env) (refreshToken : string) : M AdminDb Tokens :=
  fun db =>
    match jwt_verify refreshToken JWT_REFRESH_SECRET (env_now env) with
    | Throw e => (Throw e, db)
    | Ok decoded =>
      match get_prop decoded "userId" with
      | Throw e => (Throw e, db)
      | Ok userId =>
        let storedTokens :=
          filter (fun t => eq_col userId (rt_user_id t) && rt_is_active t
                           && (env_now env <? rt_expires_at t)%Z)
                 (refresh_tokens db) in
        match storedTokens with
        | [] => (Throw (Error "Refresh token inválido"), db)
        | _ =>
          match find (fun stored => bcrypt_compare refreshToken (rt_token_hash stored))
                     storedTokens with
          | None => (Throw (Error "Refresh token inválido"), db)
          | Some validToken =>
            let db1 := snd (deactivate_by_id (rt_id validToken) db) in
            match single (filter (fun u => eq_col userId (u_id u)) (users db1)) with
            | None => (Throw (Error "Usuário inativo"), db1)
            | Some user =>
                if negb (u_is_active user) then (Throw (Error "Usuário inativo"), db1)
                else generateTokens env user db1
            end
          end
        end
      end
    end.

Definition refreshAccessToken (env : Env) (refreshToken : string)
  : M AdminDb Tokens :=
  try_catch (refresh_try env refreshToken)
    (fun error =>
       bind (if truthy (exn_userId error)
             then deactivate_by_user (exn_userId error)
             else ret tt)
            (fun _ => throw (Error "Refresh token inválido"))).

(** [AuthService.login]. *)
Definition login (env : Env) (email password : string) : M AdminDb Tokens :=
  fun db =>
    match single (filter (fun u => (u_email u =? email) && u_is_active u)
                         (users db)) with
    | None => (Throw (Error "Email ou senha incorretos"), db)
    | Some user =>
        let isValid := bcrypt_compare password (u_password_hash user) in
        if negb isValid then (Throw (Error "Email ou senha incorretos"), db)
        else
          let db1 :=
            mkAdminDb
              (map (fun u => if (u_id u =? u_id user)
                             then touch_login (env_now env) u else u)
                   (users db))
              (refresh_tokens db) in
          generateTokens env user db1
    end.

End Libraries.

End Auth.

(* ================================================================== *)
(** * The tenant schema and the world a service runs in *)
(* ================================================================== *)

Module Schema.
Import Js Tenant.

(** A row of [<schema>.publications] (migration, "Painel de
    Publicações").  Dates and timestamps are integers; a nullable column
    is an [option]. *)
Record Publication : Type := mkPublication {
  pub_id : string;
  pub_user_id : string;
  pub_data_publicacao : Z;
  pub_processo : string;
  pub_diario : string;
  pub_vara_comarca : string;
  pub_nome_pesquisado : string;
  pub_status : option string;
  pub_conteudo : option string;
  pub_observacoes : option string;
  pub_responsavel : option string;
  pub_numero_processo : option string;
  pub_cliente : option string;
  pub_urgencia : option string;
  pub_tags : list string;
  pub_atribuido_para_id : option string;
  pub_atribuido_para_nome : option string;
  pub_data_atribuicao : option Z;
  pub_tarefas_vinculadas : list string;
  pub_created_at : option Z;
  pub_updated_at : option Z
}.

(** The columns [BaseService.auditLog] inserts into [<schema>.audit_log]. *)
Record AuditEntry : Type := mkAudit {
  al_user_id : Value;
  al_table_name : Value;
  al_record_id : Value;
  al_operation : Value;
  al_old_data : Value;
  al_new_data : Value
}.

(** The columns [BaseService.createNotification] inserts into
    [<schema>.notifications]. *)
Record Notification : Type := mkNotification {
  nt_type : Value;
  nt_title : Value;
  nt_message : Value;
  nt_category : Value;
  nt_entity_type : Value;
  nt_entity_id : Value;
  nt_action_data : Value;
  nt_user_id : Value;
  nt_created_by : Value
}.

Section Tables.

(** [Rest] stands for the other tables of the tenant schema ([clients],
    [projects], [tasks], [cash_flow], [billing], [invoices]). *)
Variable Rest : Type.

Record TenantDb : Type := mkTenantDb {
  publications : list Publication;
  audit_log : list AuditEntry;
  notifications : list Notification;
  db_now : Z;                 (* the engine's [NOW()] *)
  rest : Rest
}.

(** [faults]: one flag per RPC still to come, [true] when the engine or
    the transport fails that call; an exhausted script means no fault.
    [rpc_log]: the RPC requests sent so far.  [calls]: the service
    methods entered so far (bookkeeping of the model, read by no code). *)
Record World : Type := mkWorld {
  db : TenantDb;
  faults : list bool;
  rpc_log : list (RpcCall Value);
  calls : list string
}.

Definition set_publications (ps : list Publication) (d : TenantDb) : TenantDb :=
  mkTenantDb ps (audit_log d) (notifications d) (db_now d) (rest d).

Definition set_rest (r : Rest) (d : TenantDb) : TenantDb :=
  mkTenantDb (publications d) (audit_log d) (notifications d) (db_now d) r.

Definition add_audit (e : AuditEntry) (d : TenantDb) : TenantDb :=
  mkTenantDb (publications d) (audit_log d ++ [e]) (notifications d)
             (db_now d) (rest d).

Definition add_notification (n : Notification) (d : TenantDb) : TenantDb :=
  mkTenantDb (publications d) (audit_log d) (notifications d ++ [n])
             (db_now d) (rest d).

End Tables.

Arguments mkTenantDb {Rest} _ _ _ _ _.
Arguments publications {Rest} _.
Arguments audit_log {Rest} _.
Arguments notifications {Rest} _.
Arguments db_now {Rest} _.
Arguments rest {Rest} _.
Arguments mkWorld {Rest} _ _ _ _.
Arguments db {Rest} _.
Arguments faults {Rest} _.
Arguments rpc_log {Rest} _.
Arguments calls {Rest} _.
Arguments set_publications {Rest} _ _.
Arguments set_rest {Rest} _ _.
Arguments add_audit {Rest} _ _.
Arguments add_notification {Rest} _ _.

End Schema.

(* ================================================================== *)
(** * [BaseService] *)
(* ================================================================== *)

Module Service.
Import Js JsString Tenant Http Schema.
Local Open Scope js_scope.

(** What [client.rpc] resolves to: [{ data, error }]. *)
Inductive RpcResult (R : Type) : Type :=
| RpcData (data : R)
| RpcError (message : string).
Arguments RpcData {R} _.
Arguments RpcError {R} _.

(** The fields of a [BaseService] instance. *)
Record BaseService : Type := mkService {
  user : AuthenticatedUser;
  tenantId : string;
  tenantSchema : string
}.

(** [constructor(user)]. *)
Definition new_service (u : AuthenticatedUser) : BaseService :=
  mkService u (usr_tenantId u) (schema_of (usr_tenantId u)).

(** [requirePermission(permission, module)]. *)
Definition requirePermission (self : BaseService) (permission module_ : string)
  : Result bool :=
  let accountType := usr_accountType (user self) in
  let account_is t :=
    match accountType with Some a => (a =? t) | None => false end in
  if account_is "simples"
     && includes ["cash_flow"; "financial_dashboard"] module_ then
    Throw (Error "Conta Simples não tem acesso a dados financeiros")
  else if (module_ =? "settings") && negb (account_is "gerencial") then
    Throw (Error "Apenas Conta Gerencial pode acessar configurações")
  else Ok true.

Section WithRest.

Variable Rest : Type.
(** [JSON.stringify], a builtin. *)
Variable JSON_stringify : Value -> Value.

Local Abbreviation World := (World Rest).
Local Abbreviation TenantDb := (TenantDb Rest).

(** A SQL statement as a service hands it to [query]: the template text,
    the parameter array, and what the engine does with the final text. *)
Record Stmt (R : Type) : Type := mkStmt {
  sql : string;
  params : list Value;
  denot : string -> TenantDb -> R * TenantDb
}.
Arguments mkStmt {R} _ _ _.
Arguments sql {R} _.
Arguments params {R} _.
Arguments denot {R} _.

(** Bookkeeping: a service method was entered. *)
Definition entered (method : string) (w : World) : World :=
  mkWorld (db w) (faults w) (rpc_log w) (calls w ++ [method]).

Definition enter (method : string) : M World unit :=
  fun w => (Ok tt, entered method w).

(** [supabaseAdmin.rpc(fn, { query, params })]: the request is sent; a
    faulting call resolves to an error and changes nothing. *)
Definition supabase_rpc {R} (fn text : string) (ps : list Value)
  (run : TenantDb -> R * TenantDb) : M World (RpcResult R) :=
  fun w =>
    let log := (rpc_log w ++ [mkRpc fn text ps])%list in
    match faults w with
    | true :: fs =>
        (Ok (RpcError "exec_sql failed"), mkWorld (db w) fs log (calls w))
    | _ =>
        let (data, d) := run (db w) in
        (Ok (RpcData data), mkWorld d (tl (faults w)) log (calls w))
    end.

(** Does the next RPC fault? *)
Definition next_fault (w : World) : bool :=
  match faults w with
  | true :: _ => true
  | _ => false
  end.

(** The request [query] sends for a statement. *)
Definition request_of {R} (self : BaseService) (s : Stmt R) : RpcCall Value :=
  mkRpc "exec_sql" (tenant_sql (tenantSchema self) (sql s)) (params s).

(** The world after a statement ran, or failed to. *)
Definition after_query {R} (self : BaseService) (s : Stmt R) (w : World)
  : World :=
  mkWorld (if next_fault w then db w
           else snd (denot s (tenant_sql (tenantSchema self) (sql s)) (db w)))
          (tl (faults w))
          (rpc_log w ++ [request_of self s])
          (calls w).

(** [BaseService.query]. *)
Definition query {R} (self : BaseService) (s : Stmt R) : M World R :=
  try_catch
    (let tenantSql := tenant_sql (tenantSchema self) (sql s) in
     res <- supabase_rpc "exec_sql" tenantSql (params s) (denot s tenantSql) ;;
     match res with
     | RpcError m => throw (PostgrestError m)
     | RpcData data => ret data
     end)
    (fun _ => throw (Error "Erro na consulta ao banco de dados")).

(** [v ? JSON.stringify(v) : null]. *)
Definition stringify_or_null (v : Value) : Value :=
  if truthy v then JSON_stringify v else VNull.

Definition audit_sql : string := "
        INSERT INTO ${schema}.audit_log (
          user_id, table_name, record_id, operation, old_data, new_data, created_at
        ) VALUES ($1, $2, $3, $4, $5, $6, NOW())
      ".

Definition audit_stmt (ps : list Value) : Stmt unit :=
  mkStmt audit_sql ps
    (fun _ d =>
       (tt, add_audit (mkAudit (nth 0 ps VNull) (nth 1 ps VNull) (nth 2 ps VNull)
                               (nth 3 ps VNull) (nth 4 ps VNull) (nth 5 ps VNull)) d)).

(** [BaseService.auditLog]. *)
Definition auditLog (self : BaseService) (tableName operation : string)
  (recordId oldData newData : Value) : M World unit :=
  try_catch
    (query self (audit_stmt [VStr (usr_id (user self)); VStr tableName; recordId;
                             VStr operation; stringify_or_null oldData;
                             stringify_or_null newData]) ;;; ret tt)
    (fun _ => ret tt).

Definition notification_sql : string := "
        INSERT INTO ${schema}.notifications (
          type, title, message, category, entity_type, entity_id, 
          action_data, user_id, created_by, created_at
        ) VALUES ($1, $2, $3, $4, $5, $6, $7, $8, $9, NOW())
      ".

Definition notification_stmt (ps : list Value) : Stmt unit :=
  mkStmt notification_sql ps
    (fun _ d =>
       (tt, add_notification
              (mkNotification (nth 0 ps VNull) (nth 1 ps VNull) (nth 2 ps VNull)
                 (nth 3 ps VNull) (nth 4 ps VNull) (nth 5 ps VNull)
                 (nth 6 ps VNull) (nth 7 ps VNull) (nth 8 ps VNull)) d)).

(** [BaseService.createNotification]; an omitted optional argument is
    [VUndefined]. *)
Definition createNotification (self : BaseService)
  (type title message category : string)
  (entityType entityId actionData userId : Value) : M World unit :=
  try_catch
    (query self (notification_stmt [VStr type; VStr title; VStr message;
                                    VStr category; entityType; entityId;
                                    stringify_or_null actionData; userId;
                                    VStr (usr_name (user self))]) ;;; ret tt)
    (fun _ => ret tt).

End WithRest.

Arguments mkStmt {Rest R} _ _ _.
Arguments sql {Rest R} _.
Arguments params {Rest R} _.
Arguments denot {Rest R} _.
Arguments entered {Rest} _ _.
Arguments enter {Rest} _ _.
Arguments supabase_rpc {Rest R} _ _ _ _ _.
Arguments query {Rest R} _ _ _.
Arguments next_fault {Rest} _.
Arguments request_of {Rest R} _ _.
Arguments after_query {Rest R} _ _ _.
Arguments auditLog {Rest} _ _ _ _ _ _ _ _.
Arguments createNotification {Rest} _ _ _ _ _ _ _ _ _ _ _.

End Service.

(* ================================================================== *)
(** * [CashFlowService] and the cash-flow router *)
(* ================================================================== *)

Module CashFlow.
Import Js JsString Tenant Http Schema Service.
Local Open Scope js_scope.

Definition getAll_sql : string := "
      SELECT * FROM ${schema}.cash_flow 
      WHERE 1=1
    ".

Definition order_by_sql : string := " ORDER BY date DESC, created_at DESC".

Definition getById_sql : string := "
      SELECT * FROM ${schema}.cash_flow WHERE id = $1
    ".

Definition project_sql : string := "
        SELECT p.title, c.name as client_name 
        FROM ${schema}.projects p
        LEFT JOIN ${schema}.clients c ON p.client_id = c.id
        WHERE p.id = $1
      ".

Definition insert_sql : string := "
      INSERT INTO ${schema}.cash_flow (
        type, amount, category_id, category_name, description, date,
        payment_method, status, tags, project_id, project_title,
        client_id, client_name, is_recurring, recurring_frequency,
        notes, created_by, created_at, updated_at
      ) VALUES (
        $1, $2, $3, $4, $5, $6, $7, $8, $9, $10, $11, $12, $13, $14, $15, $16, $17,
        NOW(), NOW()
      ) RETURNING *
    ".

Definition update_sql : string := "
      UPDATE ${schema}.cash_flow SET
        type = COALESCE($1, type),
        amount = COALESCE($2, amount),
        category_id = COALESCE($3, category_id),
        category_name = COALESCE($4, category_name),
        description = COALESCE($5, description),
        date = COALESCE($6, date),
        payment_method = COALESCE($7, payment_method),
        status = COALESCE($8, status),
        tags = COALESCE($9, tags),
        project_id = COALESCE($10, project_id),
        client_id = COALESCE($11, client_id),
        is_recurring = COALESCE($12, is_recurring),
        recurring_frequency = COALESCE($13, recurring_frequency),
        notes = COALESCE($14, notes),
        updated_at = NOW()
      WHERE id = $15
      RETURNING *
    ".

Definition delete_sql : string := "DELETE FROM ${schema}.cash_flow WHERE id = $1".

Definition totals_sql : string := "
        SELECT 
          SUM(CASE WHEN type = 'income' THEN amount ELSE 0 END) as total_income,
          SUM(CASE WHEN type = 'expense' THEN amount ELSE 0 END) as total_expenses
        FROM ${schema}.cash_flow
      ".

Definition monthly_sql : string := "
        SELECT 
          SUM(CASE WHEN type = 'income' THEN amount ELSE 0 END) as monthly_income,
          SUM(CASE WHEN type = 'expense' THEN amount ELSE 0 END) as monthly_expenses
        FROM ${schema}.cash_flow
        WHERE date >= DATE_TRUNC('month', NOW())
        AND date < DATE_TRUNC('month', NOW()) + INTERVAL '1 month'
      ".

Definition growth_sql : string := "
        WITH monthly_data AS (
          SELECT
            DATE_TRUNC('month', date) as month,
            SUM(CASE WHEN type = 'income' THEN amount ELSE -amount END) as balance
          FROM ${schema}.cash_flow
          WHERE date >= DATE_TRUNC('month', NOW() - INTERVAL '1 month')
          GROUP BY DATE_TRUNC('month', date)
        )
        SELECT
          COALESCE(
            ROUND(
              ((current_month.balance - previous_month.balance) * 100.0 / 
               NULLIF(ABS(previous_month.balance), 0)), 2
            ), 0
          ) as growth_percentage
        FROM monthly_data current_month
        CROSS JOIN monthly_data previous_month
        WHERE current_month.month = DATE_TRUNC('month', NOW())
        AND previous_month.month = DATE_TRUNC('month', NOW() - INTERVAL '1 month')
      ".

(** The table of [getCategoryName]. *)
Definition categories : list (string * string) :=
  [ ("honorarios", "Honorários advocatícios");
    ("consultorias", "Consultorias jurídicas");
    ("acordos", "Acordos e mediações");
    ("custas_reemb", "Custas judiciais reembolsadas");
    ("outros_servicos", "Outros serviços jurídicos");
    ("salarios", "Salários e encargos trabalhistas");
    ("aluguel", "Aluguel / condomínio");
    ("contas", "Contas (água, luz, internet)");
    ("material", "Material de escritório");
    ("marketing", "Marketing e publicidade");
    ("custas_judiciais", "Custas judiciais");
    ("treinamentos", "Treinamentos e cursos");
    ("transporte", "Transporte e viagens");
    ("manutencao", "Manutenção e equipamentos");
    ("impostos", "Impostos e taxas");
    ("oab", "Associações profissionais (OAB)");
    ("seguro", "Seguro profissional") ].

Fixpoint lookup (k : string) (table : list (string * string)) : option string :=
  match table with
  | [] => None
  | (k', v) :: rest => if (k' =? k) then Some v else lookup k rest
  end.

(** [table[key]] on an object literal of strings: the key is converted
    to a string; the read gives the own property of that name, else the
    member inherited from [Object.prototype], else [undefined]. *)
Definition index (table : list (string * string)) (key : Value)
  : Result Value :=
  rbind (to_js_string key) (fun k =>
    match lookup k table with
    | Some v => Ok (VStr v)
    | None =>
        match inherited k with
        | Some b => Ok (VBuiltin b)
        | None => Ok VUndefined
        end
    end).

(** [categories[categoryId] || categoryId]. *)
Definition getCategoryName (categoryId : Value) : Result Value :=
  rbind (index categories categoryId) (fun name =>
  Ok (js_or name categoryId)).

(** [sql += ` AND ... $${params.length + 1}`; params.push(p)]. *)
Definition push (clause : string) (p : Value) (acc : string * list Value)
  : string * list Value :=
  (fst acc ++ clause ++ "$" ++ string_of_nat (List.length (snd acc) + 1),
   (snd acc ++ [p])%list).

(** One optional filter of [getAll]:
    [if (v) { sql += ` AND ... $${params.length + 1}`; params.push(p) }]. *)
Definition add_filter (clause : string) (v p : Value)
  (acc : string * list Value) : string * list Value :=
  if truthy v then push clause p acc else acc.

Section WithEngine.

Variable Rest : Type.
(** The PostgreSQL engine on the tables of [Rest]: the rows a statement
    returns and the tables it leaves. *)
Variable engine : string -> list Value -> Rest -> list Value * Rest.
Variable JSON_stringify : Value -> Value.
(** JavaScript subtraction [a - b] (floating point). *)
Variable js_sub : Value -> Value -> Value.
(** The CSV rendering of [exportCSV] (dates by locale, [toFixed]); it
    throws when a row lacks what the rendering dereferences. *)
Variable render_csv : list Value -> Result string.
(** [new Date().toISOString().split('T')[0]] at the time of a request. *)
Variable today : string.

Local Abbreviation World := (World Rest).

(** A statement on the tables of [Rest]. *)
Definition pg (text : string) (ps : list Value) : Stmt Rest (list Value) :=
  mkStmt text ps
    (fun final d =>
       let (rows, r) := engine final ps (rest d) in (rows, set_rest r d)).

Definition getAll (self : BaseService) (filters : Value)
  : M World (list Value) :=
  enter "CashFlowService.getAll" ;;;
  _ <- lift (requirePermission self "read" "cash_flow") ;;
  let search := get_opt filters "search" in
  let q0 := (getAll_sql, @nil Value) in
  (* the search filter: its parameter is a template literal *)
  q1 <- lift (if truthy search
              then rbind (like_pattern search) (fun pattern =>
                   Ok (push " AND description ILIKE " pattern q0))
              else Ok q0) ;;
  let q2 := add_filter " AND type = " (get_opt filters "type")
              (get_opt filters "type") q1 in
  let q3 := add_filter " AND category_id = " (get_opt filters "category")
              (get_opt filters "category") q2 in
  let q4 := add_filter " AND status = " (get_opt filters "status")
              (get_opt filters "status") q3 in
  let q5 := add_filter " AND date >= " (get_opt filters "date_start")
              (get_opt filters "date_start") q4 in
  let q6 := add_filter " AND date <= " (get_opt filters "date_end")
              (get_opt filters "date_end") q5 in
  query self (pg (fst q6 ++ order_by_sql) (snd q6)).

Definition getById (self : BaseService) (id : string) : M World Value :=
  enter "CashFlowService.getById" ;;;
  _ <- lift (requirePermission self "read" "cash_flow") ;;
  results <- query self (pg getById_sql [VStr id]) ;;
  match results with
  | [] => throw (Error "Transação não encontrada")
  | r :: _ => ret r
  end.

Definition none_to_null (v : Value) : Value :=
  if is_str v "none" then VNull else v.

(** The parameter array of the INSERT of [create]. *)
Definition insert_params (self : BaseService) (f : string -> Value)
  (categoryName projectTitle clientName : Value) : list Value :=
  [ f "type"; f "amount"; f "category_id"; categoryName;
    f "description"; f "date"; f "payment_method";
    js_or (f "status") (VStr "confirmed");
    JSON_stringify (js_or (f "tags") (VArr []));
    none_to_null (f "project_id"); projectTitle;
    none_to_null (f "client_id"); clientName;
    js_or (f "is_recurring") (VBool false); f "recurring_frequency";
    f "notes"; VStr (usr_name (user self)) ].

(** [create] from [const transaction = results[0]] on: the audit log,
    the notification, the result.  The message of the notification is a
    template literal over [description], evaluated between the two
    calls. *)
Definition create_finish (self : BaseService) (type description : Value)
  (transaction : Value) : M World Value :=
  id <- lift (get_prop transaction "id") ;;
  auditLog JSON_stringify self "cash_flow" "CREATE" id VNull transaction ;;;
  text <- lift (to_js_string description) ;;
  createNotification JSON_stringify self "info"
    ("Nova " ++ (if is_str type "income" then "Receita" else "Despesa")
     ++ " Registrada")
    (usr_name (user self) ++ " registrou: " ++ text)
    "cash_flow" (VStr "transaction") id
    (VObj [("transaction_id", id); ("page", VStr "/fluxo-caixa")])
    VUndefined ;;;
  ret transaction.

Definition create (self : BaseService) (transactionData : Value)
  : M World Value :=
  enter "CashFlowService.create" ;;;
  _ <- lift (requirePermission self "write" "cash_flow") ;;
  f <- lift (destructure transactionData) ;;
  categoryName <- lift (getCategoryName (js_or (f "category_id") (VStr ""))) ;;
  let project_id := f "project_id" in
  project <-
    (if truthy project_id && negb (is_str project_id "none") then
       projectResults <- query self (pg project_sql [project_id]) ;;
       match projectResults with
       | [] => ret (VNull, VNull)
       | p :: _ =>
           title <- lift (get_prop p "title") ;;
           client_name <- lift (get_prop p "client_name") ;;
           ret (title, client_name)
       end
     else ret (VNull, VNull)) ;;
  let projectTitle := fst project in
  let clientName := snd project in
  results <- query self
               (pg insert_sql
                   (insert_params self f categoryName projectTitle
                                  clientName)) ;;
  create_finish self (f "type") (f "description") (first results).

(** The parameter array of the UPDATE of [update]. *)
Definition update_params (f : string -> Value) (categoryName : Value)
  (id : string) : list Value :=
  [ f "type"; f "amount"; f "category_id"; categoryName;
    f "description"; f "date"; f "payment_method"; f "status";
    JSON_stringify (f "tags");
    none_to_null (f "project_id"); none_to_null (f "client_id");
    f "is_recurring"; f "recurring_frequency"; f "notes"; VStr id ].

Definition update (self : BaseService) (id : string) (transactionData : Value)
  : M World Value :=
  enter "CashFlowService.update" ;;;
  _ <- lift (requirePermission self "write" "cash_flow") ;;
  oldTransaction <- getById self id ;;
  f <- lift (destructure transactionData) ;;
  categoryName <- lift (getCategoryName (js_or (f "category_id") (VStr ""))) ;;
  results <- query self (pg update_sql (update_params f categoryName id)) ;;
  let transaction := first results in
  auditLog JSON_stringify self "cash_flow" "UPDATE" (VStr id)
           oldTransaction transaction ;;;
  ret transaction.

Definition delete (self : BaseService) (id : string) : M World unit :=
  enter "CashFlowService.delete" ;;;
  _ <- lift (requirePermission self "write" "cash_flow") ;;
  transaction <- getById self id ;;
  _ <- query self (pg delete_sql [VStr id]) ;;
  auditLog JSON_stringify self "cash_flow" "DELETE" (VStr id) transaction VNull.

Definition zero_stats : Value :=
  VObj [ ("totalIncome", VNum 0); ("totalExpenses", VNum 0);
         ("balance", VNum 0); ("monthlyIncome", VNum 0);
         ("monthlyExpenses", VNum 0); ("monthlyBalance", VNum 0);
         ("growth", VNum 0) ].

Definition getFinancialStats (self : BaseService) : M World Value :=
  enter "CashFlowService.getFinancialStats" ;;;
  _ <- lift (requirePermission self "read" "cash_flow") ;;
  if match usr_accountType (user self) with
     | Some a => (a =? "simples")
     | None => false
     end
  then ret zero_stats
  else
    rs <- all [ query self (pg totals_sql []);
                query self (pg monthly_sql []);
                query self (pg growth_sql []) ] ;;
    let totals := nth 0 rs [] in
    let monthly := nth 1 rs [] in
    let growth := nth 2 rs [] in
    let totalIncome := js_or (get_opt (first totals) "total_income") (VNum 0) in
    let totalExpenses := js_or (get_opt (first totals) "total_expenses") (VNum 0) in
    let monthlyIncome := js_or (get_opt (first monthly) "monthly_income") (VNum 0) in
    let monthlyExpenses :=
      js_or (get_opt (first monthly) "monthly_expenses") (VNum 0) in
    ret (VObj [ ("totalIncome", totalIncome);
                ("totalExpenses", totalExpenses);
                ("balance", js_sub totalIncome totalExpenses);
                ("monthlyIncome", monthlyIncome);
                ("monthlyExpenses", monthlyExpenses);
                ("monthlyBalance", js_sub monthlyIncome monthlyExpenses);
                ("growth", js_or (get_opt (first growth) "growth_percentage")
                                 (VNum 0)) ]).

Definition exportCSV (self : BaseService) (filters : Value) : M World string :=
  enter "CashFlowService.exportCSV" ;;;
  _ <- lift (requirePermission self "read" "cash_flow") ;;
  transactions <- getAll self filters ;;
  lift (render_csv transactions).

(** ** The router *)

Inductive Endpoint : Type :=
| GET_root      (* GET / *)
| GET_stats     (* GET /stats *)
| GET_export    (* GET /export *)
| GET_id        (* GET /:id *)
| POST_root     (* POST / *)
| PUT_id        (* PUT /:id *)
| DELETE_id     (* DELETE /:id *).

(** [new CashFlowService(req.user)]: the constructor reads
    [user.tenantId]. *)
Definition service_of (req : Request) : M World BaseService :=
  match req_user req with
  | None =>
      throw (TypeError "Cannot read properties of undefined (reading 'tenantId')")
  | Some u => ret (new_service u)
  end.

(** The service call of each handler and the answer it sends. *)
Definition invoke (e : Endpoint) (cashFlowService : BaseService)
  (req : Request) : M World Response :=
  match e with
  | GET_root =>
      transactions <- getAll cashFlowService (req_query req) ;;
      ret (json 200 (VArr transactions))
  | GET_stats =>
      stats <- getFinancialStats cashFlowService ;;
      ret (json 200 stats)
  | GET_export =>
      csv <- exportCSV cashFlowService (req_query req) ;;
      ret (mkResponse 200
             [ ("Content-Type", "text/csv");
               ("Content-Disposition",
                "attachment; filename=fluxo_caixa_" ++ today ++ ".csv") ]
             (BText csv))
  | GET_id =>
      transaction <- getById cashFlowService (req_params_id req) ;;
      ret (json 200 transaction)
  | POST_root =>
      transaction <- create cashFlowService (req_body req) ;;
      ret (json 201 (VObj [ ("message", VStr "Transação criada com sucesso");
                            ("transaction", transaction) ]))
  | PUT_id =>
      transaction <- update cashFlowService (req_params_id req) (req_body req) ;;
      ret (json 200 (VObj [ ("message", VStr "Transação atualizada com sucesso");
                            ("transaction", transaction) ]))
  | DELETE_id =>
      delete cashFlowService (req_params_id req) ;;;
      ret (json 200 (VObj [ ("message", VStr "Transação excluída com sucesso") ]))
  end.

(** The [try] block of each handler. *)
Definition handler_try (e : Endpoint) (req : Request) : M World Response :=
  cashFlowService <- service_of req ;;
  invoke e cashFlowService req.

(** The status each handler's [catch] block answers with. *)
Definition catch_status (e : Endpoint) : Z :=
  match e with
  | GET_root | GET_stats | GET_export => 500
  | GET_id => 404
  | POST_root | PUT_id | DELETE_id => 400
  end.

(** The [catch] block of each handler. *)
Definition handler_catch (e : Endpoint) : Response :=
  match e with
  | GET_root => json 500 (error_body "Erro ao buscar transações")
  | GET_stats => json 500 (error_body "Erro ao buscar estatísticas financeiras")
  | GET_export => json 500 (error_body "Erro ao exportar relatório")
  | GET_id => json 404 (error_body "Transação não encontrada")
  | POST_root => json 400 (error_body "Erro ao criar transação")
  | PUT_id => json 400 (error_body "Erro ao atualizar transação")
  | DELETE_id => json 400 (error_body "Erro ao excluir transação")
  end.

Definition handler (e : Endpoint) (req : Request) : M World Response :=
  try_catch (handler_try e req) (fun _ => ret (handler_catch e)).

(** The account types each route passes to [requireAccountType], [None]
    for the route registered without that middleware. *)
Definition account_gate (e : Endpoint) : option (list string) :=
  match e with
  | GET_stats => None
  | _ => Some ["composta"; "gerencial"]
  end.

End WithEngine.

Section Routes.

Variable Rest : Type.
Variable engine : string -> list Value -> Rest -> list Value * Rest.
Variable JSON_stringify : Value -> Value.
Variable js_sub : Value -> Value -> Value.
Variable render_csv : list Value -> Result string.
Variable today : string.
Variable JWT_ACCESS_SECRET : string.
Variable jwt_verify : string -> string -> Z -> Result Value.

(** One request through a route of the router: [authenticateToken], then
    [requireAccountType([...])] where the route has it, then the handler.
    An exception thrown by a middleware leaves the route. *)
Definition route (e : Endpoint) (now : Z) (admin : Auth.AdminDb) (req : Request)
  : M (World Rest) Response :=
  match Auth.authenticateToken JWT_ACCESS_SECRET jwt_verify now req admin with
  | Respond r => ret r
  | Next req1 =>
      match account_gate e with
      | None =>
          handler Rest engine JSON_stringify js_sub render_csv today e req1
      | Some allowedTypes =>
          match Auth.requireAccountType allowedTypes req1 with
          | Throw ex => throw ex
          | Ok (Respond r) => ret r
          | Ok (Next req2) =>
              handler Rest engine JSON_stringify js_sub render_csv today e req2
          end
      end
  end.

End Routes.

Arguments route {Rest}.
Arguments getAll {Rest}.
Arguments getById {Rest}.
Arguments create {Rest}.
Arguments update {Rest}.
Arguments delete {Rest}.
Arguments getFinancialStats {Rest}.
Arguments exportCSV {Rest}.
Arguments handler_try {Rest}.
Arguments handler {Rest}.

End CashFlow.

(* ================================================================== *)
(** * [PublicationService] *)
(* ================================================================== *)

Module Publications.
Import Js JsString Tenant Http Schema Service.
Local Open Scope js_scope.

Definition getAll_sql : string := "
      SELECT * FROM ${schema}.publications 
      WHERE user_id = $1
    ".

Definition order_by_sql : string := " ORDER BY data_publicacao DESC, created_at DESC".

Definition getById_sql : string := "
      SELECT * FROM ${schema}.publications 
      WHERE id = $1 AND user_id = $2
    ".

Definition updateStatus_sql : string := "
      UPDATE ${schema}.publications SET
        status = $1,
        observacoes = COALESCE($2, observacoes),
        updated_at = NOW()
      WHERE id = $3 AND user_id = $4
      RETURNING *
    ".

Definition assignToUser_sql : string := "
      UPDATE ${schema}.publications SET
        status = 'atribuida',
        responsavel = $1,
        atribuido_para_id = $2,
        atribuido_para_nome = $3,
        data_atribuicao = NOW(),
        updated_at = NOW()
      WHERE id = $4 AND user_id = $5
      RETURNING *
    ".

Definition delete_sql : string := "
      DELETE FROM ${schema}.publications 
      WHERE id = $1 AND user_id = $2
    ".

Definition count_sql : string := "SELECT COUNT(*) as count FROM ${schema}.publications WHERE user_id = $1".

Definition count_nova_sql : string := "SELECT COUNT(*) as count FROM ${schema}.publications WHERE user_id = $1 AND status = 'nova'".

Definition count_pendente_sql : string := "SELECT COUNT(*) as count FROM ${schema}.publications WHERE user_id = $1 AND status = 'pendente'".

Definition count_atribuida_sql : string := "SELECT COUNT(*) as count FROM ${schema}.publications WHERE user_id = $1 AND status = 'atribuida'".

Definition count_finalizada_sql : string := "SELECT COUNT(*) as count FROM ${schema}.publications WHERE user_id = $1 AND status = 'finalizada'".

Definition count_descartada_sql : string := "SELECT COUNT(*) as count FROM ${schema}.publications WHERE user_id = $1 AND status = 'descartada'".

Definition search_sql (n : nat) : string :=
  " AND (processo ILIKE $" ++ string_of_nat n
  ++ " OR nome_pesquisado ILIKE $" ++ string_of_nat n ++ ")".

Definition status_sql (n : nat) : string :=
  " AND status = $" ++ string_of_nat n.

Definition opt_num (o : option Z) : Value :=
  match o with
  | Some n => VNum n
  | None => VNull
  end.

(** A row as the JavaScript object [SELECT *] and [RETURNING *] yield. *)
Definition publication_value (p : Publication) : Value :=
  VObj [ ("id", VStr (pub_id p));
         ("user_id", VStr (pub_user_id p));
         ("data_publicacao", VNum (pub_data_publicacao p));
         ("processo", VStr (pub_processo p));
         ("diario", VStr (pub_diario p));
         ("vara_comarca", VStr (pub_vara_comarca p));
         ("nome_pesquisado", VStr (pub_nome_pesquisado p));
         ("status", Auth.opt_str (pub_status p));
         ("conteudo", Auth.opt_str (pub_conteudo p));
         ("observacoes", Auth.opt_str (pub_observacoes p));
         ("responsavel", Auth.opt_str (pub_responsavel p));
         ("numero_processo", Auth.opt_str (pub_numero_processo p));
         ("cliente", Auth.opt_str (pub_cliente p));
         ("urgencia", Auth.opt_str (pub_urgencia p));
         ("tags", VArr (map VStr (pub_tags p)));
         ("atribuido_para_id", Auth.opt_str (pub_atribuido_para_id p));
         ("atribuido_para_nome", Auth.opt_str (pub_atribuido_para_nome p));
         ("data_atribuicao", opt_num (pub_data_atribuicao p));
         ("tarefas_vinculadas", VArr (map VStr (pub_tarefas_vinculadas p)));
         ("created_at", opt_num (pub_created_at p));
         ("updated_at", opt_num (pub_updated_at p)) ].

(** [results[0]] when the array may be empty. *)
Definition opt_value (o : option Publication) : Value :=
  match o with
  | Some p => publication_value p
  | None => VUndefined
  end.

(** ** Relational meaning of the statements *)

(** [column = $n] for a text or uuid column and a parameter; a parameter
    that is not a string matches no row. *)
Definition col_eq (col : string) (v : Value) : bool := Auth.eq_col v col.

Definition opt_col_eq (col : option string) (v : Value) : bool :=
  match col with
  | Some c => col_eq c v
  | None => false
  end.

(** [status = 'lit']; NULL equals nothing. *)
Definition status_is (lit : string) (p : Publication) : bool :=
  match pub_status p with
  | Some s => (s =? lit)
  | None => false
  end.

(** [ORDER BY data_publicacao DESC, created_at DESC]: [comes_before a b]
    when [a] may precede [b]; NULL sorts first in descending order. *)
Definition desc_opt (a b : option Z) : bool :=
  match a, b with
  | None, _ => true
  | Some _, None => false
  | Some x, Some y => (y <=? x)%Z
  end.

Definition comes_before (a b : Publication) : bool :=
  (pub_data_publicacao b <? pub_data_publicacao a)%Z
  || ((pub_data_publicacao a =? pub_data_publicacao b)%Z
      && desc_opt (pub_created_at a) (pub_created_at b)).

Fixpoint insert_row (p : Publication) (sorted : list Publication)
  : list Publication :=
  match sorted with
  | [] => [p]
  | q :: rest => if comes_before p q then p :: sorted else q :: insert_row p rest
  end.

Definition order_by (rows : list Publication) : list Publication :=
  fold_right insert_row [] rows.

Definition set_status (status : string) (observacoes : option string) (now : Z)
  (p : Publication) : Publication :=
  mkPublication (pub_id p) (pub_user_id p) (pub_data_publicacao p)
    (pub_processo p) (pub_diario p) (pub_vara_comarca p)
    (pub_nome_pesquisado p) (Some status) (pub_conteudo p)
    (match observacoes with Some o => Some o | None => pub_observacoes p end)
    (pub_responsavel p) (pub_numero_processo p) (pub_cliente p)
    (pub_urgencia p) (pub_tags p) (pub_atribuido_para_id p)
    (pub_atribuido_para_nome p) (pub_data_atribuicao p)
    (pub_tarefas_vinculadas p) (pub_created_at p) (Some now).

Definition set_assignee (assignedUserId assignedUserName : string) (now : Z)
  (p : Publication) : Publication :=
  mkPublication (pub_id p) (pub_user_id p) (pub_data_publicacao p)
    (pub_processo p) (pub_diario p) (pub_vara_comarca p)
    (pub_nome_pesquisado p) (Some "atribuida") (pub_conteudo p)
    (pub_observacoes p) (Some assignedUserName) (pub_numero_processo p)
    (pub_cliente p) (pub_urgencia p) (pub_tags p) (Some assignedUserId)
    (Some assignedUserName) (Some now) (pub_tarefas_vinculadas p)
    (pub_created_at p) (Some now).

(** Ownership of a row, and the rows of the other users. *)
Definition owned_by (uid : string) (p : Publication) : bool :=
  (uid =? pub_user_id p).

Definition others (uid : string) (rows : list Publication) : list Publication :=
  filter (fun p => negb (owned_by uid p)) rows.

(** The number of a user's rows that satisfy a condition. *)
Definition count_owned (uid : string) (cond : Publication -> bool)
  (rows : list Publication) : Z :=
  Z.of_nat (List.length (filter (fun p => owned_by uid p && cond p) rows)).

(** The aggregate object [getStats] returns. *)
Record Stats : Type := mkStats {
  total : Z;
  novas : Z;
  pendentes : Z;
  atribuidas : Z;
  finalizadas : Z;
  descartadas : Z;
  porcentagemConcluidas : Z
}.

Section WithRest.

Variable Rest : Type.
Variable JSON_stringify : Value -> Value.
(** The engine's [ILIKE] operator: text, then pattern. *)
Variable ilike : string -> string -> bool.
(** [Math.round((a / b) * 100)] (floating point). *)
Variable round_percent : Z -> Z -> Z.

Local Abbreviation World := (World Rest).
Local Abbreviation TenantDb := (TenantDb Rest).

(** [SELECT ... WHERE cond]: the rows, tables untouched. *)
Definition select (cond : Publication -> bool) (d : TenantDb)
  : list Publication * TenantDb :=
  (filter cond (publications d), d).

(** The [COUNT] aggregate over the rows satisfying [cond]: one row. *)
Definition select_count (cond : Publication -> bool) (d : TenantDb)
  : list Z * TenantDb :=
  ([Z.of_nat (List.length (filter cond (publications d)))], d).

(** [UPDATE ... SET ... WHERE cond RETURNING *]. *)
Definition update_where (cond : Publication -> bool)
  (set : Z -> Publication -> Publication) (d : TenantDb)
  : list Publication * TenantDb :=
  (map (set (db_now d)) (filter cond (publications d)),
   set_publications
     (map (fun p => if cond p then set (db_now d) p else p) (publications d)) d).

(** [DELETE FROM ... WHERE cond]. *)
Definition delete_where (cond : Publication -> bool) (d : TenantDb)
  : list Publication * TenantDb :=
  ([], set_publications (filter (fun p => negb (cond p)) (publications d)) d).

Definition getAll (self : BaseService) (filters : Value)
  : M World (list Publication) :=
  enter "PublicationService.getAll" ;;;
  _ <- lift (requirePermission self "read" "publications") ;;
  let uid := VStr (usr_id (user self)) in
  let search := get_opt filters "search" in
  let status := get_opt filters "status" in
  let q0 := (getAll_sql, [uid]) in
  (* the interpolation of [`%${filters.search}%`], evaluated under
     [if (filters?.search)] *)
  text <- lift (if truthy search then to_js_string search else Ok "") ;;
  let pattern := "%" ++ text ++ "%" in
  let q1 := if truthy search
            then (fst q0 ++ search_sql (List.length (snd q0) + 1),
                  (snd q0 ++ [VStr pattern])%list)
            else q0 in
  let q2 := if truthy status
            then (fst q1 ++ status_sql (List.length (snd q1) + 1),
                  (snd q1 ++ [status])%list)
            else q1 in
  query self
    (mkStmt (fst q2 ++ order_by_sql) (snd q2)
       (fun _ d =>
          let (rows, d') :=
            select (fun p =>
                      col_eq (pub_user_id p) uid
                      && (if truthy search
                          then ilike (pub_processo p) pattern
                               || ilike (pub_nome_pesquisado p) pattern
                          else true)
                      && (if truthy status
                          then opt_col_eq (pub_status p) status
                          else true)) d in
          (order_by rows, d'))).

Definition getById (self : BaseService) (id : string) : M World Publication :=
  enter "PublicationService.getById" ;;;
  _ <- lift (requirePermission self "read" "publications") ;;
  let uid := VStr (usr_id (user self)) in
  results <- query self
    (mkStmt getById_sql [VStr id; uid]
       (fun _ => select (fun p => col_eq (pub_id p) (VStr id)
                                  && col_eq (pub_user_id p) uid))) ;;
  match results with
  | [] => throw (Error "Publicação não encontrada")
  | r :: _ => ret r
  end.

Definition updateStatus (self : BaseService) (id status : string)
  (observacoes : option string) : M World (option Publication) :=
  enter "PublicationService.updateStatus" ;;;
  _ <- lift (requirePermission self "write" "publications") ;;
  oldPublication <- getById self id ;;
  let uid := VStr (usr_id (user self)) in
  results <- query self
    (mkStmt updateStatus_sql
       [VStr status; match observacoes with Some o => VStr o | None => VUndefined end;
        VStr id; uid]
       (fun _ => update_where
                   (fun p => col_eq (pub_id p) (VStr id)
                             && col_eq (pub_user_id p) uid)
                   (set_status status observacoes))) ;;
  let publication := hd_error results in
  auditLog JSON_stringify self "publications" "UPDATE" (VStr id)
           (publication_value oldPublication) (opt_value publication) ;;;
  (if status_is "nova" oldPublication && (status =? "pendente") then
     match publication with
     | None =>
         throw (TypeError "Cannot read properties of undefined (reading 'processo')")
     | Some p =>
         createNotification JSON_stringify self "info" "Publicação Visualizada"
           (usr_name (user self) ++ " visualizou a publicação " ++ pub_processo p)
           "publications" (VStr "publication") (VStr (pub_id p))
           (VObj [("publication_id", VStr (pub_id p));
                  ("page", VStr "/publicacoes")])
           VUndefined
     end
   else ret tt) ;;;
  ret publication.

Definition assignToUser (self : BaseService)
  (id assignedUserId assignedUserName : string)
  : M World (option Publication) :=
  enter "PublicationService.assignToUser" ;;;
  _ <- lift (requirePermission self "write" "publications") ;;
  oldPublication <- getById self id ;;
  let uid := VStr (usr_id (user self)) in
  results <- query self
    (mkStmt assignToUser_sql
       [VStr assignedUserName; VStr assignedUserId; VStr assignedUserName;
        VStr id; uid]
       (fun _ => update_where
                   (fun p => col_eq (pub_id p) (VStr id)
                             && col_eq (pub_user_id p) uid)
                   (set_assignee assignedUserId assignedUserName))) ;;
  let publication := hd_error results in
  auditLog JSON_stringify self "publications" "UPDATE" (VStr id)
           (publication_value oldPublication) (opt_value publication) ;;;
  match publication with
  | None =>
      throw (TypeError "Cannot read properties of undefined (reading 'id')")
  | Some p =>
      createNotification JSON_stringify self "info" "Publicação Atribuída"
        (usr_name (user self) ++ " atribuiu publicação para " ++ assignedUserName)
        "publications" (VStr "publication") (VStr (pub_id p))
        (VObj [("publication_id", VStr (pub_id p));
               ("page", VStr "/publicacoes")])
        (VStr assignedUserId)
  end ;;;
  ret publication.

Definition delete (self : BaseService) (id : string) : M World unit :=
  enter "PublicationService.delete" ;;;
  _ <- lift (requirePermission self "write" "publications") ;;
  publication <- getById self id ;;
  let uid := VStr (usr_id (user self)) in
  _ <- query self
    (mkStmt delete_sql [VStr id; uid]
       (fun _ => delete_where
                   (fun p => col_eq (pub_id p) (VStr id)
                             && col_eq (pub_user_id p) uid))) ;;
  auditLog JSON_stringify self "publications" "DELETE" (VStr id)
           (publication_value publication) VNull.

Definition count_stmt (text : string) (uid : Value)
  (cond : Publication -> bool) : Stmt Rest (list Z) :=
  mkStmt text [uid]
    (fun _ => select_count (fun p => col_eq (pub_user_id p) uid && cond p)).

Definition getStats (self : BaseService) : M World Stats :=
  enter "PublicationService.getStats" ;;;
  _ <- lift (requirePermission self "read" "publications") ;;
  let uid := VStr (usr_id (user self)) in
  rs <- all [ query self (count_stmt count_sql uid (fun _ => true));
              query self (count_stmt count_nova_sql uid (status_is "nova"));
              query self (count_stmt count_pendente_sql uid (status_is "pendente"));
              query self (count_stmt count_atribuida_sql uid (status_is "atribuida"));
              query self (count_stmt count_finalizada_sql uid (status_is "finalizada"));
              query self (count_stmt count_descartada_sql uid (status_is "descartada")) ] ;;
  let count i := hd 0%Z (nth i rs []) in
  let totalCount := count 0%nat in
  let finalizadaCount := count 4%nat in
  ret (mkStats totalCount (count 1%nat) (count 2%nat) (count 3%nat)
         finalizadaCount (count 5%nat)
         (if (0 <? totalCount)%Z then round_percent finalizadaCount totalCount
          else 0%Z)).


(** Two databases, and two worlds, that differ at most in the rows of the
    users other than [uid]. *)
Definition agree_db (uid : string) (d1 d2 : TenantDb) : Prop :=
  filter (owned_by uid) (publications d1)
  = filter (owned_by uid) (publications d2)
  /\ audit_log d1 = audit_log d2
  /\ notifications d1 = notifications d2
  /\ db_now d1 = db_now d2
  /\ rest d1 = rest d2.

Definition agree (uid : string) (w1 w2 : World) : Prop :=
  agree_db uid (db w1) (db w2)
  /\ faults w1 = faults w2
  /\ rpc_log w1 = rpc_log w2
  /\ calls w1 = calls w2.

(** A computation whose result and whose effects do not depend on the
    rows of the other users. *)
Definition independent_of_others {A} (uid : string) (m : M World A) : Prop :=
  forall w1 w2,
    agree uid w1 w2 ->
    fst (m w1) = fst (m w2) /\ agree uid (snd (m w1)) (snd (m w2)).

(** A computation that leaves the [publications] table as it is, and one
    that leaves the rows of the other users as they are. *)
Definition read_only {A} (m : M World A) : Prop :=
  forall w, publications (db (snd (m w))) = publications (db w).

Definition keeps_others {A} (uid : string) (m : M World A) : Prop :=
  forall w, others uid (publications (db (snd (m w))))
            = others uid (publications (db w)).

End WithRest.

Arguments agree_db {Rest}.
Arguments agree {Rest}.
Arguments independent_of_others {Rest A}.
Arguments read_only {Rest A}.
Arguments keeps_others {Rest A}.
Arguments select {Rest}.
Arguments select_count {Rest}.
Arguments update_where {Rest}.
Arguments delete_where {Rest}.
Arguments getAll {Rest}.
Arguments getById {Rest}.
Arguments updateStatus {Rest}.
Arguments assignToUser {Rest}.
Arguments delete {Rest}.
Arguments getStats {Rest}.

End Publications.

(* ================================================================== *)
(** * [PublicationService.create] *)
(* ================================================================== *)

Module PublicationCreation.
Import Js JsString Tenant Http Schema Service.
Local Open Scope js_scope.

Definition insert_sql : string := "
      INSERT INTO ${schema}.publications (
        user_id, data_publicacao, processo, diario, vara_comarca,
        nome_pesquisado, status, conteudo, observacoes, responsavel,
        numero_processo, cliente, urgencia, tags, created_at, updated_at
      ) VALUES (
        $1, $2, $3, $4, $5, $6, $7, $8, $9, $10, $11, $12, $13, $14, NOW(), NOW()
      ) RETURNING *
    ".

(** The properties [create] reads of its argument. *)
Definition fields : list string :=
  [ "data_publicacao"; "processo"; "diario"; "vara_comarca";
    "nome_pesquisado"; "status"; "conteudo"; "observacoes"; "responsavel";
    "numero_processo"; "cliente"; "urgencia"; "tags" ].

Section WithEngine.

Variable Rest : Type.
Variable JSON_stringify : Value -> Value.
(** The engine on the INSERT into [publications]: the rows it returns
    and the tables it leaves. *)
Variable run : string -> list Value -> TenantDb Rest
               -> list Value * TenantDb Rest.

(** The parameter array of the INSERT. *)
Definition insert_params (self : BaseService) (f : string -> Value)
  : list Value :=
  [ VStr (usr_id (user self));
    f "data_publicacao"; f "processo"; f "diario"; f "vara_comarca";
    f "nome_pesquisado";
    js_or (f "status") (VStr "nova"); f "conteudo"; f "observacoes";
    f "responsavel"; f "numero_processo"; f "cliente";
    js_or (f "urgencia") (VStr "media");
    JSON_stringify (js_or (f "tags") (VArr [])) ].

Definition create (self : BaseService) (publicationData : Value)
  : M (World Rest) Value :=
  enter "PublicationService.create" ;;;
  _ <- lift (requirePermission self "write" "publications") ;;
  f <- lift (destructure publicationData) ;;
  results <- query self
               (mkStmt insert_sql (insert_params self f)
                  (fun final d => run final (insert_params self f) d)) ;;
  let publication := first results in
  id <- lift (get_prop publication "id") ;;
  auditLog JSON_stringify self "publications" "CREATE" id VNull publication ;;;
  ret publication.

End WithEngine.

Arguments create {Rest}.

End PublicationCreation.

(* ================================================================== *)
(** * [NotificationService] and the notifications router *)
(* ================================================================== *)

Module Notifications.
Import Js JsString Tenant Http Schema Service.
Local Open Scope js_scope.

Definition getAll_sql : string := "
      SELECT * FROM ${schema}.notifications 
      WHERE user_id IS NULL OR user_id = $1
      ORDER BY created_at DESC
      LIMIT 50
    ".

Definition markAsRead_sql : string := "
      UPDATE ${schema}.notifications 
      SET read = true, updated_at = NOW()
      WHERE id = $1 AND (user_id IS NULL OR user_id = $2)
    ".

Definition markAllAsRead_sql : string := "
      UPDATE ${schema}.notifications 
      SET read = true, updated_at = NOW()
      WHERE (user_id IS NULL OR user_id = $1) AND read = false
    ".

Definition delete_sql : string := "
      DELETE FROM ${schema}.notifications 
      WHERE id = $1 AND (user_id IS NULL OR user_id = $2)
    ".

Definition unreadCount_sql : string := "
      SELECT COUNT(*) as count FROM ${schema}.notifications 
      WHERE (user_id IS NULL OR user_id = $1) AND read = false
    ".

(** [xs.map(f)] for an [f] that may throw. *)
Fixpoint map_result {A B} (f : A -> Result B) (xs : list A) : Result (list B) :=
  match xs with
  | [] => Ok []
  | x :: rest =>
      rbind (f x) (fun y => rbind (map_result f rest) (fun ys => Ok (y :: ys)))
  end.

Section WithEngine.

Variable Rest : Type.
(** The engine on the statements over the [notifications] table. *)
Variable run : string -> list Value -> TenantDb Rest
               -> list Value * TenantDb Rest.
(** [JSON.parse], a builtin. *)
Variable JSON_parse : Value -> Result Value.
(** [new Date(v).getTime()], [None] for an invalid date (NaN). *)
Variable date_of : Value -> option Z.
(** [date.toLocaleDateString('pt-BR')] of a valid date. *)
Variable toLocaleDateString : Z -> string.

Local Abbreviation World := (World Rest).

Definition stmt (text : string) (ps : list Value) : Stmt Rest (list Value) :=
  mkStmt text ps (fun final d => run final ps d).

(** [formatTimeAgo(dateString)] at the instant [now] (milliseconds).
    With an invalid date every comparison is false and the last line
    renders the invalid date. *)
Definition formatTimeAgo (now : Z) (dateString : Value) : string :=
  match date_of dateString with
  | None => "Invalid Date"
  | Some date =>
      let diffInSeconds := ((now - date) / 1000)%Z in
      if (diffInSeconds <? 60)%Z then "Agora mesmo"
      else if (diffInSeconds <? 3600)%Z then
        string_of_Z (diffInSeconds / 60) ++ " minutos atrás"
      else if (diffInSeconds <? 86400)%Z then
        string_of_Z (diffInSeconds / 3600) ++ " horas atrás"
      else if (diffInSeconds <? 2592000)%Z then
        string_of_Z (diffInSeconds / 86400) ++ " dias atrás"
      else toLocaleDateString date
  end.

(** The object [getAll] builds of one row. *)
Definition present_notification (now : Z) (notification : Value)
  : Result Value :=
  rbind (get_prop notification "id") (fun id =>
  let get := get_opt notification in
  rbind (if truthy (get "action_data") then JSON_parse (get "action_data")
         else Ok VNull) (fun actionData =>
  Ok (VObj [ ("id", id);
             ("type", get "type");
             ("title", get "title");
             ("message", get "message");
             ("time", VStr (formatTimeAgo now (get "created_at")));
             ("read", get "read");
             ("createdBy", get "created_by");
             ("createdAt", get "created_at");
             ("details", get "details");
             ("category", get "category");
             ("actionData", actionData) ]))).

Definition getAll (now : Z) (self : BaseService) (userId : Value)
  : M World (list Value) :=
  enter "NotificationService.getAll" ;;;
  _ <- lift (requirePermission self "read" "notifications") ;;
  results <- query self
               (stmt getAll_sql [js_or userId (VStr (usr_id (user self)))]) ;;
  lift (map_result (present_notification now) results).

Definition markAsRead (self : BaseService) (id : string) : M World unit :=
  enter "NotificationService.markAsRead" ;;;
  _ <- lift (requirePermission self "write" "notifications") ;;
  _ <- query self (stmt markAsRead_sql [VStr id; VStr (usr_id (user self))]) ;;
  ret tt.

Definition markAllAsRead (self : BaseService) (userId : Value) : M World unit :=
  enter "NotificationService.markAllAsRead" ;;;
  _ <- lift (requirePermission self "write" "notifications") ;;
  _ <- query self
         (stmt markAllAsRead_sql [js_or userId (VStr (usr_id (user self)))]) ;;
  ret tt.

Definition delete (self : BaseService) (id : string) : M World unit :=
  enter "NotificationService.delete" ;;;
  _ <- lift (requirePermission self "write" "notifications") ;;
  _ <- query self (stmt delete_sql [VStr id; VStr (usr_id (user self))]) ;;
  ret tt.

Definition getUnreadCount (self : BaseService) (userId : Value)
  : M World Value :=
  enter "NotificationService.getUnreadCount" ;;;
  results <- query self
               (stmt unreadCount_sql [js_or userId (VStr (usr_id (user self)))]) ;;
  ret (js_or (get_opt (first results) "count") (VNum 0)).

(** ** The router *)

Inductive Endpoint : Type :=
| GET_root             (* GET / *)
| GET_unread_count     (* GET /unread-count *)
| PATCH_read           (* PATCH /:id/read *)
| PATCH_mark_all_read  (* PATCH /mark-all-read *)
| DELETE_id            (* DELETE /:id *).

(** [new NotificationService(req.user)]. *)
Definition service_of (req : Request) : M World BaseService :=
  match req_user req with
  | None =>
      throw (TypeError "Cannot read properties of undefined (reading 'tenantId')")
  | Some u => ret (new_service u)
  end.

Definition message (text : string) : Response :=
  json 200 (VObj [("message", VStr text)]).

(** The [try] block of each handler. *)
Definition handler_try (now : Z) (e : Endpoint) (req : Request)
  : M World Response :=
  notificationService <- service_of req ;;
  match e with
  | GET_root =>
      user_id <- lift (get_prop (req_query req) "user_id") ;;
      notifications <- getAll now notificationService user_id ;;
      ret (json 200 (VArr notifications))
  | GET_unread_count =>
      user_id <- lift (get_prop (req_query req) "user_id") ;;
      count <- getUnreadCount notificationService user_id ;;
      ret (json 200 (VObj [("count", count)]))
  | PATCH_read =>
      markAsRead notificationService (req_params_id req) ;;;
      ret (message "Notificação marcada como lida")
  | PATCH_mark_all_read =>
      user_id <- lift (get_prop (req_body req) "user_id") ;;
      markAllAsRead notificationService user_id ;;;
      ret (message "Todas as notificações foram marcadas como lidas")
  | DELETE_id =>
      delete notificationService (req_params_id req) ;;;
      ret (message "Notificação excluída com sucesso")
  end.

(** The [catch] block of each handler. *)
Definition handler_catch (e : Endpoint) : Response :=
  match e with
  | GET_root => json 500 (error_body "Erro ao buscar notificações")
  | GET_unread_count =>
      json 500 (error_body "Erro ao buscar contagem de notificações")
  | PATCH_read => json 400 (error_body "Erro ao marcar notificação como lida")
  | PATCH_mark_all_read =>
      json 400 (error_body "Erro ao marcar todas as notificações como lidas")
  | DELETE_id => json 400 (error_body "Erro ao excluir notificação")
  end.

Definition handler (now : Z) (e : Endpoint) (req : Request)
  : M World Response :=
  try_catch (handler_try now e req) (fun _ => ret (handler_catch e)).

End WithEngine.

Arguments getAll {Rest}.
Arguments markAsRead {Rest}.
Arguments markAllAsRead {Rest}.
Arguments delete {Rest}.
Arguments getUnreadCount {Rest}.
Arguments handler_try {Rest}.
Arguments handler {Rest}.

End Notifications.

(* ================================================================== *)
(** * [DashboardService], the statistics it gathers and its router *)
(* ================================================================== *)

Module Dashboard.
Import Js JsString Tenant Http Schema Service.
Local Open Scope js_scope.

Definition clients_total_sql : string := "SELECT COUNT(*) as count FROM ${schema}.clients".

Definition clients_active_sql : string := "SELECT COUNT(*) as count FROM ${schema}.clients WHERE status = 'active'".

Definition clients_growth_sql : string := "
        WITH monthly_clients AS (
          SELECT
            DATE_TRUNC('month', created_at) as month,
            COUNT(*) as new_clients,
            SUM(COUNT(*)) OVER (ORDER BY DATE_TRUNC('month', created_at)) as cumulative_clients
          FROM ${schema}.clients
          WHERE created_at >= DATE_TRUNC('month', NOW() - INTERVAL '2 months')
          GROUP BY DATE_TRUNC('month', created_at)
        )
        SELECT
          COALESCE(
            ROUND(
              ((current_month.cumulative_clients - previous_month.cumulative_clients) * 100.0 / 
               NULLIF(previous_month.cumulative_clients, 0)), 2
            ), 0
          ) as growth_percentage
        FROM monthly_clients current_month
        LEFT JOIN monthly_clients previous_month 
          ON previous_month.month = current_month.month - INTERVAL '1 month'
        WHERE current_month.month = DATE_TRUNC('month', NOW())
      ".

Definition projects_total_sql : string := "SELECT COUNT(*) as count FROM ${schema}.projects".

Definition projects_active_sql : string := "SELECT COUNT(*) as count FROM ${schema}.projects WHERE status NOT IN ('won', 'lost')".

Definition projects_overdue_sql : string := "
        SELECT COUNT(*) as count FROM ${schema}.projects 
        WHERE due_date < CURRENT_DATE AND status NOT IN ('won', 'lost')
      ".

Definition projects_revenue_sql : string := "
        SELECT SUM(budget) as total FROM ${schema}.projects 
        WHERE status = 'won' AND 
        updated_at >= DATE_TRUNC('month', NOW())
      ".

Definition projects_progress_sql : string := "
        SELECT AVG(progress) as avg FROM ${schema}.projects 
        WHERE status NOT IN ('won', 'lost')
      ".

Definition tasks_total_sql : string := "SELECT COUNT(*) as count FROM ${schema}.tasks".

Definition tasks_not_started_sql : string := "SELECT COUNT(*) as count FROM ${schema}.tasks WHERE status = 'not_started'".

Definition tasks_in_progress_sql : string := "SELECT COUNT(*) as count FROM ${schema}.tasks WHERE status = 'in_progress'".

Definition tasks_completed_sql : string := "SELECT COUNT(*) as count FROM ${schema}.tasks WHERE status = 'completed'".

Definition tasks_overdue_sql : string := "
        SELECT COUNT(*) as count FROM ${schema}.tasks 
        WHERE end_date < NOW() AND status NOT IN ('completed', 'cancelled')
      ".

Definition tasks_avg_sql : string := "
        SELECT AVG(EXTRACT(DAY FROM (completed_at - created_at))) as avg_days
        FROM ${schema}.tasks
        WHERE status = 'completed' AND completed_at IS NOT NULL
        AND completed_at >= NOW() - INTERVAL '3 months'
      ".

Definition billing_estimates_sql : string := "SELECT COUNT(*) as count FROM ${schema}.billing WHERE type = 'estimate'".

Definition billing_invoices_sql : string := "SELECT COUNT(*) as count FROM ${schema}.billing WHERE type = 'invoice'".

Definition billing_pending_sql : string := "
        SELECT SUM(total) as amount FROM ${schema}.billing 
        WHERE status IN ('PENDING', 'SENT', 'VIEWED')
      ".

Definition billing_paid_sql : string := "
        SELECT SUM(total) as amount FROM ${schema}.billing 
        WHERE status = 'PAID' AND payment_date >= DATE_TRUNC('month', NOW())
      ".

Definition billing_overdue_sql : string := "
        SELECT SUM(total) as amount FROM ${schema}.billing 
        WHERE due_date < CURRENT_DATE AND status NOT IN ('PAID', 'CANCELLED')
      ".

Definition billing_month_sql : string := "
        SELECT SUM(total) as amount FROM ${schema}.billing 
        WHERE DATE_TRUNC('month', due_date) = DATE_TRUNC('month', NOW())
      ".

Definition recent_sql : string := "
      SELECT 
        id, type, title, message, category, created_at, created_by
      FROM ${schema}.notifications
      WHERE created_at >= NOW() - INTERVAL '7 days'
      ORDER BY created_at DESC
      LIMIT 10
    ".

Definition urgent_sql : string := "
      SELECT title, due_date, status FROM ${schema}.projects
      WHERE due_date <= CURRENT_DATE + INTERVAL '7 days'
      AND status NOT IN ('won', 'lost')
      ORDER BY due_date ASC
      LIMIT 5
    ".

Definition upcoming_sql : string := "
      SELECT numero_fatura, cliente_nome, valor, data_vencimento
      FROM ${schema}.invoices
      WHERE data_vencimento <= CURRENT_DATE + INTERVAL '7 days'
      AND status IN ('nova', 'pendente')
      ORDER BY data_vencimento ASC
      LIMIT 5
    ".

(** The tables of [getCategoryIcon], [getCategoryColor] and
    [getProjectStatusLabel]. *)
Definition icons : list (string * string) :=
  [ ("client", "Users"); ("project", "FileText"); ("task", "CheckSquare");
    ("billing", "DollarSign"); ("cash_flow", "TrendingUp") ].

Definition colors : list (string * string) :=
  [ ("client", "text-blue-600"); ("project", "text-purple-600");
    ("task", "text-green-600"); ("billing", "text-yellow-600");
    ("cash_flow", "text-indigo-600") ].

Definition labels : list (string * string) :=
  [ ("contacted", "Em Contato"); ("proposal", "Com Proposta");
    ("won", "Concluído"); ("lost", "Perdido") ].

(** [table[key] || fallback]. *)
Definition lookup_or (table : list (string * string)) (key fallback : Value)
  : Result Value :=
  rbind (CashFlow.index table key) (fun v => Ok (js_or v fallback)).

Definition getCategoryIcon (category : Value) : Result Value :=
  lookup_or icons category (VStr "Bell").

Definition getCategoryColor (category : Value) : Result Value :=
  lookup_or colors category (VStr "text-gray-600").

Definition getProjectStatusLabel (status : Value) : Result Value :=
  lookup_or labels status status.

(** [cond ? 'up' : 'down']. *)
Definition trend (up : bool) : Value := VStr (if up then "up" else "down").

(** [rows[0]?.column || 0]. *)
Definition first_or_zero (rows : list Value) (column : string) : Value :=
  js_or (get_opt (first rows) column) (VNum 0).

Section WithEngine.

Variable Rest : Type.
(** The engine on the tables of [Rest] and on [notifications]. *)
Variable engine : string -> list Value -> Rest -> list Value * Rest.
Variable run : string -> list Value -> TenantDb Rest
               -> list Value * TenantDb Rest.
(** JavaScript arithmetic and comparisons on values as the driver
    delivers them: [a - b], [v >= 0], [v <= 0], [v > 0], [Math.abs],
    [Math.round], [Math.round((a / b) * 100)], [parseFloat]. *)
Variable js_sub : Value -> Value -> Value.
Variable js_ge0 js_le0 js_gt0 : Value -> bool.
Variable math_abs math_round parseFloat : Value -> Value.
Variable round_percent : Value -> Value -> Value.
(** [new Date(v).getTime()], [None] for an invalid date (NaN). *)
Variable date_of : Value -> option Z.

Local Abbreviation World := (World Rest).
Local Abbreviation pg := (CashFlow.pg Rest engine).

(** [ClientService.getStats]. *)
Definition clientStats (self : BaseService) : M World Value :=
  enter "ClientService.getStats" ;;;
  _ <- lift (requirePermission self "read" "crm") ;;
  rs <- all [ query self (pg clients_total_sql []);
              query self (pg clients_active_sql []);
              query self (pg clients_growth_sql []) ] ;;
  ret (VObj [ ("total", first_or_zero (nth 0 rs []) "count");
              ("active", first_or_zero (nth 1 rs []) "count");
              ("growth", first_or_zero (nth 2 rs []) "growth_percentage") ]).

(** [ProjectService.getStats]. *)
Definition projectStats (self : BaseService) : M World Value :=
  enter "ProjectService.getStats" ;;;
  _ <- lift (requirePermission self "read" "projects") ;;
  rs <- all [ query self (pg projects_total_sql []);
              query self (pg projects_active_sql []);
              query self (pg projects_overdue_sql []);
              query self (pg projects_revenue_sql []);
              query self (pg projects_progress_sql []) ] ;;
  ret (VObj [ ("total", first_or_zero (nth 0 rs []) "count");
              ("active", first_or_zero (nth 1 rs []) "count");
              ("overdue", first_or_zero (nth 2 rs []) "count");
              ("revenue", first_or_zero (nth 3 rs []) "total");
              ("avgProgress",
               math_round (first_or_zero (nth 4 rs []) "avg")) ]).

(** [TaskService.getStats]. *)
Definition taskStats (self : BaseService) : M World Value :=
  enter "TaskService.getStats" ;;;
  _ <- lift (requirePermission self "read" "tasks") ;;
  rs <- all [ query self (pg tasks_total_sql []);
              query self (pg tasks_not_started_sql []);
              query self (pg tasks_in_progress_sql []);
              query self (pg tasks_completed_sql []);
              query self (pg tasks_overdue_sql []);
              query self (pg tasks_avg_sql []) ] ;;
  let totalCount := first_or_zero (nth 0 rs []) "count" in
  let completedCount := first_or_zero (nth 3 rs []) "count" in
  let completionRate :=
    if js_gt0 totalCount then round_percent completedCount totalCount
    else VNum 0 in
  ret (VObj [ ("total", totalCount);
              ("notStarted", first_or_zero (nth 1 rs []) "count");
              ("inProgress", first_or_zero (nth 2 rs []) "count");
              ("completed", completedCount);
              ("overdue", first_or_zero (nth 4 rs []) "count");
              ("completionRate", completionRate);
              ("averageCompletionTime",
               math_round (first_or_zero (nth 5 rs []) "avg_days")) ]).

(** [BillingService.getStats]. *)
Definition billingStats (self : BaseService) : M World Value :=
  enter "BillingService.getStats" ;;;
  _ <- lift (requirePermission self "read" "billing") ;;
  rs <- all [ query self (pg billing_estimates_sql []);
              query self (pg billing_invoices_sql []);
              query self (pg billing_pending_sql []);
              query self (pg billing_paid_sql []);
              query self (pg billing_overdue_sql []);
              query self (pg billing_month_sql []) ] ;;
  ret (VObj [ ("totalEstimates", first_or_zero (nth 0 rs []) "count");
              ("totalInvoices", first_or_zero (nth 1 rs []) "count");
              ("pendingAmount", first_or_zero (nth 2 rs []) "amount");
              ("paidAmount", first_or_zero (nth 3 rs []) "amount");
              ("overdueAmount", first_or_zero (nth 4 rs []) "amount");
              ("thisMonthAmount", first_or_zero (nth 5 rs []) "amount") ]).

(** [DashboardService.formatTimeAgo(dateString)] at the instant [now]
    (milliseconds).  With an invalid date every comparison is false and
    the last line renders NaN. *)
Definition formatTimeAgo (now : Z) (dateString : Value) : string :=
  match date_of dateString with
  | None => "NaN dias atrás"
  | Some date =>
      let diffInSeconds := ((now - date) / 1000)%Z in
      if (diffInSeconds <? 60)%Z then "Agora mesmo"
      else if (diffInSeconds <? 3600)%Z then
        string_of_Z (diffInSeconds / 60) ++ " minutos atrás"
      else if (diffInSeconds <? 86400)%Z then
        string_of_Z (diffInSeconds / 3600) ++ " horas atrás"
      else string_of_Z (diffInSeconds / 86400) ++ " dias atrás"
  end.

Definition getRecentActivities (now : Z) (self : BaseService)
  : M World (list Value) :=
  results <- query self
               (mkStmt recent_sql [] (fun final d => run final [] d)) ;;
  lift (Notifications.map_result
          (fun activity =>
             rbind (get_prop activity "id") (fun id =>
             let get := get_opt activity in
             rbind (getCategoryIcon (get "category")) (fun icon =>
             rbind (getCategoryColor (get "category")) (fun color =>
             Ok (VObj [ ("id", id);
                        ("type", get "category");
                        ("message", get "message");
                        ("time", VStr (formatTimeAgo now (get "created_at")));
                        ("icon", icon);
                        ("color", color) ])))))
          results).

Definition getUrgentProjects (self : BaseService) : M World (list Value) :=
  results <- query self (pg urgent_sql []) ;;
  lift (Notifications.map_result
          (fun project =>
             rbind (get_prop project "title") (fun title =>
             let get := get_opt project in
             rbind (getProjectStatusLabel (get "status")) (fun label =>
             Ok (VObj [ ("name", title);
                        ("deadline", get "due_date");
                        ("status", label) ]))))
          results).

Definition getUpcomingInvoices (self : BaseService) : M World (list Value) :=
  if match usr_accountType (user self) with
     | Some a => (a =? "simples")
     | None => false
     end
  then ret []
  else
    results <- query self (pg upcoming_sql []) ;;
    lift (Notifications.map_result
            (fun invoice =>
               rbind (get_prop invoice "numero_fatura") (fun number =>
               let get := get_opt invoice in
               Ok (VObj [ ("number", number);
                          ("client", get "cliente_nome");
                          ("amount", parseFloat (get "valor"));
                          ("dueDate", get "data_vencimento") ])))
            results).

(** [DashboardService.getDashboardData].  The five statistics are
    started together; the three lists are awaited one after the other. *)
Definition getDashboardData (now : Z) (self : BaseService) : M World Value :=
  enter "DashboardService.getDashboardData" ;;;
  _ <- lift (requirePermission self "read" "dashboard") ;;
  stats <- all [ clientStats self;
                 projectStats self;
                 taskStats self;
                 CashFlow.getFinancialStats engine js_sub self;
                 billingStats self ] ;;
  let clientStats := nth 0 stats VUndefined in
  let projectStats := nth 1 stats VUndefined in
  let taskStats := nth 2 stats VUndefined in
  let financialStats := nth 3 stats VUndefined in
  let billingStats := nth 4 stats VUndefined in
  recentActivities <- getRecentActivities now self ;;
  urgentProjects <- getUrgentProjects self ;;
  upcomingInvoices <- getUpcomingInvoices self ;;
  let growth := get_opt financialStats "growth" in
  ret (VObj [
    ("revenue",
     VObj [ ("value", get_opt financialStats "monthlyIncome");
            ("change", growth);
            ("trend", trend (js_ge0 growth)) ]);
    ("expenses",
     VObj [ ("value", get_opt financialStats "monthlyExpenses");
            ("change", math_abs growth);
            ("trend", trend (js_le0 growth)) ]);
    ("balance",
     VObj [ ("value", get_opt financialStats "monthlyBalance");
            ("change", math_abs growth);
            ("trend", trend (js_ge0 (get_opt financialStats "monthlyBalance"))) ]);
    ("clients",
     VObj [ ("value", get_opt clientStats "total");
            ("change", get_opt clientStats "growth");
            ("trend", trend (js_ge0 (get_opt clientStats "growth")));
            ("period", VStr "este mês") ]);
    ("stats",
     VObj [ ("clients", clientStats);
            ("projects", projectStats);
            ("tasks", taskStats);
            ("financial", financialStats);
            ("billing", billingStats) ]);
    ("recentActivities", VArr recentActivities);
    ("urgentProjects", VArr urgentProjects);
    ("upcomingInvoices", VArr upcomingInvoices) ]).

(** ** The router *)

(** The handler of GET /: its [try] block and its [catch] block. *)
Definition handler (now : Z) (req : Request) : M World Response :=
  try_catch
    (dashboardService <-
       match req_user req with
       | None =>
           throw (TypeError
                    "Cannot read properties of undefined (reading 'tenantId')")
       | Some u => ret (new_service u)
       end ;;
     dashboardData <- getDashboardData now dashboardService ;;
     ret (json 200 dashboardData))
    (fun _ => ret (json 500 (error_body "Erro ao carregar dados do dashboard"))).

Variable JWT_ACCESS_SECRET : string.
Variable jwt_verify : string -> string -> Z -> Result Value.

(** One request through the route: [authenticateToken], then the
    handler. *)
Definition route (now : Z) (admin : Auth.AdminDb) (req : Request)
  : M World Response :=
  match Auth.authenticateToken JWT_ACCESS_SECRET jwt_verify now req admin with
  | Respond r => ret r
  | Next req1 => handler now req1
  end.

End WithEngine.

Arguments getDashboardData {Rest}.
Arguments handler {Rest}.
Arguments route {Rest}.

End Dashboard.

(* ================================================================== *)
(** * [InvoiceService] and the invoices router *)
(* ================================================================== *)

Module Invoices.
Import Js JsString Tenant Http Schema Service.
Local Open Scope js_scope.

Definition getAll_sql : string := "
      SELECT * FROM ${schema}.invoices 
      WHERE 1=1
    ".

Definition order_by_sql : string := " ORDER BY 
      CASE 
        WHEN status = 'pendente' THEN 1
        WHEN status = 'nova' THEN 2
        WHEN status = 'processando' THEN 3
        WHEN status = 'atribuida' THEN 4
        WHEN status = 'paga' THEN 5
        ELSE 6
      END,
      data_vencimento ASC
    ".

Definition getById_sql : string := "
      SELECT * FROM ${schema}.invoices WHERE id = $1
    ".

Definition insert_sql : string := "
      INSERT INTO ${schema}.invoices (
        client_id, numero_fatura, valor, descricao, servico_prestado,
        data_emissao, data_vencimento, status, tentativas_cobranca,
        recorrente, intervalo_dias, proxima_fatura_data, cliente_nome,
        cliente_email, cliente_telefone, criado_por, criado_em,
        atualizado_em, observacoes, urgencia
      ) VALUES (
        $1, $2, $3, $4, $5, CURRENT_DATE, $6, 'nova', 0,
        $7, $8, $9, $10, $11, $12, $13, NOW(), NOW(), $14, $15
      ) RETURNING *
    ".

Definition update_sql : string := "
      UPDATE ${schema}.invoices SET
        cliente_nome = COALESCE($1, cliente_nome),
        cliente_email = COALESCE($2, cliente_email),
        cliente_telefone = COALESCE($3, cliente_telefone),
        numero_fatura = COALESCE($4, numero_fatura),
        valor = COALESCE($5, valor),
        descricao = COALESCE($6, descricao),
        servico_prestado = COALESCE($7, servico_prestado),
        data_vencimento = COALESCE($8, data_vencimento),
        observacoes = COALESCE($9, observacoes),
        urgencia = COALESCE($10, urgencia),
        status = COALESCE($11, status),
        data_pagamento = CASE WHEN $11 = 'paga' THEN NOW() ELSE data_pagamento END,
        atualizado_em = NOW()
      WHERE id = $12
      RETURNING *
    ".

Definition delete_sql : string := "DELETE FROM ${schema}.invoices WHERE id = $1".

Definition paid_sql : string := "SELECT COUNT(*) as count FROM ${schema}.invoices WHERE status = 'paga'".

Definition pending_sql : string := "SELECT COUNT(*) as count FROM ${schema}.invoices WHERE status IN ('nova', 'pendente')".

Definition overdue_sql : string := "SELECT COUNT(*) as count FROM ${schema}.invoices WHERE status = 'vencida'".

Definition due_soon_sql : string := "
        SELECT COUNT(*) as count FROM ${schema}.invoices 
        WHERE data_vencimento BETWEEN CURRENT_DATE AND CURRENT_DATE + INTERVAL '3 days'
        AND status IN ('nova', 'pendente')
      ".

Definition amounts_sql : string := "
        SELECT 
          SUM(CASE WHEN status = 'paga' THEN valor ELSE 0 END) as valor_pago,
          SUM(CASE WHEN status IN ('nova', 'pendente') THEN valor ELSE 0 END) as valor_pendente,
          SUM(CASE WHEN status = 'vencida' THEN valor ELSE 0 END) as valor_vencido
        FROM ${schema}.invoices
      ".

Definition clients_sql : string := "
      SELECT 
        DISTINCT cliente_nome as nome,
        cliente_email as email,
        cliente_telefone as telefone,
        COUNT(*) as total_faturas,
        SUM(valor) as total_faturado,
        SUM(CASE WHEN status = 'paga' THEN valor ELSE 0 END) as total_pago,
        SUM(CASE WHEN status IN ('nova', 'pendente') THEN 1 ELSE 0 END) as faturas_pendentes,
        MAX(CASE WHEN status = 'paga' THEN data_pagamento ELSE NULL END) as ultimo_pagamento
      FROM ${schema}.invoices
      WHERE cliente_nome IS NOT NULL AND cliente_nome != ''
      GROUP BY cliente_nome, cliente_email, cliente_telefone
      ORDER BY total_faturado DESC
    ".

Definition search_sql (n : nat) : string :=
  " AND (numero_fatura ILIKE $" ++ string_of_nat n
  ++ " OR cliente_nome ILIKE $" ++ string_of_nat n ++ ")".

Definition status_sql (n : nat) : string :=
  " AND status = $" ++ string_of_nat n.

Section WithEngine.

Variable Rest : Type.
Variable engine : string -> list Value -> Rest -> list Value * Rest.
Variable JSON_stringify : Value -> Value.
(** JavaScript addition [a + b], [parseFloat], [parseInt], and
    [s.replace(/\s+/g, '_').toLowerCase()], which throws on a value
    without a [replace] method. *)
Variable js_add : Value -> Value -> Value.
Variable parseFloat parseInt : Value -> Value.
Variable slug : Value -> Result Value.
(** The literal [96.8]; the numbers of the model are integers. *)
Variable taxa_cobrancas : Value.

Local Abbreviation World := (World Rest).
Local Abbreviation pg := (CashFlow.pg Rest engine).

Definition getAll (self : BaseService) (filters : Value)
  : M World (list Value) :=
  enter "InvoiceService.getAll" ;;;
  _ <- lift (requirePermission self "read" "receivables") ;;
  let search := get_opt filters "search" in
  let status := get_opt filters "status" in
  let q0 := (getAll_sql, @nil Value) in
  q1 <- lift (if truthy search
              then rbind (like_pattern search) (fun pattern =>
                   Ok (fst q0 ++ search_sql (List.length (snd q0) + 1),
                       (snd q0 ++ [pattern])%list))
              else Ok q0) ;;
  let q2 := if truthy status
            then (fst q1 ++ status_sql (List.length (snd q1) + 1),
                  (snd q1 ++ [status])%list)
            else q1 in
  query self (pg (fst q2 ++ order_by_sql) (snd q2)).

Definition getById (self : BaseService) (id : string) : M World Value :=
  enter "InvoiceService.getById" ;;;
  _ <- lift (requirePermission self "read" "receivables") ;;
  results <- query self (pg getById_sql [VStr id]) ;;
  match results with
  | [] => throw (Error "Fatura não encontrada")
  | r :: _ => ret r
  end.

(** The parameter array of the INSERT of [create]; [now] is
    [Date.now()]. *)
Definition insert_params (now : Z) (self : BaseService) (f : string -> Value)
  : list Value :=
  [ VStr ("generated_" ++ string_of_Z now); f "numero_fatura"; f "valor";
    f "descricao"; f "servico_prestado"; f "data_vencimento";
    js_or (f "recorrente") (VBool false);
    js_or (f "intervalo_dias") (VNum 30);
    f "proxima_fatura_data"; f "cliente_nome"; f "cliente_email";
    f "cliente_telefone"; VStr (usr_name (user self)); f "observacoes";
    js_or (f "urgencia") (VStr "media") ].

Definition create (now : Z) (self : BaseService) (invoiceData : Value)
  : M World Value :=
  enter "InvoiceService.create" ;;;
  _ <- lift (requirePermission self "write" "receivables") ;;
  f <- lift (destructure invoiceData) ;;
  results <- query self (pg insert_sql (insert_params now self f)) ;;
  let invoice := first results in
  id <- lift (get_prop invoice "id") ;;
  auditLog JSON_stringify self "invoices" "CREATE" id VNull invoice ;;;
  number <- lift (to_js_string (get_opt invoice "numero_fatura")) ;;
  createNotification JSON_stringify self "warning" "Nova Fatura Criada"
    (usr_name (user self) ++ " criou a fatura " ++ number)
    "billing" (VStr "invoice") id
    (VObj [("invoice_id", id); ("page", VStr "/recebiveis")])
    VUndefined ;;;
  ret invoice.

(** The parameter array of the UPDATE of [update]. *)
Definition update_params (f : string -> Value) (id : string) : list Value :=
  [ f "cliente_nome"; f "cliente_email"; f "cliente_telefone";
    f "numero_fatura"; f "valor"; f "descricao"; f "servico_prestado";
    f "data_vencimento"; f "observacoes"; f "urgencia"; f "status"; VStr id ].

Definition update (self : BaseService) (id : string) (invoiceData : Value)
  : M World Value :=
  enter "InvoiceService.update" ;;;
  _ <- lift (requirePermission self "write" "receivables") ;;
  oldInvoice <- getById self id ;;
  f <- lift (destructure invoiceData) ;;
  results <- query self (pg update_sql (update_params f id)) ;;
  let invoice := first results in
  auditLog JSON_stringify self "invoices" "UPDATE" (VStr id)
           oldInvoice invoice ;;;
  ret invoice.

Definition delete (self : BaseService) (id : string) : M World unit :=
  enter "InvoiceService.delete" ;;;
  _ <- lift (requirePermission self "write" "receivables") ;;
  invoice <- getById self id ;;
  _ <- query self (pg delete_sql [VStr id]) ;;
  auditLog JSON_stringify self "invoices" "DELETE" (VStr id) invoice VNull.

Definition getDashboardStats (self : BaseService) : M World Value :=
  enter "InvoiceService.getDashboardStats" ;;;
  _ <- lift (requirePermission self "read" "receivables") ;;
  rs <- all [ query self (pg paid_sql []);
              query self (pg pending_sql []);
              query self (pg overdue_sql []);
              query self (pg due_soon_sql []);
              query self (pg amounts_sql []) ] ;;
  let count i := Dashboard.first_or_zero (nth i rs []) "count" in
  let amount column := Dashboard.first_or_zero (nth 4 rs []) column in
  ret (VObj [
    ("faturasPagas", count 0%nat);
    ("faturasPendentes", count 1%nat);
    ("faturasVencidas", count 2%nat);
    ("faturasProximoVencimento", count 3%nat);
    ("valorTotal",
     js_add (js_add (amount "valor_pago") (amount "valor_pendente"))
            (amount "valor_vencido"));
    ("valorPago", amount "valor_pago");
    ("valorPendente", amount "valor_pendente");
    ("valorVencido", amount "valor_vencido");
    ("novosClientes", VNum 0);
    ("taxaCobranças", taxa_cobrancas);
    ("tempoMedioPagamento", VNum 8);
    ("notificacoesAgendadas", VNum 0);
    ("faturamentoMensal", amount "valor_pago");
    ("crescimentoMensal", VNum 0);
    ("clientesAtivos", VNum 0) ]).

Definition getClients (self : BaseService) : M World (list Value) :=
  enter "InvoiceService.getClients" ;;;
  _ <- lift (requirePermission self "read" "receivables") ;;
  results <- query self (pg clients_sql []) ;;
  lift (Notifications.map_result
          (fun row =>
             rbind (get_prop row "nome") (fun nome =>
             rbind (slug nome) (fun id =>
             let get := get_opt row in
             Ok (VObj [
               ("id", id);
               ("nome", nome);
               ("email", get "email");
               ("telefone", get "telefone");
               ("whatsapp", get "telefone");
               ("totalFaturado",
                parseFloat (js_or (get "total_faturado") (VNum 0)));
               ("totalPago", parseFloat (js_or (get "total_pago") (VNum 0)));
               ("faturasPendentes",
                parseInt (js_or (get "faturas_pendentes") (VNum 0)));
               ("ultimoPagamento", get "ultimo_pagamento");
               ("ativo", VBool true);
               ("bloqueado", VBool false) ]))))
          results).

(** ** The router *)

Inductive Endpoint : Type :=
| GET_root       (* GET / *)
| GET_dashboard  (* GET /dashboard *)
| GET_clients    (* GET /clients *)
| GET_id         (* GET /:id *)
| POST_root      (* POST / *)
| PUT_id         (* PUT /:id *)
| DELETE_id      (* DELETE /:id *).

(** [new InvoiceService(req.user)]. *)
Definition service_of (req : Request) : M World BaseService :=
  match req_user req with
  | None =>
      throw (TypeError "Cannot read properties of undefined (reading 'tenantId')")
  | Some u => ret (new_service u)
  end.

(** The [try] block of each handler. *)
Definition handler_try (now : Z) (e : Endpoint) (req : Request)
  : M World Response :=
  invoiceService <- service_of req ;;
  match e with
  | GET_root =>
      invoices <- getAll invoiceService (req_query req) ;;
      ret (json 200 (VArr invoices))
  | GET_dashboard =>
      dashboard <- getDashboardStats invoiceService ;;
      ret (json 200 dashboard)
  | GET_clients =>
      clients <- getClients invoiceService ;;
      ret (json 200 (VArr clients))
  | GET_id =>
      invoice <- getById invoiceService (req_params_id req) ;;
      ret (json 200 invoice)
  | POST_root =>
      invoice <- create now invoiceService (req_body req) ;;
      ret (json 201 (VObj [ ("message", VStr "Fatura criada com sucesso");
                            ("invoice", invoice) ]))
  | PUT_id =>
      invoice <- update invoiceService (req_params_id req) (req_body req) ;;
      ret (json 200 (VObj [ ("message", VStr "Fatura atualizada com sucesso");
                            ("invoice", invoice) ]))
  | DELETE_id =>
      delete invoiceService (req_params_id req) ;;;
      ret (json 200 (VObj [ ("message", VStr "Fatura excluída com sucesso") ]))
  end.

(** The [catch] block of each handler. *)
Definition handler_catch (e : Endpoint) : Response :=
  match e with
  | GET_root => json 500 (error_body "Erro ao buscar faturas")
  | GET_dashboard =>
      json 500 (error_body "Erro ao buscar dashboard de recebíveis")
  | GET_clients =>
      json 500 (error_body "Erro ao buscar clientes de recebíveis")
  | GET_id => json 404 (error_body "Fatura não encontrada")
  | POST_root => json 400 (error_body "Erro ao criar fatura")
  | PUT_id => json 400 (error_body "Erro ao atualizar fatura")
  | DELETE_id => json 400 (error_body "Erro ao excluir fatura")
  end.

Definition handler (now : Z) (e : Endpoint) (req : Request)
  : M World Response :=
  try_catch (handler_try now e req) (fun _ => ret (handler_catch e)).

Variable JWT_ACCESS_SECRET : string.
Variable jwt_verify : string -> string -> Z -> Result Value.

(** One request through a route of the router: [authenticateToken],
    then the handler; no route has an account-type middleware. *)
Definition route (e : Endpoint) (now : Z) (admin : Auth.AdminDb) (req : Request)
  : M World Response :=
  match Auth.authenticateToken JWT_ACCESS_SECRET jwt_verify now req admin with
  | Respond r => ret r
  | Next req1 => handler now e req1
  end.

End WithEngine.

Arguments getAll {Rest}.
Arguments getById {Rest}.
Arguments create {Rest}.
Arguments update {Rest}.
Arguments delete {Rest}.
Arguments getDashboardStats {Rest}.
Arguments getClients {Rest}.
Arguments handler_try {Rest}.
Arguments handler {Rest}.
Arguments route {Rest}.

End Invoices.

(* ================================================================== *)
(** * The authentication router *)
(* ================================================================== *)

Module AuthRoutes.
Import Js JsString Http Auth.
Local Open Scope js_scope.

(** [tokens] as the JSON object sent. *)
Definition tokens_value (t : Tokens) : Value :=
  VObj [ ("accessToken", VStr (accessToken t));
         ("refreshToken", VStr (refreshToken t)) ].

Section Libraries.

Variable JWT_ACCESS_SECRET JWT_REFRESH_SECRET : string.
Variable jwt_verify : string -> string -> Z -> Result Value.
Variable jwt_sign : Value -> string -> string -> Z -> string.
Variable bcrypt_hash : string -> nat -> string -> string.
Variable bcrypt_compare : string -> string -> bool.
(** What the query builder, [bcryptjs] and [jsonwebtoken] make of
    arguments that are not strings is not fixed here. *)
Variable login_other : Env -> Value -> Value -> M AdminDb Tokens.
Variable refresh_other : Env -> Value -> M AdminDb Tokens.

(** [AuthService.login(email, password)] on the fields of a JSON body. *)
Definition login_call (env : Env) (email password : Value)
  : M AdminDb Tokens :=
  match email, password with
  | VStr e, VStr p =>
      login JWT_ACCESS_SECRET JWT_REFRESH_SECRET jwt_sign bcrypt_hash
            bcrypt_compare env e p
  | _, _ => login_other env email password
  end.

(** [AuthService.refreshAccessToken(refreshToken)] on a field of a JSON
    body. *)
Definition refresh_call (env : Env) (refreshToken : Value)
  : M AdminDb Tokens :=
  match refreshToken with
  | VStr t =>
      refreshAccessToken JWT_ACCESS_SECRET JWT_REFRESH_SECRET jwt_verify
                         jwt_sign bcrypt_hash bcrypt_compare env t
  | _ => refresh_other env refreshToken
  end.

(** POST /login. *)
Definition login_route (env : Env) (req : Request) : M AdminDb Response :=
  try_catch
    (f <- lift (destructure (req_body req)) ;;
     let email := f "email" in
     let password := f "password" in
     if negb (truthy email) || negb (truthy password) then
       ret (json 400 (error_body "Email e senha são obrigatórios"))
     else
       tokens <- login_call env email password ;;
       ret (json 200 (VObj [ ("message", VStr "Login realizado com sucesso");
                             ("user", VObj [("email", email)]);
                             ("tokens", tokens_value tokens) ])))
    (fun _ => ret (json 401 (error_body "Email ou senha incorretos"))).

(** POST /refresh. *)
Definition refresh_route (env : Env) (req : Request) : M AdminDb Response :=
  try_catch
    (f <- lift (destructure (req_body req)) ;;
     let refreshToken := f "refreshToken" in
     if negb (truthy refreshToken) then
       ret (json 400 (error_body "Refresh token é obrigatório"))
     else
       tokens <- refresh_call env refreshToken ;;
       ret (json 200 (VObj [ ("message", VStr "Token renovado com sucesso");
                             ("tokens", tokens_value tokens) ])))
    (fun _ => ret (json 401 (error_body "Refresh token inválido"))).

(** POST /logout. *)
Definition logout_route (req : Request) : M AdminDb Response :=
  try_catch
    (ret (json 200 (VObj [("message", VStr "Logout realizado com sucesso")])))
    (fun _ => ret (json 500 (error_body "Erro interno do servidor"))).

End Libraries.

End AuthRoutes.

(* ================================================================== *)
(** * Notions used to state properties *)
(* ================================================================== *)

Module Notions.
Import JsString Tenant.

(** Every character is a lower-case hexadecimal digit. *)
Fixpoint all_hex (s : string) : bool :=
  match s with
  | EmptyString => true
  | String c s' => is_hex_digit c && all_hex s'
  end.

(** The character [x] does not occur in [s]. *)
Fixpoint lacks (x : ascii) (s : string) : bool :=
  match s with
  | EmptyString => true
  | String c s' => negb (c =? x)%char && lacks x s'
  end.

(** The values the migration's CHECK constraint admits in
    [publications.status]; the column is nullable. *)
Definition status_values : list string :=
  ["nova"; "pendente"; "atribuida"; "finalizada"; "descartada"].

Definition status_checked (p : Schema.Publication) : bool :=
  match Schema.pub_status p with
  | None => true
  | Some s => includes status_values s
  end.

Definition status_null (p : Schema.Publication) : bool :=
  match Schema.pub_status p with
  | None => true
  | Some _ => false
  end.

(** Clauses followed by positional parameters numbered from [n] on:
    [c1 $n c2 $n+1 ...]. *)
Fixpoint numbered (n : nat) (clauses : list string) : string :=
  match clauses with
  | [] => ""
  | c :: rest => c ++ "$" ++ Js.string_of_nat n ++ numbered (S n) rest
  end.

(** The optional filters of [CashFlowService.getAll] in the order the
    code tests them: the clause, the value tested, the parameter pushed;
    [text] is the search filter as a string. *)
Definition cash_flow_filters (filters : Js.Value) (text : string)
  : list (string * Js.Value * Js.Value) :=
  let get := Js.get_opt filters in
  [ (" AND description ILIKE ", get "search", Js.VStr ("%" ++ text ++ "%"));
    (" AND type = ", get "type", get "type");
    (" AND category_id = ", get "category", get "category");
    (" AND status = ", get "status", get "status");
    (" AND date >= ", get "date_start", get "date_start");
    (" AND date <= ", get "date_end", get "date_end") ].

Definition present (table : list (string * Js.Value * Js.Value))
  : list (string * Js.Value * Js.Value) :=
  filter (fun t => Js.truthy (snd (fst t))) table.

End Notions.

(* ================================================================== *)
(** * Sample data and library instances *)
(* ================================================================== *)

(** Concrete stand-ins for the external libraries and a small database,
    used where a statement is exercised on a closed input.  The token
    format keeps what matters of [jsonwebtoken]: a token is determined by
    the secret, the payload and the issue time in seconds.  The hash
    format keeps what matters of [bcryptjs]: the salt is part of the
    hash and [compare] accepts every salted hash of the same data. *)
Module Samples.
Import Js JsString Tenant Http Auth Schema Service.

(** The text of a value, empty where the conversion throws. *)
Definition sample_text (v : Value) : string :=
  match to_js_string v with
  | Ok s => s
  | Throw _ => ""
  end.

Definition ACCESS : string := "access-secret".
Definition REFRESH : string := "refresh-secret".

Definition sample_sign (payload : Value) (secret expiresIn : string) (now : Z)
  : string :=
  secret ++ ":" ++ sample_text (get_opt payload "userId") ++ ":"
  ++ string_of_Z (now / 1000).

Definition sample_verify (token secret : string) (now : Z) : Result Value :=
  match split ":" token with
  | [s; uid; iat] =>
      if negb (s =? secret) then Throw JsonWebTokenError
      else if (iat =? "0") then Throw TokenExpiredError
      else Ok (VObj [("userId", VStr uid)])
  | _ => Throw JsonWebTokenError
  end.

Definition sample_hash (data : string) (rounds : nat) (salt : string) : string :=
  salt ++ "$" ++ data.

Definition sample_compare (data hash : string) : bool :=
  match split "$" hash with
  | [_; d] => (d =? data)
  | _ => false
  end.

Definition tenant_a : string := "123e4567-e89b-12d3-a456-426614174000".
Definition tenant_b : string := "123e4567-e89b-12d3-a456-426614174001".

Definition ana : AdminUser :=
  mkAdminUser "u-ana" (Some tenant_a) "ana@escritorio.com"
              (sample_hash "123456" 10 "s0") "Ana Santos" (Some "simples")
              true None.

Definition costa : AdminUser :=
  mkAdminUser "u-costa" (Some tenant_a) "financeiro@escritorio.com"
              (sample_hash "123456" 10 "s1") "Dra. Costa" (Some "composta")
              true None.

Definition joao : AdminUser :=
  mkAdminUser "u-joao" (Some tenant_b) "joao@outro.com"
              (sample_hash "abcdef" 10 "s2") "Joao" (Some "gerencial")
              false None.

Definition joao_active : AdminUser :=
  mkAdminUser "u-joao" (Some tenant_b) "joao@outro.com"
              (sample_hash "abcdef" 10 "s2") "Joao" (Some "gerencial")
              true None.

Definition admin0 : AdminDb := mkAdminDb [ana; costa; joao] [].

(** An active user that belongs to no tenant. *)
Definition sofia : AdminUser :=
  mkAdminUser "u-sofia" None "sofia@plataforma.com"
              (sample_hash "123456" 10 "s4") "Sofia" (Some "gerencial")
              true None.

Definition admin1 : AdminDb := mkAdminDb [ana; costa; joao; sofia] [].

Definition request (authorization : option string) : Request :=
  mkRequest authorization (VObj []) "" VUndefined None None None.

Definition bearer (token : string) : option string := Some ("Bearer " ++ token).

(** Two logins of the same user within one second, then two later
    instants. *)
Definition env1 : Env := mkEnv 1700000000123 "s9" "rt-1".
Definition env2 : Env := mkEnv 1700000000456 "s10" "rt-2".
Definition env3 : Env := mkEnv 1700000005000 "s11" "rt-3".
Definition env4 : Env := mkEnv 1700000009000 "s12" "rt-4".

Definition sample_login : Env -> string -> string -> M AdminDb Tokens :=
  login ACCESS REFRESH sample_sign sample_hash sample_compare.

Definition sample_refresh : Env -> string -> M AdminDb Tokens :=
  refreshAccessToken ACCESS REFRESH sample_verify sample_sign sample_hash
                     sample_compare.

Definition ana_token : string := "refresh-secret:u-ana:1700000000".

Definition after_login : AdminDb :=
  snd (sample_login env1 "ana@escritorio.com" "123456" admin0).

Definition after_two_logins : AdminDb :=
  snd (sample_login env2 "ana@escritorio.com" "123456" after_login).

(** A second pair of library instances, closer to the real formats: the
    token starts with the JOSE header and the user id, the issue time
    comes after them; the hash reads the first 72 bytes of its input, as
    bcrypt does. *)
Definition jose_header : string := "eyJhbGciOiJIUzI1NiIsInR5cCI6IkpXVCJ9".

Definition long_sign (payload : Value) (secret expiresIn : string) (now : Z)
  : string :=
  jose_header ++ "." ++ sample_text (get_opt payload "userId") ++ ":"
  ++ string_of_Z (now / 1000) ++ ":" ++ secret.

Definition long_verify (token secret : string) (now : Z) : Result Value :=
  match split ":" token with
  | [head; iat; s] =>
      if negb (s =? secret) then Throw JsonWebTokenError
      else Ok (VObj [("userId", VStr (drop 37 head))])
  | _ => Throw JsonWebTokenError
  end.

Definition hash72 (data : string) (rounds : nat) (salt : string) : string :=
  salt ++ "$" ++ substring 0 72 data.

Definition compare72 (data hash : string) : bool :=
  match split "$" hash with
  | [_; d] => (d =? substring 0 72 data)
  | _ => false
  end.

Definition maria : AdminUser :=
  mkAdminUser "9b2f4c1e-7a3d-4e5f-8a6b-0c1d2e3f4a5b" (Some tenant_a)
              "maria@escritorio.com" (hash72 "123456" 10 "s3") "Maria"
              (Some "gerencial") true None.

Definition long_login : Env -> string -> string -> M AdminDb Tokens :=
  login ACCESS REFRESH long_sign hash72 compare72.

Definition long_refresh : Env -> string -> M AdminDb Tokens :=
  refreshAccessToken ACCESS REFRESH long_verify long_sign hash72 compare72.

Definition maria_token : string :=
  jose_header ++ ".9b2f4c1e-7a3d-4e5f-8a6b-0c1d2e3f4a5b:1700000000:refresh-secret".

Definition after_maria_login : AdminDb :=
  snd (long_login env1 "maria@escritorio.com" "123456" (mkAdminDb [maria] [])).

(** A toy engine over the [cash_flow] rows: INSERT appends a row with a
    fresh id, DELETE and the lookups by id select on [$1], any other
    statement returns every row. *)
Definition id_is (p row : Value) : bool :=
  match p with
  | VStr s => is_str (get_opt row "id") s
  | _ => false
  end.

Definition sample_engine (text : string) (ps : list Value) (rows : list Value)
  : list Value * list Value :=
  if occurs "INSERT INTO" text then
    let row := VObj [("id", VStr ("tx-" ++ string_of_nat (List.length rows + 1)));
                     ("description", nth 4 ps VNull)] in
    ([row], (rows ++ [row])%list)
  else if occurs "DELETE FROM" text then
    ([], filter (fun r => negb (id_is (nth 0 ps VNull) r)) rows)
  else if occurs "WHERE id = $1" text then
    (filter (id_is (nth 0 ps VNull)) rows, rows)
  else (rows, rows).

Definition sample_stringify (v : Value) : Value := VStr (sample_text v).

(** Stand-ins for the other builtins: timestamps are numbers of
    milliseconds, [JSON.parse] is undone [sample_stringify], and the
    statements over [notifications] return no row. *)
Definition sample_date (v : Value) : option Z :=
  match v with
  | VNum n => Some n
  | _ => None
  end.

Definition sample_parse (v : Value) : Result Value := Ok v.

Definition sample_run (text : string) (ps : list Value)
  (d : TenantDb (list Value)) : list Value * TenantDb (list Value) :=
  ([], d).
Definition sample_sub (a b : Value) : Value :=
  match a, b with
  | VNum x, VNum y => VNum (x - y)
  | _, _ => VNull
  end.
Definition sample_csv (rows : list Value) : Result string :=
  Ok (string_of_nat (List.length rows) ++ " rows").

(** Three publications: two of Ana, one of Dra. Costa. *)
Definition publication (id user_id processo : string) (status : string)
  : Publication :=
  mkPublication id user_id 20250131 processo "DJE" "1a Vara" "Silva"
                (Some status) None None None None None (Some "media") []
                None None None [] (Some 1000%Z) (Some 1000%Z).

Definition pub_a1 : Publication := publication "p-1" "u-ana" "0001-11" "nova".
Definition pub_a2 : Publication := publication "p-2" "u-ana" "0002-22" "pendente".
Definition pub_c1 : Publication := publication "p-3" "u-costa" "0003-33" "nova".

Definition world_pubs : World (list Value) :=
  mkWorld (mkTenantDb [pub_a1; pub_c1; pub_a2] [] [] 2000 []) [] [] [].

Definition world0 : World (list Value) :=
  mkWorld (mkTenantDb [] [] [] 0 []) [] [] [].

(** A world with one cash-flow transaction. *)
Definition sample_tx : Value :=
  VObj [("id", VStr "tx-1"); ("description", VStr "Honorarios")].

Definition world_tx : World (list Value) :=
  mkWorld (mkTenantDb [] [] [] 0 [sample_tx]) [] [] [].

Definition with_faults (fs : list bool) (w : World (list Value))
  : World (list Value) :=
  mkWorld (db w) fs (rpc_log w) (calls w).

Definition ana_user : AuthenticatedUser :=
  mkUser "u-ana" tenant_a "ana@escritorio.com" "Ana Santos" (Some "simples").

Definition costa_user : AuthenticatedUser :=
  mkUser "u-costa" tenant_a "financeiro@escritorio.com" "Dra. Costa"
         (Some "composta").

Definition sample_route :=
  CashFlow.route sample_engine sample_stringify sample_sub sample_csv
                 "2025-01-31" ACCESS sample_verify.

Definition sample_handler :=
  CashFlow.handler sample_engine sample_stringify sample_sub
                   sample_csv "2025-01-31".

End Samples.

(* ================================================================== *)
(** * Properties *)
(* ================================================================== *)

(* ================================================================== *)
(** * Facts about the string operations *)
(* ================================================================== *)

Module JsStringFacts.
Import JsString.

Lemma append_nil_r (s : string) : s ++ "" = s.
Proof. induction s as [|c s IH]; simpl; [reflexivity | now rewrite IH]. Qed.

Lemma append_assoc (a b c : string) : (a ++ b) ++ c = a ++ (b ++ c).
Proof. induction a as [|x a IH]; simpl; [reflexivity | now rewrite IH]. Qed.

Lemma length_append (a b : string) :
  String.length (a ++ b) = String.length a + String.length b.
Proof. induction a as [|x a IH]; simpl; [reflexivity | now rewrite IH]. Qed.

Lemma append_inv_same_length (a b x y : string) :
  String.length a = String.length b -> a ++ x = b ++ y -> a = b /\ x = y.
Proof.
  revert b. induction a as [|c a IH]; intros [|d b] Hlen H; simpl in *;
    try discriminate.
  - now split.
  - injection H as -> H. injection Hlen as Hlen.
    destruct (IH b Hlen H) as [-> ->]. now split.
Qed.

Lemma starts_with_split (p s : string) :
  starts_with p s = true -> s = p ++ drop (String.length p) s.
Proof.
  revert s. induction p as [|a p IH]; intros s H; simpl in *.
  - reflexivity.
  - destruct s as [|b s]; [discriminate|].
    apply andb_prop in H as [Hab H]. apply Ascii.eqb_eq in Hab as ->.
    cbn [String.length drop append]. now rewrite <- (IH s H).
Qed.

Lemma starts_with_append (p a b : string) :
  starts_with p a = true -> starts_with p (a ++ b) = true.
Proof.
  revert a. induction p as [|x p IH]; intros a H; simpl in *.
  - reflexivity.
  - destruct a as [|y a]; [discriminate|]. simpl in *.
    apply andb_prop in H as [-> H]. now apply IH.
Qed.

Lemma drop_length_le (n : nat) (s : string) :
  String.length (drop n s) <= String.length s.
Proof.
  revert s. induction n as [|n IH]; intros [|c s]; simpl; auto.
Qed.

Lemma get_substitution_literal (matched before after repl : string) :
  dollar_free repl = true ->
  get_substitution matched before after repl = repl.
Proof.
  induction repl as [|c r IH]; simpl; intros H; [reflexivity|].
  apply andb_prop in H as [Hc Hr].
  destruct (c =? "$")%char; [discriminate|].
  now rewrite (IH Hr).
Qed.

(** Characters inside a match are skipped. *)
Lemma replace_go_skip (pat repl x rest before : string) :
  replace_go pat repl (String.length x) before (x ++ rest)
  = replace_go pat repl 0 (before ++ x) rest.
Proof.
  revert before. induction x as [|c x IH]; intros before; simpl.
  - rewrite append_nil_r. destruct rest; reflexivity.
  - rewrite IH, append_assoc. reflexivity.
Qed.

(** The scan at a position where the pattern matches. *)
Lemma replace_go_match (p0 : ascii) (pt repl before s : string) :
  starts_with (String p0 pt) s = true ->
  replace_go (String p0 pt) repl 0 before s
  = get_substitution (String p0 pt) before
      (drop (String.length (String p0 pt)) s) repl
    ++ replace_go (String p0 pt) repl 0 (before ++ String p0 pt)
         (drop (String.length (String p0 pt)) s).
Proof.
  intros H. pose proof (starts_with_split _ _ H) as Hs.
  destruct s as [|c s]; [discriminate|].
  simpl in Hs. injection Hs as Hc Hs. subst c.
  cbn [replace_go]. rewrite H. f_equal.
  replace (String.length (String p0 pt) - 1) with (String.length pt)
    by (cbn [String.length]; lia).
  cbn [String.length drop].
  rewrite Hs at 1. rewrite replace_go_skip, append_assoc. reflexivity.
Qed.

(** The scan at a position where the pattern does not match. *)
Lemma replace_go_step (pat repl before : string) (c : ascii) (s : string) :
  starts_with pat (String c s) = false ->
  replace_go pat repl 0 before (String c s)
  = String c (replace_go pat repl 0 (before ++ String c "") s).
Proof. intros H. cbn [replace_go]. now rewrite H. Qed.

Lemma join_cons (sep x : string) (xs : list string) :
  xs <> [] -> join sep (x :: xs) = x ++ sep ++ join sep xs.
Proof. destruct xs; [contradiction | reflexivity]. Qed.

Lemma join_push (sep : string) (c : ascii) (g : string) (gs : list string) :
  join sep (String c g :: gs) = String c (join sep (g :: gs)).
Proof. destruct gs; reflexivity. Qed.

Lemma join_head (sep g : string) (gs : list string) :
  exists tail : string, join sep (g :: gs) = g ++ tail.
Proof.
  destruct gs as [|h gs].
  - exists "". simpl. now rewrite append_nil_r.
  - exists (sep ++ join sep (h :: gs)). reflexivity.
Qed.

(** A global replace of a non-empty literal: the subject is a sequence of
    pattern-free segments separated by the pattern, and for a dollar-free
    replacement the result is the same segments separated by the
    replacement. *)
Lemma replace_go_segments (p0 : ascii) (pt : string) (n : nat) (s : string) :
  String.length s <= n ->
  exists segs : list string,
    segs <> []
    /\ s = join (String p0 pt) segs
    /\ Forall (fun g => occurs (String p0 pt) g = false) segs
    /\ forall repl before : string,
         dollar_free repl = true ->
         replace_go (String p0 pt) repl 0 before s = join repl segs.
Proof.
  set (pat := String p0 pt).
  assert (Hempty :
            exists segs : list string,
              segs <> [] /\ "" = join pat segs
              /\ Forall (fun g => occurs pat g = false) segs
              /\ forall repl before : string,
                   dollar_free repl = true ->
                   replace_go pat repl 0 before "" = join repl segs).
  { exists [""]. repeat split; try discriminate.
    constructor; [reflexivity | constructor]. }
  revert s. induction n as [|n IH]; intros s Hlen.
  - destruct s; [apply Hempty | simpl in Hlen; lia].
  - destruct s as [|c s]; [apply Hempty|].
    destruct (starts_with pat (String c s)) eqn:Hp.
    + pose proof (starts_with_split _ _ Hp) as Hs.
      assert (Hshort : String.length (drop (String.length pat) (String c s)) <= n).
      { cbn [String.length drop pat]. cbn [String.length] in Hlen.
        pose proof (drop_length_le (String.length pt) s). lia. }
      destruct (IH _ Hshort) as (segs & Hne & Hj & Hfree & Hr).
      exists ("" :: segs). split; [discriminate|]. split; [|split].
      * rewrite (join_cons _ _ _ Hne), <- Hj. exact Hs.
      * constructor; [reflexivity | assumption].
      * intros repl before Hrepl.
        unfold pat in Hp |- *. rewrite (replace_go_match _ _ _ _ _ Hp).
        rewrite get_substitution_literal by assumption.
        fold pat. rewrite (Hr repl _ Hrepl). now rewrite (join_cons _ _ _ Hne).
    + assert (Hshort : String.length s <= n) by (simpl in Hlen; lia).
      destruct (IH s Hshort) as (segs & Hne & Hj & Hfree & Hr).
      destruct segs as [|g gs]; [contradiction|].
      exists (String c g :: gs). split; [discriminate|]. split; [|split].
      * rewrite join_push. now rewrite <- Hj.
      * inversion Hfree as [|? ? Hg Hgs]; subst.
        constructor; [|assumption].
        cbn [occurs]. rewrite Hg, orb_false_r.
        destruct (starts_with pat (String c g)) eqn:Hpg; [|reflexivity].
        destruct (join_head pat g gs) as [tail Ht].
        assert (starts_with pat (String c (join pat (g :: gs))) = true).
        { rewrite Ht. apply (starts_with_append pat (String c g)). assumption. }
        congruence.
      * intros repl before Hrepl.
        rewrite (replace_go_step _ _ _ _ _ Hp), (Hr repl _ Hrepl).
        now rewrite join_push.
Qed.

Lemma replace_all_segments (p0 : ascii) (pt s : string) :
  exists segs : list string,
    s = join (String p0 pt) segs
    /\ Forall (fun g => occurs (String p0 pt) g = false) segs
    /\ forall repl : string,
         dollar_free repl = true ->
         replace_all (String p0 pt) repl s = join repl segs.
Proof.
  destruct (replace_go_segments p0 pt (String.length s) s (le_n _))
    as (segs & _ & Hj & Hf & Hr).
  exists segs. split; [assumption|]. split; [assumption|].
  intros repl H. now apply Hr.
Qed.

(** A match that begins in [x] and is found in [x ++ b] either lies in
    [x], or [x] is a beginning of the pattern that [b] continues. *)
Lemma starts_with_append_inv (p x b : string) :
  starts_with p (x ++ b) = true ->
  starts_with p x = true
  \/ exists p2 : string, p = x ++ p2 /\ p2 <> "" /\ starts_with p2 b = true.
Proof.
  revert x. induction p as [|a p IH]; intros x H; [now left|].
  destruct x as [|c x].
  - right. exists (String a p). repeat split; [discriminate | exact H].
  - simpl in H. apply andb_prop in H as [Hac H].
    destruct (IH x H) as [Hx | (p2 & -> & Hne & Hp2)].
    + left. simpl. now rewrite Hac.
    + right. exists p2. apply Ascii.eqb_eq in Hac. subst c. auto.
Qed.

(** A dollar-free text in front hides no occurrence of a pattern that
    begins with a dollar sign. *)
Lemma occurs_dollar_free_prefix (pt r rest : string) :
  dollar_free r = true ->
  occurs (String "$" pt) (r ++ rest) = occurs (String "$" pt) rest.
Proof.
  induction r as [|c r IH]; intros H; [reflexivity|].
  simpl in H. apply andb_prop in H as [Hc Hr].
  cbn [append occurs starts_with].
  rewrite (Ascii.eqb_sym "$" c).
  destruct (c =? "$")%char; [discriminate|]. simpl. now apply IH.
Qed.

(** [s.replace(/-/g, '')] deletes the hyphens. *)
Lemma replace_go_remove (x : ascii) (s before : string) :
  replace_go (String x "") "" 0 before s = remove_char x s.
Proof.
  revert before. induction s as [|c s IH]; intros before; [reflexivity|].
  cbn [replace_go remove_char starts_with]. rewrite andb_true_r.
  rewrite (Ascii.eqb_sym x c).
  destruct (c =? x)%char.
  - cbn [get_substitution String.length Nat.sub append]. apply IH.
  - now rewrite IH.
Qed.

Lemma replace_all_remove (x : ascii) (s : string) :
  replace_all (String x "") "" s = remove_char x s.
Proof. apply replace_go_remove. Qed.

Lemma dollar_free_append (a b : string) :
  dollar_free a = true -> dollar_free b = true -> dollar_free (a ++ b) = true.
Proof.
  induction a as [|c a IH]; simpl; intros Ha Hb; [assumption|].
  apply andb_prop in Ha as [Hc Ha]. rewrite Hc. now apply IH.
Qed.

Lemma dollar_free_remove (x : ascii) (s : string) :
  dollar_free s = true -> dollar_free (remove_char x s) = true.
Proof.
  induction s as [|c s IH]; simpl; intros H; [reflexivity|].
  apply andb_prop in H as [Hc Hs].
  destruct (c =? x)%char; simpl; [auto | rewrite Hc; auto].
Qed.

End JsStringFacts.

(* ================================================================== *)
(** * Facts about [BaseService] *)
(* ================================================================== *)

Module ServiceFacts.
Import Js JsString Tenant Http Schema Service.

(** The world once a service method was entered. *)
Lemma enter_eq {Rest} (method : string) (w : World Rest) :
  enter method w = (Ok tt, entered method w).
Proof. reflexivity. Qed.

Section WithRest.

Variable Rest : Type.
Variable JSON_stringify : Value -> Value.

(** [query] in one equation: the request is always sent; a faulting RPC
    surfaces as the generic query error and changes no table. *)
Lemma query_eq {R} (self : BaseService) (s : Stmt Rest R) (w : World Rest) :
  query self s w =
  (if next_fault w then Throw (Error "Erro na consulta ao banco de dados")
   else Ok (fst (denot s (tenant_sql (tenantSchema self) (sql s)) (db w))),
   after_query self s w).
Proof.
  unfold query, try_catch, bind, supabase_rpc, after_query, next_fault,
    request_of, throw, ret.
  destruct w as [d fs lg cs]; cbn [faults db rpc_log calls].
  destruct fs as [|[|] fs]; cbn [tl];
    try destruct (denot s _ d) as [data d']; reflexivity.
Qed.

Lemma query_log {R} (self : BaseService) (s : Stmt Rest R) (w : World Rest) :
  rpc_log (snd (query self s w)) = (rpc_log w ++ [request_of self s])%list.
Proof. rewrite query_eq. reflexivity. Qed.

Lemma query_calls {R} (self : BaseService) (s : Stmt Rest R) (w : World Rest) :
  calls (snd (query self s w)) = calls w.
Proof. rewrite query_eq. reflexivity. Qed.

(** [Promise.all] over statements enters no service method. *)
Lemma all_queries_calls {R} (self : BaseService) (stmts : list (Stmt Rest R))
  (w : World Rest) :
  calls (snd (all (map (query self) stmts) w)) = calls w.
Proof.
  revert w. induction stmts as [|s stmts IH]; intros w; [reflexivity|].
  cbn [map all]. rewrite query_eq.
  destruct (next_fault w).
  - cbn [snd]. now rewrite IH.
  - specialize (IH (after_query self s w)).
    destruct (all (map (query self) stmts) (after_query self s w))
      as [[xs|e] w2]; cbn [snd] in *; now rewrite IH.
Qed.

(** [auditLog] in one equation: it always returns normally. *)
Lemma auditLog_eq (self : BaseService) (tableName operation : string)
  (recordId oldData newData : Value) (w : World Rest) :
  auditLog JSON_stringify self tableName operation recordId oldData newData w =
  (Ok tt,
   after_query self
     (audit_stmt Rest [VStr (usr_id (user self)); VStr tableName; recordId;
                       VStr operation;
                       stringify_or_null JSON_stringify oldData;
                       stringify_or_null JSON_stringify newData]) w).
Proof.
  unfold auditLog, try_catch, bind. rewrite query_eq.
  destruct (next_fault w); reflexivity.
Qed.

(** [createNotification] in one equation: it always returns normally. *)
Lemma createNotification_eq (self : BaseService)
  (type title message category : string)
  (entityType entityId actionData userId : Value) (w : World Rest) :
  createNotification JSON_stringify self type title message category
    entityType entityId actionData userId w =
  (Ok tt,
   after_query self
     (notification_stmt Rest
        [VStr type; VStr title; VStr message; VStr category; entityType;
         entityId; stringify_or_null JSON_stringify actionData; userId;
         VStr (usr_name (user self))]) w).
Proof.
  unfold createNotification, try_catch, bind. rewrite query_eq.
  destruct (next_fault w); reflexivity.
Qed.

End WithRest.

End ServiceFacts.

(* ================================================================== *)
(** * Facts about [server/middleware/auth.ts] *)
(* ================================================================== *)

Module AuthFacts.
Import Js JsString Tenant Http Auth.

Section Libraries.

Variable JWT_ACCESS_SECRET JWT_REFRESH_SECRET : string.
Variable jwt_verify : string -> string -> Z -> Result Value.
Variable jwt_sign : Value -> string -> string -> Z -> string.
Variable bcrypt_hash : string -> nat -> string -> string.
Variable bcrypt_compare : string -> string -> bool.

Local Abbreviation authenticateToken :=
  (authenticateToken JWT_ACCESS_SECRET jwt_verify).
Local Abbreviation authenticate_try :=
  (authenticate_try JWT_ACCESS_SECRET jwt_verify).

Lemma single_in {A} (rows : list A) (r : A) :
  single rows = Some r -> rows = [r].
Proof.
  destruct rows as [|x [|y rest]]; simpl; intros H; try discriminate.
  now injection H as ->.
Qed.

Lemma single_none_all {A} (f : A -> bool) (g : A -> bool) (rows : list A) :
  (forall r, In r rows -> f r = true -> g r = false) ->
  match single (filter f rows) with
  | None => True
  | Some r => g r = false
  end.
Proof.
  intros H. destruct (single (filter f rows)) as [r|] eqn:E; [|exact I].
  apply single_in in E.
  assert (Hin : In r (filter f rows)) by (rewrite E; now left).
  apply filter_In in Hin as [Hin Hf]. now apply H.
Qed.

Lemma no_token_false (o : option string) :
  no_token o = false -> exists t, o = Some t /\ t <> "".
Proof.
  destruct o as [t|]; simpl; intros H; [|discriminate].
  exists t. split; [reflexivity|]. intros ->. discriminate.
Qed.

Lemma no_token_some (t : string) : t <> "" -> no_token (Some t) = false.
Proof. intros H. simpl. now apply String.eqb_neq. Qed.

(** When [authenticateToken] calls [next()]. *)
Lemma authenticateToken_next (now : Z) (req : Request) (db : AdminDb)
  (req' : Request) :
  authenticateToken now req db = Next req' ->
  resolves JWT_ACCESS_SECRET jwt_verify now req db req'.
Proof.
  unfold Auth.authenticateToken.
  destruct (no_token (bearer_token (req_authorization req))) eqn:Hno;
    [discriminate|].
  destruct (no_token_false _ Hno) as (token & Htok & Hne). rewrite Htok.
  unfold Auth.authenticate_try, rbind.
  destruct (jwt_verify token JWT_ACCESS_SECRET now) as [decoded|e] eqn:Hv;
    [|destruct e; discriminate].
  destruct (get_prop decoded "userId") as [userId|e] eqn:Hg;
    [|destruct e; discriminate].
  destruct (single (filter (fun u => eq_col userId (u_id u)) (users db)))
    as [row|] eqn:Hs; [|discriminate].
  destruct (u_is_active row) eqn:Hact; cbn [negb]; [|discriminate].
  destruct (u_tenant_id row) as [tenant_id|] eqn:Ht; [|discriminate].
  intros H. injection H as <-.
  apply single_in in Hs.
  assert (Hin : In row (filter (fun u => eq_col userId (u_id u)) (users db)))
    by (rewrite Hs; now left).
  apply filter_In in Hin as [Hin Heq].
  exists token, decoded, userId, row, tenant_id.
  repeat split; try assumption; reflexivity.
Qed.

(** C6.  [authenticateToken] answers 401 "Token de acesso necessário"
    without a bearer token (no [Authorization] header, or none with a
    second field after a space), 401 with code TOKEN_EXPIRED on an expired
    token, 403 "Token inválido" on any other verification failure, 401
    "Usuário inativo ou não encontrado" when the decoded user is absent
    or inactive; it calls [next()] only when a valid token resolves to an
    active user, and then [req.user], [req.tenantId] and
    [req.tenantSchema] come from that user's row of [admin.users]. *)
Theorem authenticateToken_outcomes (now : Z) (req : Request) (db : AdminDb) :
  (no_token (bearer_token (req_authorization req)) = true ->
   authenticateToken now req db
   = Respond (json 401 (error_body "Token de acesso necessário")))
  /\ (forall token : string,
        bearer_token (req_authorization req) = Some token ->
        token <> "" ->
        (jwt_verify token JWT_ACCESS_SECRET now = Throw TokenExpiredError ->
         authenticateToken now req db
         = Respond (json 401 (VObj [("error", VStr "Token expirado");
                                    ("code", VStr "TOKEN_EXPIRED")])))
        /\ (forall e : Exn,
              jwt_verify token JWT_ACCESS_SECRET now = Throw e ->
              e <> TokenExpiredError ->
              authenticateToken now req db
              = Respond (json 403 (error_body "Token inválido")))
        /\ (forall decoded userId : Value,
              jwt_verify token JWT_ACCESS_SECRET now = Ok decoded ->
              get_prop decoded "userId" = Ok userId ->
              (forall row, In row (users db) ->
                           eq_col userId (u_id row) = true ->
                           u_is_active row = false) ->
              authenticateToken now req db
              = Respond (json 401
                           (error_body "Usuário inativo ou não encontrado"))))
  /\ (forall req' : Request,
        authenticateToken now req db = Next req' ->
        resolves JWT_ACCESS_SECRET jwt_verify now req db req').
Proof.
  split; [|split].
  - intros Hno. unfold Auth.authenticateToken. now rewrite Hno.
  - intros token Htok Hne.
    assert (Hno : no_token (bearer_token (req_authorization req)) = false)
      by (rewrite Htok; now apply no_token_some).
    unfold Auth.authenticateToken, Auth.authenticate_try, rbind.
    rewrite Hno, Htok.
    split; [|split].
    + intros ->. reflexivity.
    + intros e -> He. destruct e; try reflexivity. contradiction.
    + intros decoded userId -> -> Hall.
      pose proof (single_none_all (fun u => eq_col userId (u_id u))
                    u_is_active (users db) Hall) as Hs.
      destruct (single (filter (fun u => eq_col userId (u_id u)) (users db)))
        as [row|]; [|reflexivity].
      now rewrite Hs.
  - apply authenticateToken_next.
Qed.

Local Abbreviation login :=
  (login JWT_ACCESS_SECRET JWT_REFRESH_SECRET jwt_sign bcrypt_hash
         bcrypt_compare).

(** C10.  [login] throws the same error, "Email ou senha incorretos",
    when no active user has the given email and when the password does
    not match the stored hash; in both cases nothing is written. *)
Theorem login_error_is_uniform (env : Env) (email password : string)
  (db : AdminDb) :
  ((forall row, In row (users db) -> u_email row = email ->
                u_is_active row = false) ->
   login env email password db = (Throw (Error "Email ou senha incorretos"), db))
  /\ (forall row,
        single (filter (fun u => (u_email u =? email) && u_is_active u)
                       (users db)) = Some row ->
        bcrypt_compare password (u_password_hash row) = false ->
        login env email password db = (Throw (Error "Email ou senha incorretos"), db)).
Proof.
  split.
  - intros Hnone. unfold Auth.login.
    destruct (filter (fun u => (u_email u =? email) && u_is_active u) (users db))
      as [|row rest] eqn:Hf; [reflexivity|].
    assert (Hin : In row (filter (fun u => (u_email u =? email) && u_is_active u)
                                 (users db))) by (rewrite Hf; now left).
    apply filter_In in Hin as [Hin Hc].
    apply andb_prop in Hc as [He Ha]. apply String.eqb_eq in He.
    rewrite (Hnone row Hin He) in Ha. discriminate.
  - intros row Hs Hc. unfold Auth.login. rewrite Hs, Hc. reflexivity.
Qed.

Local Abbreviation refreshAccessToken :=
  (refreshAccessToken JWT_ACCESS_SECRET JWT_REFRESH_SECRET jwt_verify jwt_sign
                      bcrypt_hash bcrypt_compare).
Local Abbreviation refresh_try :=
  (refresh_try JWT_ACCESS_SECRET JWT_REFRESH_SECRET jwt_verify jwt_sign
               bcrypt_hash bcrypt_compare).
Local Abbreviation generateTokens :=
  (generateTokens JWT_ACCESS_SECRET JWT_REFRESH_SECRET jwt_sign bcrypt_hash).

(** Every failure of [refreshAccessToken] is the same error. *)
Lemma refreshAccessToken_throw (env : Env) (token : string) (db : AdminDb)
  (e : Exn) (db' : AdminDb) :
  refresh_try env token db = (Throw e, db') ->
  refreshAccessToken env token db
  = (Throw (Error "Refresh token inválido"), db').
Proof.
  intros H. unfold Auth.refreshAccessToken, try_catch. rewrite H. reflexivity.
Qed.

Lemma refreshAccessToken_ok (env : Env) (token : string) (db : AdminDb)
  (tokens : Tokens) (db' : AdminDb) :
  refreshAccessToken env token db = (Ok tokens, db') ->
  refresh_try env token db = (Ok tokens, db').
Proof.
  unfold Auth.refreshAccessToken, try_catch.
  destruct (refresh_try env token db) as [[t|e] d]; [trivial|].
  cbn. discriminate.
Qed.

(** A token that matches no active stored row is refused, and nothing is
    written. *)
Lemma refresh_without_match (env : Env) (token : string) (db : AdminDb) :
  (forall t, In t (refresh_tokens db) -> rt_is_active t = true ->
             bcrypt_compare token (rt_token_hash t) = false) ->
  refreshAccessToken env token db
  = (Throw (Error "Refresh token inválido"), db).
Proof.
  intros Hnone.
  destruct (refresh_try env token db) as [r d] eqn:E.
  assert (r = Throw (Error "Refresh token inválido") /\ d = db
          \/ exists e, r = Throw e /\ d = db) as Hr.
  { revert E. unfold Auth.refresh_try.
    destruct (jwt_verify token JWT_REFRESH_SECRET (env_now env)) as [decoded|e].
    2:{ intros E; injection E as <- <-. right. eauto. }
    destruct (get_prop decoded "userId") as [userId|e].
    2:{ intros E; injection E as <- <-. right. eauto. }
    set (stored := filter _ (refresh_tokens db)).
    destruct stored as [|s0 rest] eqn:Hst.
    { intros E; injection E as <- <-. left. auto. }
    destruct (find _ (s0 :: rest)) as [vt|] eqn:Hfind.
    2:{ intros E; injection E as <- <-. left. auto. }
    exfalso. apply find_some in Hfind as [Hin Hcmp].
    rewrite <- Hst in Hin. unfold stored in Hin.
    apply filter_In in Hin as [Hin Hc].
    apply andb_prop in Hc as [Hc _]. apply andb_prop in Hc as [_ Hact].
    rewrite (Hnone vt Hin Hact) in Hcmp. discriminate. }
  destruct Hr as [[-> ->]|(e & -> & ->)];
    eapply refreshAccessToken_throw; eassumption.
Qed.

(** What the rotation does achieve.  A successful [refreshAccessToken]
    found an active stored row whose hash matches the presented token and
    left that row inactive before it issued new tokens.  When no other
    active row matches the token and the hash stored for the new refresh
    token does not match it either, every later call with the same token
    throws "Refresh token inválido". *)
Theorem refresh_rotates_matched_row (env : Env) (token : string)
  (db db' : AdminDb) (tokens : Tokens) :
  refreshAccessToken env token db = (Ok tokens, db') ->
  exists (validToken : RefreshToken) (user : AdminUser),
    In validToken (refresh_tokens db)
    /\ rt_is_active validToken = true
    /\ bcrypt_compare token (rt_token_hash validToken) = true
    /\ generateTokens env user (snd (deactivate_by_id (rt_id validToken) db))
       = (Ok tokens, db')
    /\ In (deactivate validToken) (refresh_tokens db')
    /\ ((forall t, In t (refresh_tokens db) ->
                   rt_id t <> rt_id validToken ->
                   rt_is_active t = true ->
                   bcrypt_compare token (rt_token_hash t) = false) ->
        bcrypt_compare token
          (bcrypt_hash (refreshToken tokens) 10 (env_salt env)) = false ->
        forall env2 : Env,
          refreshAccessToken env2 token db'
          = (Throw (Error "Refresh token inválido"), db')).
Proof.
  intros H. apply refreshAccessToken_ok in H. revert H.
  unfold Auth.refresh_try.
  destruct (jwt_verify token JWT_REFRESH_SECRET (env_now env)) as [decoded|e];
    [|discriminate].
  destruct (get_prop decoded "userId") as [userId|e]; [|discriminate].
  set (stored := filter _ (refresh_tokens db)).
  destruct stored as [|s0 rest] eqn:Hst; [discriminate|].
  destruct (find _ (s0 :: rest)) as [vt|] eqn:Hfind; [|discriminate].
  apply find_some in Hfind as [Hin Hcmp].
  rewrite <- Hst in Hin. unfold stored in Hin.
  apply filter_In in Hin as [Hin Hc].
  apply andb_prop in Hc as [Hc _]. apply andb_prop in Hc as [_ Hact].
  cbn [deactivate_by_id snd users].
  destruct (single _) as [user|]; [|discriminate].
  destruct (u_is_active user); cbn [negb]; [|discriminate].
  unfold Auth.generateTokens. cbn [users refresh_tokens].
  intros E. injection E as <- <-.
  exists vt, user. cbn [refreshToken refresh_tokens snd fst].
  split; [assumption|]. split; [assumption|]. split; [assumption|].
  split; [reflexivity|]. split.
  - apply in_or_app. left. apply in_map_iff. exists vt.
    rewrite String.eqb_refl. auto.
  - intros Hothers Hnew env2. apply refresh_without_match.
    cbn [refresh_tokens]. intros t Ht Hta.
    apply in_app_or in Ht as [Ht|[<-|[]]].
    + apply in_map_iff in Ht as (t0 & <- & Ht0).
      destruct (rt_id t0 =? rt_id vt) eqn:Hid.
      * cbn in Hta. discriminate.
      * apply Hothers; [assumption | now apply String.eqb_neq | assumption].
    + exact Hnew.
Qed.

End Libraries.

Import Samples.

Lemma authenticateToken_outcomes_witness :
  authenticateToken ACCESS sample_verify 5 (request None) admin0
  = Respond (json 401 (error_body "Token de acesso necessário"))
  /\ authenticateToken ACCESS sample_verify 5
       (request (bearer "access-secret:u-ana:0")) admin0
     = Respond (json 401 (VObj [("error", VStr "Token expirado");
                                ("code", VStr "TOKEN_EXPIRED")]))
  /\ authenticateToken ACCESS sample_verify 5
       (request (bearer "refresh-secret:u-ana:17")) admin0
     = Respond (json 403 (error_body "Token inválido"))
  /\ authenticateToken ACCESS sample_verify 5
       (request (bearer "access-secret:u-joao:17")) admin0
     = Respond (json 401 (error_body "Usuário inativo ou não encontrado"))
  /\ resolves ACCESS sample_verify 5
       (request (bearer "access-secret:u-ana:17")) admin0
       (set_auth (request (bearer "access-secret:u-ana:17"))
          (mkUser "u-ana" tenant_a "ana@escritorio.com" "Ana Santos"
                  (Some "simples"))
          tenant_a (schema_of tenant_a)).
Proof.
  split; [|split; [|split; [|split]]].
  - apply (authenticateToken_outcomes ACCESS sample_verify 5 (request None) admin0).
    reflexivity.
  - destruct (authenticateToken_outcomes ACCESS sample_verify 5
                (request (bearer "access-secret:u-ana:0")) admin0)
      as (_ & H & _).
    destruct (H "access-secret:u-ana:0") as (Hexpired & _);
      [reflexivity | discriminate |].
    apply Hexpired. reflexivity.
  - destruct (authenticateToken_outcomes ACCESS sample_verify 5
                (request (bearer "refresh-secret:u-ana:17")) admin0)
      as (_ & H & _).
    destruct (H "refresh-secret:u-ana:17") as (_ & Hinvalid & _);
      [reflexivity | discriminate |].
    apply (Hinvalid JsonWebTokenError); [reflexivity | discriminate].
  - destruct (authenticateToken_outcomes ACCESS sample_verify 5
                (request (bearer "access-secret:u-joao:17")) admin0)
      as (_ & H & _).
    destruct (H "access-secret:u-joao:17") as (_ & _ & Hinactive);
      [reflexivity | discriminate |].
    apply (Hinactive (VObj [("userId", VStr "u-joao")]) (VStr "u-joao"));
      [reflexivity | reflexivity |].
    intros row [<-|[<-|[<-|[]]]]; cbn; intros H0; (discriminate || reflexivity).
  - apply (authenticateToken_outcomes ACCESS sample_verify 5
             (request (bearer "access-secret:u-ana:17")) admin0).
    reflexivity.
Defined.

Lemma login_error_is_uniform_witness :
  sample_login env1 "ninguem@escritorio.com" "123456" admin0
  = (Throw (Error "Email ou senha incorretos"), admin0)
  /\ sample_login env1 "ana@escritorio.com" "senha-errada" admin0
     = (Throw (Error "Email ou senha incorretos"), admin0).
Proof.
  split.
  - apply (login_error_is_uniform ACCESS REFRESH sample_sign sample_hash
             sample_compare env1 "ninguem@escritorio.com" "123456" admin0).
    intros row [<-|[<-|[<-|[]]]]; cbn; intros H; discriminate.
  - apply (login_error_is_uniform ACCESS REFRESH sample_sign sample_hash
             sample_compare env1 "ana@escritorio.com" "senha-errada" admin0)
      with (row := ana); reflexivity.
Defined.

Lemma refresh_rotates_matched_row_witness :
  exists (tokens : Tokens) (db' : AdminDb),
    sample_refresh env3 ana_token after_login = (Ok tokens, db')
    /\ In (deactivate (mkRefreshToken "rt-1" "u-ana" (sample_hash ana_token 10 "s9")
                          1700604800123 true))
          (refresh_tokens db')
    /\ sample_refresh env4 ana_token db'
       = (Throw (Error "Refresh token inválido"), db').
Proof.
  destruct (sample_refresh env3 ana_token after_login) as [[tokens|e] db'] eqn:E;
    [|vm_compute in E; discriminate].
  exists tokens, db'. split; [reflexivity|].
  destruct (refresh_rotates_matched_row ACCESS REFRESH sample_verify sample_sign
              sample_hash sample_compare env3 ana_token after_login db' tokens E)
    as (vt & user & Hin & Hact & Hcmp & Hgen & Hde & Hnext).
  destruct Hin as [<-|[]].
  split; [exact Hde|].
  apply Hnext.
  - intros t [<-|[]] Hid. now contradiction Hid.
  - vm_compute in E. injection E as <- _. reflexivity.
Defined.

(** C8 at a failing input.  A refresh token is to be refused once it was
    used ("Invalidar o refresh token usado (rotação)").  Two logins of a
    user within the same second sign the same refresh token and store it
    in two rows; the first [refreshAccessToken] deactivates the row it
    matched, the second call with the same token finds the other row and
    is accepted instead of throwing "Refresh token inválido". *)
Theorem refresh_token_accepted_twice :
  fst (sample_login env1 "ana@escritorio.com" "123456" admin0)
  = Ok (mkTokens "access-secret:u-ana:1700000000" ana_token)
  /\ fst (sample_login env2 "ana@escritorio.com" "123456" after_login)
     = Ok (mkTokens "access-secret:u-ana:1700000000" ana_token)
  /\ exists (t3 t4 : Tokens) (d3 d4 : AdminDb),
       sample_refresh env3 ana_token after_two_logins = (Ok t3, d3)
       /\ sample_refresh env4 ana_token d3 = (Ok t4, d4)
       /\ fst (sample_refresh env4 ana_token d3)
          <> Throw (Error "Refresh token inválido").
Proof.
  split; [reflexivity|]. split; [reflexivity|].
  eexists _, _, _, _. split; [vm_compute; reflexivity|].
  split; [vm_compute; reflexivity|].
  vm_compute. discriminate.
Qed.

(** The same happens when the refresh falls within the second of the
    login: the token signed for the rotation is the presented one. *)
Remark refresh_within_the_second_reissues_the_token :
  exists (t3 t4 : Tokens) (d3 d4 : AdminDb),
    sample_refresh (mkEnv 1700000000789 "s11" "rt-3") ana_token after_login
    = (Ok t3, d3)
    /\ refreshToken t3 = ana_token
    /\ sample_refresh env4 ana_token d3 = (Ok t4, d4).
Proof.
  eexists _, _, _, _. split; [vm_compute; reflexivity|].
  split; [reflexivity | vm_compute; reflexivity].
Qed.

(** And with a hash that reads only the first 72 bytes of the token, the
    hash stored for the new token matches the old one: one login, one
    refresh, and the used token is accepted again. *)
Remark truncating_hash_defeats_rotation :
  exists (t1 t3 t4 : Tokens) (d3 d4 : AdminDb),
    fst (long_login env1 "maria@escritorio.com" "123456" (mkAdminDb [maria] []))
    = Ok t1
    /\ refreshToken t1 = maria_token
    /\ long_refresh env3 maria_token after_maria_login = (Ok t3, d3)
    /\ refreshToken t3 <> maria_token
    /\ long_refresh env4 maria_token d3 = (Ok t4, d4).
Proof.
  eexists _, _, _, _, _. split; [vm_compute; reflexivity|].
  split; [reflexivity|]. split; [vm_compute; reflexivity|].
  split; [vm_compute; discriminate | vm_compute; reflexivity].
Qed.

End AuthFacts.

(* ================================================================== *)
(** * Facts about the tenant schema *)
(* ================================================================== *)

Module TenantFacts.
Import Js JsString JsStringFacts Tenant Http Auth Schema Service ServiceFacts.

Lemma schema_of_eq (tenantId : string) :
  schema_of tenantId = "tenant_" ++ remove_char "-" tenantId.
Proof. unfold schema_of. now rewrite replace_all_remove. Qed.

Lemma hex_digit_not_hyphen (c : ascii) :
  is_hex_digit c = true -> (c =? "-")%char = false.
Proof.
  intros H. destruct (c =? "-")%char eqn:E; [|reflexivity].
  apply Ascii.eqb_eq in E. subst c. vm_compute in H. discriminate.
Qed.

Lemma hex_digit_not_dollar (c : ascii) :
  is_hex_digit c = true -> (c =? "$")%char = false.
Proof.
  intros H. destruct (c =? "$")%char eqn:E; [|reflexivity].
  apply Ascii.eqb_eq in E. subst c. vm_compute in H. discriminate.
Qed.

(** Two strings of the same shape with the same digits are equal: the
    hyphens stand at fixed places. *)
Lemma has_shape_remove_inj (shape : list bool) (s1 s2 : string) :
  has_shape shape s1 = true -> has_shape shape s2 = true ->
  remove_char "-" s1 = remove_char "-" s2 -> s1 = s2.
Proof.
  revert s1 s2.
  induction shape as [|[|] shape IH]; intros [|c1 s1] [|c2 s2] H1 H2 Hr;
    simpl in H1, H2; try discriminate; try reflexivity.
  - apply andb_prop in H1 as [Hc1 H1]. apply andb_prop in H2 as [Hc2 H2].
    apply Ascii.eqb_eq in Hc1, Hc2. subst c1 c2.
    simpl in Hr. f_equal. now apply IH.
  - apply andb_prop in H1 as [Hc1 H1]. apply andb_prop in H2 as [Hc2 H2].
    simpl in Hr.
    rewrite (hex_digit_not_hyphen _ Hc1), (hex_digit_not_hyphen _ Hc2) in Hr.
    injection Hr as -> Hr. f_equal. now apply IH.
Qed.

Lemma has_shape_dollar_free (shape : list bool) (s : string) :
  has_shape shape s = true -> dollar_free s = true.
Proof.
  revert s. induction shape as [|[|] shape IH]; intros [|c s] H;
    simpl in H; try discriminate; try reflexivity.
  - apply andb_prop in H as [Hc H]. apply Ascii.eqb_eq in Hc. subst c.
    simpl. now apply IH.
  - apply andb_prop in H as [Hc H]. simpl.
    rewrite (hex_digit_not_dollar _ Hc). simpl. now apply IH.
Qed.

Lemma uuid_dollar_free (t : string) : is_uuid t = true -> dollar_free t = true.
Proof. apply has_shape_dollar_free. Qed.

(** Distinct UUIDs name distinct schemas. *)
Lemma schema_of_inj (t1 t2 : string) :
  is_uuid t1 = true -> is_uuid t2 = true ->
  schema_of t1 = schema_of t2 -> t1 = t2.
Proof.
  intros H1 H2. rewrite !schema_of_eq. intros H.
  apply (has_shape_remove_inj uuid_shape); try assumption.
  apply (append_inv_same_length "tenant_" "tenant_") in H; [|reflexivity].
  tauto.
Qed.

Lemma schema_dollar_free (t : string) :
  dollar_free t = true -> dollar_free (schema_of t) = true.
Proof.
  intros H. rewrite schema_of_eq.
  apply (dollar_free_append "tenant_"); [reflexivity|].
  now apply dollar_free_remove.
Qed.

(** No beginning of the placeholder is continued by a text that starts
    with the letter of ["tenant_"]. *)
Lemma placeholder_not_continued (x p2 rest : string) :
  placeholder = x ++ p2 -> x <> "" -> p2 <> "" ->
  starts_with p2 (String "t" rest) = false.
Proof.
  unfold placeholder. intros H Hx Hp.
  destruct x as [|c0 x]; [contradiction|].
  simpl in H. injection H as _ H.
  do 9 (destruct x as [|? x];
        [ simpl in H; subst p2; try reflexivity; contradiction
        | simpl in H; try discriminate; injection H as _ H ]).
Qed.

(** Segments without the placeholder, joined by a schema name, hold no
    placeholder. *)
Lemma no_placeholder_across (g rest : string) :
  occurs placeholder g = false ->
  occurs placeholder (String "t" rest) = false ->
  occurs placeholder (g ++ String "t" rest) = false.
Proof.
  intros Hg Hb. induction g as [|c g IH]; [exact Hb|].
  cbn [occurs] in Hg. apply orb_false_elim in Hg as [Hc Hg].
  change (String c g ++ String "t" rest)
    with (String c (g ++ String "t" rest)).
  cbn [occurs]. rewrite (IH Hg), orb_false_r.
  destruct (starts_with placeholder (String c (g ++ String "t" rest))) eqn:E;
    [|reflexivity].
  apply (starts_with_append_inv placeholder (String c g)) in E.
  destruct E as [E | (p2 & Hp & Hne & Hp2)]; [congruence|].
  rewrite (placeholder_not_continued (String c g) p2 rest Hp) in Hp2;
    [discriminate | discriminate | assumption].
Qed.

Lemma join_schema_no_placeholder (tail : string) (segs : list string) :
  dollar_free tail = true ->
  Forall (fun g => occurs placeholder g = false) segs ->
  occurs placeholder (join ("tenant_" ++ tail) segs) = false.
Proof.
  intros Ht. induction 1 as [|g gs Hg Hgs IH]; [reflexivity|].
  destruct gs as [|h gs]; [exact Hg|].
  rewrite join_cons by discriminate.
  change ("tenant_" ++ tail) with (String "t" ("enant_" ++ tail)) at 1.
  change ((String "t" ("enant_" ++ tail)) ++ join ("tenant_" ++ tail) (h :: gs))
    with (String "t" (("enant_" ++ tail) ++ join ("tenant_" ++ tail) (h :: gs))).
  apply no_placeholder_across; [exact Hg|].
  change (String "t" (("enant_" ++ tail) ++ join ("tenant_" ++ tail) (h :: gs)))
    with (("tenant_" ++ tail) ++ join ("tenant_" ++ tail) (h :: gs)).
  unfold placeholder in *.
  rewrite occurs_dollar_free_prefix; [exact IH|].
  apply (dollar_free_append "tenant_"); [reflexivity | assumption].
Qed.

(** The text sent for [sql] under a schema name: the placeholder-free
    segments of [sql], separated by the schema name. *)
Lemma tenant_sql_segments (sql : string) :
  exists segs : list string,
    sql = join placeholder segs
    /\ Forall (fun g => occurs placeholder g = false) segs
    /\ forall schema : string,
         dollar_free schema = true -> tenant_sql schema sql = join schema segs.
Proof. apply (replace_all_segments "$" "{schema}"). Qed.

(** C3, as the code has it.  For every SQL text and every tenant id
    without a dollar sign (every UUID is one), both [query] methods send
    to the [exec_sql] RPC the text in which every occurrence of
    [${schema}] is rewritten to ["tenant_"] followed by the tenant id
    with its hyphens removed, the rest of the text unchanged; no
    placeholder is left in the text sent. *)
Theorem schema_substitution (sql : string) :
  exists segs : list string,
    sql = join placeholder segs
    /\ Forall (fun g => occurs placeholder g = false) segs
    /\ forall tenantId : string,
         dollar_free tenantId = true ->
         occurs placeholder
           (join ("tenant_" ++ remove_char "-" tenantId) segs) = false
         /\ (forall (P : Type) (params : list P),
            connection_request (getTenantConnection tenantId) sql params
            = mkRpc "exec_sql"
                (join ("tenant_" ++ remove_char "-" tenantId) segs) params)
         /\ (forall (Rest R : Type) (u : AuthenticatedUser) (s : Stmt Rest R)
                    (w : World Rest),
               usr_tenantId u = tenantId -> Service.sql s = sql ->
               rpc_log (snd (query (new_service u) s w))
               = (rpc_log w
                  ++ [mkRpc "exec_sql"
                        (join ("tenant_" ++ remove_char "-" tenantId) segs)
                        (params s)])%list).
Proof.
  destruct (tenant_sql_segments sql) as (segs & Hj & Hf & Ht).
  exists segs. split; [assumption|]. split; [assumption|].
  intros tenantId H. split.
  - apply join_schema_no_placeholder; [|assumption].
    now apply dollar_free_remove.
  - rewrite <- schema_of_eq, <- (Ht _ (schema_dollar_free _ H)). split.
    + reflexivity.
    + intros Rest R u s w <- <-. now rewrite query_log.
Qed.

Import Samples.

Lemma schema_substitution_witness :
  exists segs : list string,
    "SELECT * FROM ${schema}.clients" = join placeholder segs
    /\ connection_request (getTenantConnection tenant_a)
         "SELECT * FROM ${schema}.clients" (@nil Value)
       = mkRpc "exec_sql"
           (join "tenant_123e4567e89b12d3a456426614174000" segs) []
    /\ occurs placeholder
         (join "tenant_123e4567e89b12d3a456426614174000" segs) = false.
Proof.
  destruct (schema_substitution "SELECT * FROM ${schema}.clients")
    as (segs & Hj & _ & H).
  exists segs. split; [exact Hj|].
  destruct (H tenant_a) as (Hn & Hc & _); [reflexivity|].
  split; [apply Hc | exact Hn].
Defined.

(** The claim as stated fails: the schema name is not ["tenant_"]
    followed by the tenant's UUID, the hyphens of the UUID are dropped. *)
Lemma schema_name_drops_hyphens :
  rpc_query (connection_request (getTenantConnection tenant_a)
               "SELECT * FROM ${schema}.clients" (@nil Value))
  <> join ("tenant_" ++ tenant_a) ["SELECT * FROM "; ".clients"].
Proof. vm_compute. discriminate. Qed.

(** Why the tenant id must be free of dollar signs: the schema name is
    the replacement string of [String.prototype.replace], where [$&]
    stands for the matched text. *)
Remark dollar_in_tenant_id_is_a_pattern :
  rpc_query (connection_request (getTenantConnection "$&")
               "SELECT * FROM ${schema}.clients" (@nil Value))
  = "SELECT * FROM tenant_${schema}.clients".
Proof. reflexivity. Qed.

(** Why the tenant ids must be UUIDs: dropping the hyphens identifies
    other strings. *)
Remark hyphens_identify_other_ids : schema_of "a-b" = schema_of "ab".
Proof. reflexivity. Qed.

(** C2.  For two authenticated requests whose users belong to tenants
    with different ids (values of the UUID column [admin.users.tenant_id]),
    the schema name each request works with is derived from the tenant id
    of the user's row alone, every query of a service built for the user
    is sent with each [${schema}] replaced by that name, and the two names
    differ. *)
Theorem tenant_schemas_are_disjoint
  (secret : string) (jwt_verify : string -> string -> Z -> Result Value)
  (nowA nowB : Z) (adminA adminB : AdminDb) (reqA reqB reqA' reqB' : Request)
  (uA uB : AuthenticatedUser) :
  authenticateToken secret jwt_verify nowA reqA adminA = Next reqA' ->
  authenticateToken secret jwt_verify nowB reqB adminB = Next reqB' ->
  req_user reqA' = Some uA ->
  req_user reqB' = Some uB ->
  is_uuid (usr_tenantId uA) = true ->
  is_uuid (usr_tenantId uB) = true ->
  usr_tenantId uA <> usr_tenantId uB ->
  (exists row, In row (users adminA) /\ u_id row = usr_id uA
               /\ u_tenant_id row = Some (usr_tenantId uA))
  /\ (exists row, In row (users adminB) /\ u_id row = usr_id uB
                  /\ u_tenant_id row = Some (usr_tenantId uB))
  /\ req_tenantSchema reqA' = Some (schema_of (usr_tenantId uA))
  /\ req_tenantSchema reqB' = Some (schema_of (usr_tenantId uB))
  /\ tenantSchema (new_service uA) = schema_of (usr_tenantId uA)
  /\ tenantSchema (new_service uB) = schema_of (usr_tenantId uB)
  /\ conn_schema (getTenantConnection (usr_tenantId uA))
     = schema_of (usr_tenantId uA)
  /\ (forall (Rest R : Type) (s : Stmt Rest R) (w : World Rest),
        exists segs : list string,
          Service.sql s = join placeholder segs
          /\ Forall (fun g => occurs placeholder g = false) segs
          /\ rpc_log (snd (query (new_service uA) s w))
             = (rpc_log w
                ++ [mkRpc "exec_sql" (join (schema_of (usr_tenantId uA)) segs)
                          (params s)])%list
          /\ rpc_log (snd (query (new_service uB) s w))
             = (rpc_log w
                ++ [mkRpc "exec_sql" (join (schema_of (usr_tenantId uB)) segs)
                          (params s)])%list
          /\ connection_request (getTenantConnection (usr_tenantId uA))
               (Service.sql s) (params s)
             = mkRpc "exec_sql" (join (schema_of (usr_tenantId uA)) segs)
                     (params s)
          /\ connection_request (getTenantConnection (usr_tenantId uB))
               (Service.sql s) (params s)
             = mkRpc "exec_sql" (join (schema_of (usr_tenantId uB)) segs)
                     (params s))
  /\ schema_of (usr_tenantId uA) <> schema_of (usr_tenantId uB).
Proof.
  intros HA HB HuA HuB HidA HidB Hne.
  apply AuthFacts.authenticateToken_next in HA, HB.
  destruct HA as (tokA & decA & uidA & rowA & tA & _ & _ & _ & _ & HinA & _ & _
                  & HtA & HusrA & _ & HschA).
  destruct HB as (tokB & decB & uidB & rowB & tB & _ & _ & _ & _ & HinB & _ & _
                  & HtB & HusrB & _ & HschB).
  rewrite HuA in HusrA. injection HusrA as ->.
  rewrite HuB in HusrB. injection HusrB as ->.
  cbn [usr_tenantId usr_id] in *.
  split; [exists rowA; auto|]. split; [exists rowB; auto|].
  split; [assumption|]. split; [assumption|].
  split; [reflexivity|]. split; [reflexivity|]. split; [reflexivity|].
  split.
  - intros Rest R s w.
    destruct (tenant_sql_segments (Service.sql s)) as (segs & Hj & Hf & Ht).
    exists segs. split; [assumption|]. split; [assumption|].
    rewrite !query_log. unfold request_of, connection_request.
    cbn [new_service tenantSchema usr_tenantId getTenantConnection conn_schema].
    rewrite !Ht by (apply schema_dollar_free; now apply uuid_dollar_free).
    repeat split; reflexivity.
  - intros H. apply Hne. now apply schema_of_inj.
Qed.

Lemma tenant_schemas_are_disjoint_witness :
  schema_of tenant_a <> schema_of tenant_b.
Proof.
  apply (tenant_schemas_are_disjoint ACCESS sample_verify 5 6 admin0
           (mkAdminDb [joao_active] [])
           (request (bearer "access-secret:u-ana:17"))
           (request (bearer "access-secret:u-joao:17"))
           (set_auth (request (bearer "access-secret:u-ana:17"))
              (mkUser "u-ana" tenant_a "ana@escritorio.com" "Ana Santos"
                      (Some "simples")) tenant_a (schema_of tenant_a))
           (set_auth (request (bearer "access-secret:u-joao:17"))
              (mkUser "u-joao" tenant_b "joao@outro.com" "Joao"
                      (Some "gerencial")) tenant_b (schema_of tenant_b))
           (mkUser "u-ana" tenant_a "ana@escritorio.com" "Ana Santos"
                   (Some "simples"))
           (mkUser "u-joao" tenant_b "joao@outro.com" "Joao"
                   (Some "gerencial")));
    try reflexivity.
  cbn. discriminate.
Defined.

End TenantFacts.

(* ================================================================== *)
(** * Facts about the cash-flow service and router *)
(* ================================================================== *)

Module CashFlowFacts.
Import Js JsString Tenant Http Schema Service ServiceFacts CashFlow.

Lemma requirePermission_simples (self : BaseService) (permission : string) :
  usr_accountType (user self) = Some "simples" ->
  requirePermission self permission "cash_flow"
  = Throw (Error "Conta Simples não tem acesso a dados financeiros").
Proof. intros H. unfold requirePermission. rewrite H. reflexivity. Qed.

Section WithEngine.

Variable Rest : Type.
Variable engine : string -> list Value -> Rest -> list Value * Rest.
Variable JSON_stringify : Value -> Value.
Variable js_sub : Value -> Value -> Value.
Variable render_csv : list Value -> Result string.
Variable today : string.

Local Abbreviation getAll := (getAll engine).
Local Abbreviation getById := (getById engine).
Local Abbreviation create := (create engine JSON_stringify).
Local Abbreviation update := (update engine JSON_stringify).
Local Abbreviation delete := (delete engine JSON_stringify).
Local Abbreviation getFinancialStats := (getFinancialStats engine js_sub).
Local Abbreviation exportCSV := (exportCSV engine render_csv).
Local Abbreviation handler :=
  (handler engine JSON_stringify js_sub render_csv today).
Local Abbreviation handler_try :=
  (handler_try engine JSON_stringify js_sub render_csv today).
Local Abbreviation invoke :=
  (invoke Rest engine JSON_stringify js_sub render_csv today).

(** C5.  For a user whose account type is "simples", every operation of
    [CashFlowService] throws "Conta Simples não tem acesso a dados
    financeiros" from [requirePermission]: no RPC was sent and the
    tenant's tables are unchanged. *)
Theorem simples_is_denied_cash_flow (self : BaseService) (w : World Rest)
  (filters transactionData : Value) (id : string) :
  usr_accountType (user self) = Some "simples" ->
  getAll self filters w
  = (Throw (Error "Conta Simples não tem acesso a dados financeiros"),
     entered "CashFlowService.getAll" w)
  /\ getById self id w
     = (Throw (Error "Conta Simples não tem acesso a dados financeiros"),
        entered "CashFlowService.getById" w)
  /\ create self transactionData w
     = (Throw (Error "Conta Simples não tem acesso a dados financeiros"),
        entered "CashFlowService.create" w)
  /\ update self id transactionData w
     = (Throw (Error "Conta Simples não tem acesso a dados financeiros"),
        entered "CashFlowService.update" w)
  /\ delete self id w
     = (Throw (Error "Conta Simples não tem acesso a dados financeiros"),
        entered "CashFlowService.delete" w)
  /\ getFinancialStats self w
     = (Throw (Error "Conta Simples não tem acesso a dados financeiros"),
        entered "CashFlowService.getFinancialStats" w)
  /\ exportCSV self filters w
     = (Throw (Error "Conta Simples não tem acesso a dados financeiros"),
        entered "CashFlowService.exportCSV" w).
Proof.
  intros H.
  repeat split;
    unfold CashFlow.getAll, CashFlow.getById, CashFlow.create, CashFlow.update,
      CashFlow.delete, CashFlow.getFinancialStats, CashFlow.exportCSV,
      bind, lift;
    rewrite enter_eq, (requirePermission_simples _ _ H); reflexivity.
Qed.

(** C7, as the code has it.  No exception leaves a handler of the
    cash-flow router: when the service call throws, the handler answers
    with a JSON error body, under status 500 for GET /, GET /stats and
    GET /export, 404 for GET /:id and 400 for POST /, PUT /:id and
    DELETE /:id. *)
Theorem handler_answers_every_failure (e : Endpoint) (req : Request)
  (w : World Rest) :
  (exists (resp : Response) (w' : World Rest),
     handler e req w = (Ok resp, w'))
  /\ (forall (ex : Exn) (w1 : World Rest),
        handler_try e req w = (Throw ex, w1) ->
        handler e req w = (Ok (handler_catch e), w1))
  /\ (forall (u : AuthenticatedUser) (ex : Exn) (w1 : World Rest),
        req_user req = Some u ->
        invoke e (new_service u) req w = (Throw ex, w1) ->
        handler e req w = (Ok (handler_catch e), w1))
  /\ res_status (handler_catch e) = catch_status e
  /\ (exists msg : string, res_body (handler_catch e) = BJson (error_body msg)).
Proof.
  split; [|split; [|split; [|split]]].
  - unfold CashFlow.handler, try_catch.
    destruct (handler_try e req w) as [[resp|ex] w1]; unfold ret; eauto.
  - intros ex w1 H. unfold CashFlow.handler, try_catch. now rewrite H.
  - intros u ex w1 Hu H. unfold CashFlow.handler, try_catch,
      CashFlow.handler_try, service_of, bind.
    rewrite Hu. cbn [ret]. now rewrite H.
  - destruct e; reflexivity.
  - destruct e; eexists; reflexivity.
Qed.

(** C9.  [auditLog] and [createNotification] return normally whatever
    their INSERT does, and touch no table but their own; a faulting
    INSERT changes nothing.  So the statement that follows them in an
    operation always runs, and once the main statement of [create],
    [update] or [delete] has been applied, no failure of the two writes
    makes the operation fail or touches the other tables: [update] and
    [delete] return the result of the main statement, and what [create]
    returns after its INSERT is decided by the string conversion of
    [description] in the message of the notification alone, the
    inserted row whenever that conversion succeeds. *)
Theorem audit_and_notification_never_fail (self : BaseService) :
  (forall (tableName operation : string) (recordId oldData newData : Value)
          (w : World Rest),
     exists w' : World Rest,
       auditLog JSON_stringify self tableName operation recordId oldData
                newData w = (Ok tt, w')
       /\ rest (db w') = rest (db w)
       /\ publications (db w') = publications (db w)
       /\ notifications (db w') = notifications (db w)
       /\ (next_fault w = true -> db w' = db w))
  /\ (forall (type title message category : string)
             (entityType entityId actionData userId : Value) (w : World Rest),
        exists w' : World Rest,
          createNotification JSON_stringify self type title message category
                             entityType entityId actionData userId w
          = (Ok tt, w')
          /\ rest (db w') = rest (db w)
          /\ publications (db w') = publications (db w)
          /\ audit_log (db w') = audit_log (db w)
          /\ (next_fault w = true -> db w' = db w))
  /\ (forall (A : Type) (next : M (World Rest) A)
             (tableName operation : string) (recordId oldData newData : Value)
             (w : World Rest),
        exists w' : World Rest,
          bind (auditLog JSON_stringify self tableName operation recordId
                         oldData newData) (fun _ => next) w
          = next w'
          /\ rest (db w') = rest (db w)
          /\ publications (db w') = publications (db w))
  /\ (forall (A : Type) (next : M (World Rest) A)
             (type title message category : string)
             (entityType entityId actionData userId : Value) (w : World Rest),
        exists w' : World Rest,
          bind (createNotification JSON_stringify self type title message
                  category entityType entityId actionData userId)
               (fun _ => next) w
          = next w'
          /\ rest (db w') = rest (db w)
          /\ publications (db w') = publications (db w))
  /\ (forall (type description transaction id : Value) (w : World Rest),
        get_prop transaction "id" = Ok id ->
        exists w' : World Rest,
          create_finish Rest JSON_stringify self type description transaction w
          = (match to_js_string description with
             | Ok _ => Ok transaction
             | Throw e => Throw e
             end, w')
          /\ rest (db w') = rest (db w))
  /\ (forall (id : string) (transactionData oldTransaction : Value)
             (f : string -> Value) (categoryName : Value)
             (results : list Value) (w w1 w2 : World Rest),
        requirePermission self "write" "cash_flow" = Ok true ->
        getById self id (entered "CashFlowService.update" w)
        = (Ok oldTransaction, w1) ->
        destructure transactionData = Ok f ->
        getCategoryName (js_or (f "category_id") (VStr "")) = Ok categoryName ->
        query self (pg Rest engine update_sql
                       (update_params JSON_stringify f categoryName id)) w1
        = (Ok results, w2) ->
        exists w3 : World Rest,
          update self id transactionData w = (Ok (first results), w3)
          /\ rest (db w3) = rest (db w2))
  /\ (forall (id : string) (transaction : Value) (results : list Value)
             (w w1 w2 : World Rest),
        requirePermission self "write" "cash_flow" = Ok true ->
        getById self id (entered "CashFlowService.delete" w)
        = (Ok transaction, w1) ->
        query self (pg Rest engine delete_sql [VStr id]) w1 = (Ok results, w2) ->
        exists w3 : World Rest,
          delete self id w = (Ok tt, w3)
          /\ rest (db w3) = rest (db w2)).
Proof.
  assert (Haudit :
    forall tableName operation recordId oldData newData (w : World Rest),
     exists w' : World Rest,
       auditLog JSON_stringify self tableName operation recordId oldData
                newData w = (Ok tt, w')
       /\ rest (db w') = rest (db w)
       /\ publications (db w') = publications (db w)
       /\ notifications (db w') = notifications (db w)
       /\ (next_fault w = true -> db w' = db w)).
  { intros. rewrite auditLog_eq. eexists. split; [reflexivity|].
    unfold after_query. cbn [db].
    destruct (next_fault w); cbn; repeat split; congruence. }
  assert (Hnotif :
    forall type title message category entityType entityId actionData userId
           (w : World Rest),
        exists w' : World Rest,
          createNotification JSON_stringify self type title message category
                             entityType entityId actionData userId w
          = (Ok tt, w')
          /\ rest (db w') = rest (db w)
          /\ publications (db w') = publications (db w)
          /\ audit_log (db w') = audit_log (db w)
          /\ (next_fault w = true -> db w' = db w)).
  { intros. rewrite createNotification_eq. eexists. split; [reflexivity|].
    unfold after_query. cbn [db].
    destruct (next_fault w); cbn; repeat split; congruence. }
  split; [exact Haudit|]. split; [exact Hnotif|].
  split; [|split; [|split; [|split]]].
  - intros A next tableName operation recordId oldData newData w.
    destruct (Haudit tableName operation recordId oldData newData w)
      as (w' & He & Hr & Hp & _).
    exists w'. unfold bind. rewrite He. auto.
  - intros A next type title message category entityType entityId actionData
           userId w.
    destruct (Hnotif type title message category entityType entityId
                     actionData userId w) as (w' & He & Hr & Hp & _).
    exists w'. unfold bind. rewrite He. auto.
  - intros type description transaction id w Hid.
    unfold create_finish, bind, lift. rewrite Hid.
    destruct (Haudit "cash_flow" "CREATE" id VNull transaction w)
      as (w1 & -> & Hr1 & _).
    destruct (to_js_string description) as [text|e].
    + match goal with
      | |- context [createNotification _ _ ?a ?b ?c ?d ?e ?f ?g ?h w1] =>
          destruct (Hnotif a b c d e f g h w1) as (w2 & -> & Hr2 & _)
      end.
      exists w2. split; [reflexivity | congruence].
    + exists w1. split; [reflexivity | assumption].
  - intros id transactionData oldTransaction f categoryName results w w1 w2
           Hp Hget Hf Hc Hq.
    unfold CashFlow.update, bind, lift.
    rewrite enter_eq, Hp, Hget, Hf, Hc, Hq.
    destruct (Haudit "cash_flow" "UPDATE" (VStr id) oldTransaction
                     (first results) w2) as (w3 & -> & Hr & _).
    exists w3. split; [reflexivity | assumption].
  - intros id transaction results w w1 w2 Hp Hget Hq.
    unfold CashFlow.delete, bind, lift. rewrite enter_eq, Hp, Hget, Hq.
    destruct (Haudit "cash_flow" "DELETE" (VStr id) transaction VNull w2)
      as (w3 & -> & Hr & _).
    exists w3. split; [reflexivity | assumption].
Qed.

Variable JWT_ACCESS_SECRET : string.
Variable jwt_verify : string -> string -> Z -> Result Value.

Local Abbreviation route :=
  (route engine JSON_stringify js_sub render_csv today JWT_ACCESS_SECRET
         jwt_verify).

(** [getFinancialStats] enters one service method, whatever it returns. *)
Lemma getFinancialStats_calls (self : BaseService) (w : World Rest) :
  calls (snd (getFinancialStats self w))
  = (calls w ++ ["CashFlowService.getFinancialStats"])%list.
Proof.
  unfold CashFlow.getFinancialStats, bind, lift. rewrite enter_eq.
  destruct (requirePermission self "read" "cash_flow"); [|reflexivity].
  destruct (match usr_accountType (user self) with
            | Some a => (a =? "simples")
            | None => false
            end); [reflexivity|].
  match goal with
  | |- context [all [query self ?a; query self ?b; query self ?c]] =>
      change (all [query self a; query self b; query self c])
        with (all (map (query self) [a; b; c]));
      pose proof (all_queries_calls Rest self [a; b; c]
                    (entered "CashFlowService.getFinancialStats" w)) as Hc
  end.
  destruct (all _ (entered "CashFlowService.getFinancialStats" w))
    as [[rs|e] w1]; exact Hc.
Qed.

(** C4, as the code has it.  On GET /, GET /export, GET /:id, POST /,
    PUT /:id and DELETE /:id, a request of an authenticated user whose
    account type is neither "composta" nor "gerencial" is answered 403
    "Acesso negado", no service method is entered and no RPC is sent.
    GET /stats is registered without the account-type middleware: the
    request goes to the handler, which calls [getFinancialStats]. *)
Theorem gated_routes_answer_403 (e : Endpoint) (now : Z) (admin : Auth.AdminDb)
  (req req1 : Request) (u : AuthenticatedUser) (w : World Rest) :
  Auth.authenticateToken JWT_ACCESS_SECRET jwt_verify now req admin = Next req1 ->
  req_user req1 = Some u ->
  usr_accountType u <> Some "composta" ->
  usr_accountType u <> Some "gerencial" ->
  (e <> GET_stats ->
   route e now admin req w
   = (Ok (json 403
            (VObj [ ("error", VStr "Acesso negado");
                    ("required", VArr [VStr "composta"; VStr "gerencial"]);
                    ("current", Auth.opt_str (usr_accountType u));
                    ("message",
                     VStr "Apenas contas composta, gerencial têm acesso a esta funcionalidade") ])),
      w))
  /\ (e = GET_stats ->
      route e now admin req w = handler e req1 w
      /\ calls (snd (route e now admin req w))
         = (calls w ++ ["CashFlowService.getFinancialStats"])%list).
Proof.
  intros Hauth Hu Hc Hg. unfold CashFlow.route. rewrite Hauth. split.
  - intros He.
    assert (Hgate : account_gate e = Some ["composta"; "gerencial"])
      by (destruct e; try reflexivity; contradiction).
    rewrite Hgate. unfold Auth.requireAccountType. rewrite Hu.
    destruct (usr_accountType u) as [t|]; [|reflexivity].
    assert (Ht : includes ["composta"; "gerencial"] t = false).
    { unfold includes. cbn [existsb].
      assert ((t =? "composta") = false) as ->
        by (apply String.eqb_neq; congruence).
      assert ((t =? "gerencial") = false) as ->
        by (apply String.eqb_neq; congruence).
      reflexivity. }
    rewrite Ht. reflexivity.
  - intros ->. cbn [account_gate]. split; [reflexivity|].
    unfold CashFlow.handler, try_catch, CashFlow.handler_try, service_of, bind.
    rewrite Hu. cbn [ret invoke]. unfold bind, ret.
    pose proof (getFinancialStats_calls (new_service u) w) as Hcalls.
    destruct (getFinancialStats (new_service u) w) as [[stats|ex] w1];
      exact Hcalls.
Qed.

End WithEngine.

Import Samples.

Lemma gated_routes_answer_403_witness :
  fst (sample_route GET_root 5 admin0
         (request (bearer "access-secret:u-ana:17")) world0)
  = Ok (json 403
          (VObj [ ("error", VStr "Acesso negado");
                  ("required", VArr [VStr "composta"; VStr "gerencial"]);
                  ("current", VStr "simples");
                  ("message",
                   VStr "Apenas contas composta, gerencial têm acesso a esta funcionalidade") ])).
Proof.
  destruct (gated_routes_answer_403 (list Value) sample_engine sample_stringify
              sample_sub sample_csv "2025-01-31" ACCESS sample_verify
              GET_root 5 admin0 (request (bearer "access-secret:u-ana:17"))
              (set_auth (request (bearer "access-secret:u-ana:17")) ana_user
                        tenant_a (schema_of tenant_a))
              ana_user world0) as [H _];
    [reflexivity | reflexivity | discriminate | discriminate |].
  unfold sample_route. rewrite H by discriminate. reflexivity.
Defined.

(** The claim as stated fails on GET /stats: the request of a "simples"
    user reaches [getFinancialStats] and is answered 500. *)
Lemma stats_route_has_no_account_gate :
  usr_accountType ana_user = Some "simples"
  /\ sample_route GET_stats 5 admin0
       (request (bearer "access-secret:u-ana:17")) world0
     = (Ok (json 500 (error_body "Erro ao buscar estatísticas financeiras")),
        entered "CashFlowService.getFinancialStats" world0)
  /\ res_status (json 500 (error_body "Erro ao buscar estatísticas financeiras"))
     <> 403%Z
  /\ calls (entered "CashFlowService.getFinancialStats" world0) <> calls world0.
Proof.
  split; [reflexivity|]. split; [vm_compute; reflexivity|].
  split; [discriminate|]. cbn. discriminate.
Qed.

Lemma simples_is_denied_cash_flow_witness :
  CashFlow.create sample_engine sample_stringify (new_service ana_user)
                  (VObj [("description", VStr "Honorarios")]) world0
  = (Throw (Error "Conta Simples não tem acesso a dados financeiros"),
     entered "CashFlowService.create" world0).
Proof.
  apply (simples_is_denied_cash_flow (list Value) sample_engine sample_stringify
           sample_sub sample_csv (new_service ana_user) world0 (VObj [])
           (VObj [("description", VStr "Honorarios")]) "tx-1").
  reflexivity.
Defined.

Lemma handler_answers_every_failure_witness :
  exists w1 : World (list Value),
    sample_handler GET_id (set_auth (request None) costa_user tenant_a
                                    (schema_of tenant_a)) world0
    = (Ok (json 404 (error_body "Transação não encontrada")), w1).
Proof.
  eexists.
  apply (handler_answers_every_failure (list Value) sample_engine
           sample_stringify sample_sub sample_csv "2025-01-31" GET_id
           (set_auth (request None) costa_user tenant_a (schema_of tenant_a))
           world0)
    with (u := costa_user) (ex := Error "Transação não encontrada");
    [reflexivity | vm_compute; reflexivity].
Defined.

(** The claim as stated fails: the handler of GET /:id answers a throwing
    service call with status 404, not 500. *)
Lemma get_by_id_failure_is_404 :
  exists (ex : Exn) (resp : Response) (w1 : World (list Value)),
    CashFlow.invoke (list Value) sample_engine sample_stringify sample_sub
      sample_csv "2025-01-31" GET_id (new_service costa_user)
      (set_auth (request None) costa_user tenant_a (schema_of tenant_a)) world0
    = (Throw ex, w1)
    /\ sample_handler GET_id
         (set_auth (request None) costa_user tenant_a (schema_of tenant_a))
         world0
       = (Ok resp, w1)
    /\ res_status resp = 404%Z
    /\ res_status resp <> 500%Z.
Proof.
  eexists _, _, _. split; [vm_compute; reflexivity|].
  split; [vm_compute; reflexivity|]. split; [reflexivity | discriminate].
Qed.

Lemma audit_and_notification_never_fail_witness :
  exists w' : World (list Value),
    create_finish (list Value) sample_stringify (new_service costa_user)
      (VStr "income") (VStr "Honorarios")
      (VObj [("id", VStr "tx-1")]) (with_faults [true; true] world0)
    = (Ok (VObj [("id", VStr "tx-1")]), w')
    /\ rest (db w') = rest (db (with_faults [true; true] world0)).
Proof.
  destruct (audit_and_notification_never_fail (list Value) sample_engine
              sample_stringify (new_service costa_user))
    as (_ & _ & _ & _ & H & _).
  apply (H (VStr "income") (VStr "Honorarios") (VObj [("id", VStr "tx-1")])
           (VStr "tx-1")).
  reflexivity.
Defined.

End CashFlowFacts.

(* ================================================================== *)
(** * Facts about [PublicationService] *)
(* ================================================================== *)

Module PublicationsFacts.
Import Js JsString Tenant Http Schema Service ServiceFacts Publications.

Lemma requirePermission_publications (self : BaseService) (permission : string) :
  requirePermission self permission "publications" = Ok true.
Proof.
  unfold requirePermission.
  replace (includes ["cash_flow"; "financial_dashboard"] "publications")
    with false by reflexivity.
  rewrite andb_false_r. reflexivity.
Qed.

Lemma col_eq_user (uid : string) (p : Publication) :
  col_eq (pub_user_id p) (VStr uid) = owned_by uid p.
Proof. reflexivity. Qed.

Lemma owned_by_eq (uid : string) (p : Publication) :
  owned_by uid p = true <-> pub_user_id p = uid.
Proof.
  unfold owned_by. rewrite String.eqb_eq. split; congruence.
Qed.

(** ** The ordering is a rearrangement *)

Lemma insert_row_in (p x : Publication) (rows : list Publication) :
  In x (insert_row p rows) <-> x = p \/ In x rows.
Proof.
  induction rows as [|q rows IH]; simpl.
  - intuition congruence.
  - destruct (comes_before p q); simpl; rewrite ?IH; intuition congruence.
Qed.

Lemma order_by_in (x : Publication) (rows : list Publication) :
  In x (order_by rows) <-> In x rows.
Proof.
  unfold order_by. induction rows as [|p rows IH]; simpl.
  - tauto.
  - rewrite insert_row_in, IH. intuition congruence.
Qed.

(** ** Rows of the other users under the write statements *)

Lemma others_map_guarded (uid : string) (cond : Publication -> bool)
  (set : Publication -> Publication) (rows : list Publication) :
  (forall p, cond p = true -> owned_by uid p = true) ->
  (forall p, pub_user_id (set p) = pub_user_id p) ->
  others uid (map (fun p => if cond p then set p else p) rows)
  = others uid rows.
Proof.
  intros Hc Hs. unfold others.
  induction rows as [|p rows IH]; simpl; [reflexivity|].
  destruct (cond p) eqn:E.
  - assert (Ho : owned_by uid p = true) by auto.
    assert (Ho' : owned_by uid (set p) = true)
      by (unfold owned_by in *; now rewrite Hs).
    rewrite Ho, Ho'. simpl. assumption.
  - destruct (negb (owned_by uid p)); simpl; now rewrite IH.
Qed.

Lemma others_filter_guarded (uid : string) (cond : Publication -> bool)
  (rows : list Publication) :
  (forall p, cond p = true -> owned_by uid p = true) ->
  others uid (filter (fun p => negb (cond p)) rows) = others uid rows.
Proof.
  intros Hc. unfold others.
  induction rows as [|p rows IH]; simpl; [reflexivity|].
  destruct (cond p) eqn:E; simpl.
  - rewrite (Hc p E). simpl. assumption.
  - destruct (negb (owned_by uid p)); simpl; now rewrite IH.
Qed.

Lemma in_others (uid : string) (p : Publication) (rows : list Publication) :
  In p (others uid rows) <-> In p rows /\ pub_user_id p <> uid.
Proof.
  unfold others. rewrite filter_In.
  destruct (owned_by uid p) eqn:E; simpl.
  - apply owned_by_eq in E. intuition congruence.
  - split; intros [H _]; split; auto.
    intros Hu. apply owned_by_eq in Hu. congruence.
Qed.

(** A condition that implies ownership selects among the user's rows. *)
Lemma filter_guarded (uid : string) (cond : Publication -> bool)
  (rows : list Publication) :
  (forall p, cond p = true -> owned_by uid p = true) ->
  filter cond rows = filter cond (filter (owned_by uid) rows).
Proof.
  intros Hc. induction rows as [|p rows IH]; simpl; [reflexivity|].
  destruct (owned_by uid p) eqn:Ho; simpl.
  - now rewrite IH.
  - destruct (cond p) eqn:E; [|assumption].
    rewrite (Hc p E) in Ho. discriminate.
Qed.

Lemma filter_map_guarded (uid : string) (cond : Publication -> bool)
  (set : Publication -> Publication) (rows : list Publication) :
  (forall p, pub_user_id (set p) = pub_user_id p) ->
  filter (owned_by uid) (map (fun p => if cond p then set p else p) rows)
  = map (fun p => if cond p then set p else p) (filter (owned_by uid) rows).
Proof.
  intros Hs. induction rows as [|p rows IH]; simpl; [reflexivity|].
  assert (Ho : owned_by uid (if cond p then set p else p) = owned_by uid p).
  { destruct (cond p); [|reflexivity]. unfold owned_by. now rewrite Hs. }
  rewrite Ho. destruct (owned_by uid p); simpl; now rewrite IH.
Qed.

Lemma filter_filter_comm {A} (f g : A -> bool) (rows : list A) :
  filter f (filter g rows) = filter g (filter f rows).
Proof.
  induction rows as [|p rows IH]; simpl; [reflexivity|].
  destruct (f p) eqn:Ef, (g p) eqn:Eg; simpl; rewrite ?Ef, ?Eg, IH; reflexivity.
Qed.

(** With [id] a primary key, a row of another user shares its id with no
    row of the user. *)
Lemma primary_key (rows : list Publication) (a b : Publication) :
  NoDup (map pub_id rows) -> In a rows -> In b rows ->
  pub_id a = pub_id b -> a = b.
Proof.
  induction rows as [|r rows IH]; simpl; intros Hnd Ha Hb Hid; [contradiction|].
  inversion Hnd as [|? ? Hnotin Hnd']; subst.
  destruct Ha as [->|Ha], Hb as [->|Hb]; auto.
  - exfalso. apply Hnotin. rewrite Hid. now apply in_map.
  - exfalso. apply Hnotin. rewrite <- Hid. now apply in_map.
Qed.

Section WithRest.

Variable Rest : Type.
Variable JSON_stringify : Value -> Value.
Variable ilike : string -> string -> bool.
Variable round_percent : Z -> Z -> Z.

Local Abbreviation World := (World Rest).
Local Abbreviation getAll := (@getAll Rest ilike).
Local Abbreviation getById := (@getById Rest).
Local Abbreviation updateStatus := (@updateStatus Rest JSON_stringify).
Local Abbreviation assignToUser := (@assignToUser Rest JSON_stringify).
Local Abbreviation delete := (@delete Rest JSON_stringify).
Local Abbreviation getStats := (@getStats Rest round_percent).

(** ** Combinators *)

Lemma read_only_ret {A} (a : A) : read_only (@ret World A a).
Proof. intros w. reflexivity. Qed.

Lemma read_only_throw {A} (e : Exn) : read_only (@throw World A e).
Proof. intros w. reflexivity. Qed.

Lemma read_only_lift {A} (r : Result A) : read_only (@lift World A r).
Proof. intros w. reflexivity. Qed.

Lemma read_only_enter (method : string) : read_only (@enter Rest method).
Proof. intros w. reflexivity. Qed.

Lemma read_only_bind {A B} (m : M World A) (k : A -> M World B) :
  read_only m -> (forall a, read_only (k a)) -> read_only (bind m k).
Proof.
  intros Hm Hk w. unfold bind. specialize (Hm w).
  destruct (m w) as [[a|e] w1]; cbn [snd] in *.
  - rewrite (Hk a w1). assumption.
  - assumption.
Qed.

Lemma read_only_query {R} (self : BaseService) (s : Stmt Rest R) :
  (forall text d, publications (snd (denot s text d)) = publications d) ->
  read_only (query self s).
Proof.
  intros H w. rewrite query_eq. cbn [snd after_query db].
  destruct (next_fault w); [reflexivity | apply H].
Qed.

Lemma read_only_all {A} (ms : list (M World A)) :
  Forall read_only ms -> read_only (all ms).
Proof.
  induction 1 as [|m ms Hm Hms IH]; intros w; [reflexivity|].
  cbn [all]. specialize (Hm w).
  destruct (m w) as [[a|e] w1]; cbn [snd] in *.
  - specialize (IH w1). destruct (all ms w1) as [[xs|e] w2]; cbn [snd] in *;
      congruence.
  - rewrite (IH w1). assumption.
Qed.

Lemma read_only_auditLog (self : BaseService) (tableName operation : string)
  (recordId oldData newData : Value) :
  read_only (Rest := Rest)
    (auditLog JSON_stringify self tableName operation recordId oldData newData).
Proof.
  intros w. rewrite auditLog_eq. cbn [snd after_query db].
  destruct (next_fault w); reflexivity.
Qed.

Lemma read_only_createNotification (self : BaseService)
  (type title message category : string)
  (entityType entityId actionData userId : Value) :
  read_only (Rest := Rest)
    (createNotification JSON_stringify self type title message category
                        entityType entityId actionData userId).
Proof.
  intros w. rewrite createNotification_eq. cbn [snd after_query db].
  destruct (next_fault w); reflexivity.
Qed.

Lemma keeps_others_read_only {A} (uid : string) (m : M World A) :
  read_only m -> keeps_others uid m.
Proof. intros H w. now rewrite H. Qed.

Lemma keeps_others_bind {A B} (uid : string) (m : M World A)
  (k : A -> M World B) :
  keeps_others uid m -> (forall a, keeps_others uid (k a)) ->
  keeps_others uid (bind m k).
Proof.
  intros Hm Hk w. unfold bind. specialize (Hm w).
  destruct (m w) as [[a|e] w1]; cbn [snd] in *.
  - rewrite (Hk a w1). assumption.
  - assumption.
Qed.

Lemma keeps_others_query {R} (uid : string) (self : BaseService)
  (s : Stmt Rest R) :
  (forall text d, others uid (publications (snd (denot s text d)))
                  = others uid (publications d)) ->
  keeps_others uid (query self s).
Proof.
  intros H w. rewrite query_eq. cbn [snd after_query db].
  destruct (next_fault w); [reflexivity | apply H].
Qed.

Ltac read_only_steps :=
  repeat match goal with
    | |- read_only (bind _ _) => apply read_only_bind; [|intros ?]
    | |- read_only (ret _) => apply read_only_ret
    | |- read_only (throw _) => apply read_only_throw
    | |- read_only (lift _) => apply read_only_lift
    | |- read_only (enter _) => apply read_only_enter
    | |- read_only (auditLog _ _ _ _ _ _ _) => apply read_only_auditLog
    | |- read_only (createNotification _ _ _ _ _ _ _ _ _ _) =>
        apply read_only_createNotification
    | |- read_only (if ?b then _ else _) => destruct b
    | |- read_only (match ?x with _ => _ end) => destruct x
    end.

(** ** The reading operations *)

Lemma getAll_read_only (self : BaseService) (filters : Value) :
  read_only (getAll self filters).
Proof.
  unfold Publications.getAll. read_only_steps.
  apply read_only_query. intros text d. reflexivity.
Qed.

Lemma getById_read_only (self : BaseService) (id : string) :
  read_only (getById self id).
Proof.
  unfold Publications.getById. read_only_steps.
  apply read_only_query. intros text d. reflexivity.
Qed.

Lemma getStats_read_only (self : BaseService) : read_only (getStats self).
Proof.
  unfold Publications.getStats. read_only_steps.
  apply read_only_all.
  repeat constructor; apply read_only_query; intros text d; reflexivity.
Qed.

(** [getById] in one equation. *)
Lemma getById_eq (self : BaseService) (id : string) (w : World) :
  exists w' : World,
    getById self id w =
    (if next_fault w then Throw (Error "Erro na consulta ao banco de dados")
     else match filter (fun p => col_eq (pub_id p) (VStr id)
                                 && owned_by (usr_id (user self)) p)
                       (publications (db w)) with
          | [] => Throw (Error "Publicação não encontrada")
          | r :: _ => Ok r
          end, w').
Proof.
  unfold Publications.getById, bind, lift.
  rewrite enter_eq, requirePermission_publications, query_eq.
  change (next_fault (entered "PublicationService.getById" w))
    with (next_fault w).
  destruct (next_fault w); [eexists; reflexivity|].
  cbn [fst denot select db entered].
  destruct (filter _ (publications (db w))); eexists; reflexivity.
Qed.

Lemma getById_ok (self : BaseService) (id : string) (w w' : World)
  (r : Publication) :
  getById self id w = (Ok r, w') ->
  pub_user_id r = usr_id (user self) /\ pub_id r = id
  /\ In r (publications (db w)).
Proof.
  destruct (getById_eq self id w) as [w1 ->].
  destruct (next_fault w); [discriminate|].
  destruct (filter _ (publications (db w))) as [|r0 rest] eqn:Hf; [discriminate|].
  intros H. injection H as -> _.
  assert (Hin : In r (r :: rest)) by now left.
  rewrite <- Hf in Hin. apply filter_In in Hin as [Hin Hc].
  apply andb_prop in Hc as [Hid Ho].
  apply owned_by_eq in Ho. apply String.eqb_eq in Hid. auto.
Qed.

Lemma getAll_ok (self : BaseService) (filters : Value) (w w' : World)
  (rows : list Publication) :
  getAll self filters w = (Ok rows, w') ->
  Forall (fun p => pub_user_id p = usr_id (user self)
                   /\ In p (publications (db w))) rows.
Proof.
  unfold Publications.getAll, bind, lift.
  rewrite enter_eq, requirePermission_publications.
  destruct (if truthy _ then to_js_string _ else Ok _) as [text|e];
    [|discriminate].
  rewrite query_eq.
  change (next_fault (entered "PublicationService.getAll" w))
    with (next_fault w).
  destruct (next_fault w); [discriminate|].
  cbn [fst denot select db entered]. intros H. injection H as <- _.
  apply Forall_forall. intros p Hp.
  apply order_by_in, filter_In in Hp as [Hin Hc].
  apply andb_prop in Hc as [Hc _]. apply andb_prop in Hc as [Ho _].
  apply owned_by_eq in Ho. auto.
Qed.

(** Read-only statements started together all see the same tables. *)
Lemma all_read_only_queries {R} (self : BaseService)
  (stmts : list (Stmt Rest R)) :
  Forall (fun s => forall text d, snd (denot s text d) = d) stmts ->
  forall (w w' : World) (rs : list R),
    all (map (query self) stmts) w = (Ok rs, w') ->
    rs = map (fun s => fst (denot s (tenant_sql (tenantSchema self) (sql s))
                                  (db w))) stmts.
Proof.
  induction 1 as [|s stmts Hs Hstmts IH]; intros w w' rs; cbn [map all].
  - unfold ret. intros H. now injection H as <- _.
  - rewrite query_eq. destruct (next_fault w) eqn:Hnf; [discriminate|].
    pose proof (IH (after_query self s w)) as IH'.
    destruct (all (map (query self) stmts) (after_query self s w))
      as [[xs|e] w2]; [|discriminate].
    intros H. injection H as <- _.
    rewrite (IH' w2 xs eq_refl). f_equal.
    unfold after_query. cbn [db]. rewrite Hnf, Hs. reflexivity.
Qed.

Lemma getStats_ok (self : BaseService) (w w' : World) (stats : Stats) :
  getStats self w = (Ok stats, w') ->
  let count := fun cond =>
    count_owned (usr_id (user self)) cond (publications (db w)) in
  total stats = count (fun _ => true)
  /\ novas stats = count (status_is "nova")
  /\ pendentes stats = count (status_is "pendente")
  /\ atribuidas stats = count (status_is "atribuida")
  /\ finalizadas stats = count (status_is "finalizada")
  /\ descartadas stats = count (status_is "descartada").
Proof.
  unfold Publications.getStats, bind, lift.
  rewrite enter_eq, requirePermission_publications.
  set (uid := VStr (usr_id (user self))).
  match goal with
  | |- context [all [query self ?a; query self ?b; query self ?c;
                     query self ?d; query self ?e; query self ?f]] =>
      change (all [query self a; query self b; query self c;
                   query self d; query self e; query self f])
        with (all (map (query self) [a; b; c; d; e; f]));
      pose proof (all_read_only_queries self [a; b; c; d; e; f]) as Hall
  end.
  match type of Hall with
  | ?P -> _ => assert (Hro : P) by (repeat constructor)
  end.
  specialize (Hall Hro (entered "PublicationService.getStats" w)).
  destruct (all _ (entered "PublicationService.getStats" w))
    as [[rs|e] w1]; [|discriminate].
  rewrite (Hall w1 rs eq_refl).
  unfold ret. intros H. injection H as <- _.
  cbn. repeat split; reflexivity.
Qed.

(** ** The writing operations *)

Lemma guarded_by_user (uid id : string) (p : Publication) :
  col_eq (pub_id p) (VStr id) && col_eq (pub_user_id p) (VStr uid) = true ->
  owned_by uid p = true.
Proof. intros H. apply andb_prop in H as [_ H]. exact H. Qed.

Ltac keeps_others_steps :=
  repeat match goal with
    | |- keeps_others _ (bind _ _) => apply keeps_others_bind; [|intros ?]
    | |- keeps_others _ (Publications.getById _ _) =>
        apply keeps_others_read_only, getById_read_only
    | |- keeps_others _ (if ?b then _ else _) => destruct b
    | |- keeps_others _ (match ?x with _ => _ end) => destruct x
    | |- keeps_others _ (query _ _) =>
        apply keeps_others_query; intros ? ?;
        cbn [denot update_where delete_where snd set_publications publications]
    | |- keeps_others _ _ =>
        apply keeps_others_read_only; solve [read_only_steps]
    end.

Lemma updateStatus_keeps_others (self : BaseService) (id status : string)
  (observacoes : option string) :
  keeps_others (usr_id (user self)) (updateStatus self id status observacoes).
Proof.
  unfold Publications.updateStatus. keeps_others_steps.
  apply others_map_guarded; [apply guarded_by_user | reflexivity].
Qed.

Lemma assignToUser_keeps_others (self : BaseService)
  (id assignedUserId assignedUserName : string) :
  keeps_others (usr_id (user self))
    (assignToUser self id assignedUserId assignedUserName).
Proof.
  unfold Publications.assignToUser. keeps_others_steps.
  apply others_map_guarded; [apply guarded_by_user | reflexivity].
Qed.

Lemma delete_keeps_others (self : BaseService) (id : string) :
  keeps_others (usr_id (user self)) (delete self id).
Proof.
  unfold Publications.delete. keeps_others_steps.
  apply others_filter_guarded, guarded_by_user.
Qed.

(** ** Independence from the rows of the other users *)

Lemma independent_ret {A} (uid : string) (a : A) :
  independent_of_others uid (@ret World A a).
Proof. intros w1 w2 H. split; [reflexivity | exact H]. Qed.

Lemma independent_throw {A} (uid : string) (e : Exn) :
  independent_of_others uid (@throw World A e).
Proof. intros w1 w2 H. split; [reflexivity | exact H]. Qed.

Lemma independent_lift {A} (uid : string) (r : Result A) :
  independent_of_others uid (@lift World A r).
Proof. intros w1 w2 H. split; [reflexivity | exact H]. Qed.

Lemma independent_enter (uid method : string) :
  independent_of_others uid (@enter Rest method).
Proof.
  intros w1 w2 (Hdb & Hf & Hl & Hc). split; [reflexivity|].
  unfold agree, enter, entered. cbn. rewrite Hc. auto.
Qed.

Lemma independent_bind {A B} (uid : string) (m : M World A)
  (k : A -> M World B) :
  independent_of_others uid m ->
  (forall a, independent_of_others uid (k a)) ->
  independent_of_others uid (bind m k).
Proof.
  intros Hm Hk w1 w2 H. unfold bind.
  destruct (Hm w1 w2 H) as [Hr Hw].
  destruct (m w1) as [r1 v1], (m w2) as [r2 v2]. cbn [fst snd] in *. subst r2.
  destruct r1 as [a|e]; [now apply Hk | now split].
Qed.

Lemma independent_query {R} (uid : string) (self : BaseService)
  (s : Stmt Rest R) :
  (forall text d1 d2,
     agree_db uid d1 d2 ->
     fst (denot s text d1) = fst (denot s text d2)
     /\ agree_db uid (snd (denot s text d1)) (snd (denot s text d2))) ->
  independent_of_others uid (query self s).
Proof.
  intros Hs w1 w2 (Hdb & Hf & Hl & Hc). rewrite !query_eq.
  unfold after_query, next_fault. rewrite Hf, Hl, Hc. cbn [fst snd].
  destruct (Hs (tenant_sql (tenantSchema self) (sql s)) _ _ Hdb) as [Hr Hd].
  destruct (faults w2) as [|[|] fs]; cbn [tl];
    (split; [congruence | unfold agree; cbn [db faults rpc_log calls]; auto]).
Qed.

Lemma independent_all {A} (uid : string) (ms : list (M World A)) :
  Forall (independent_of_others uid) ms -> independent_of_others uid (all ms).
Proof.
  induction 1 as [|m ms Hm Hms IH]; intros w1 w2 H.
  - split; [reflexivity | exact H].
  - cbn [all]. destruct (Hm w1 w2 H) as [Hr Hw].
    destruct (m w1) as [r1 v1], (m w2) as [r2 v2]. cbn [fst snd] in *. subst r2.
    destruct (IH v1 v2 Hw) as [Hrs Hws].
    destruct (all ms v1) as [rs1 u1], (all ms v2) as [rs2 u2].
    cbn [fst snd] in *. subst rs2.
    destruct r1 as [a|e]; [destruct rs1 as [xs|e]|]; now split.
Qed.

Lemma independent_auditLog (uid : string) (self : BaseService)
  (tableName operation : string) (recordId oldData newData : Value) :
  independent_of_others (Rest := Rest) uid
    (auditLog JSON_stringify self tableName operation recordId oldData newData).
Proof.
  intros w1 w2 (Hdb & Hf & Hl & Hc). rewrite !auditLog_eq.
  split; [reflexivity|]. cbn [snd].
  unfold after_query, next_fault. rewrite Hf, Hl, Hc.
  destruct (faults w2) as [|[|] fs];
    unfold agree, agree_db in *; cbn;
    destruct Hdb as (Hp & Ha & Hn & Ht & Hr); rewrite ?Ha; auto 10.
Qed.

Lemma independent_createNotification (uid : string) (self : BaseService)
  (type title message category : string)
  (entityType entityId actionData userId : Value) :
  independent_of_others (Rest := Rest) uid
    (createNotification JSON_stringify self type title message category
                        entityType entityId actionData userId).
Proof.
  intros w1 w2 (Hdb & Hf & Hl & Hc). rewrite !createNotification_eq.
  split; [reflexivity|]. cbn [snd].
  unfold after_query, next_fault. rewrite Hf, Hl, Hc.
  destruct (faults w2) as [|[|] fs];
    unfold agree, agree_db in *; cbn;
    destruct Hdb as (Hp & Ha & Hn & Ht & Hr); rewrite ?Hn; auto 10.
Qed.

Lemma select_independent (uid : string) (cond : Publication -> bool)
  (d1 d2 : TenantDb Rest) :
  (forall p, cond p = true -> owned_by uid p = true) ->
  agree_db uid d1 d2 ->
  fst (select cond d1) = fst (select cond d2)
  /\ agree_db uid (snd (select cond d1)) (snd (select cond d2)).
Proof.
  intros Hc H. split; [|exact H]. cbn [select fst].
  rewrite (filter_guarded uid cond (publications d1) Hc),
          (filter_guarded uid cond (publications d2) Hc).
  destruct H as [-> _]. reflexivity.
Qed.

Lemma select_count_independent (uid : string) (cond : Publication -> bool)
  (d1 d2 : TenantDb Rest) :
  (forall p, cond p = true -> owned_by uid p = true) ->
  agree_db uid d1 d2 ->
  fst (select_count cond d1) = fst (select_count cond d2)
  /\ agree_db uid (snd (select_count cond d1)) (snd (select_count cond d2)).
Proof.
  intros Hc H. split; [|exact H]. cbn [select_count fst].
  rewrite (filter_guarded uid cond (publications d1) Hc),
          (filter_guarded uid cond (publications d2) Hc).
  destruct H as [-> _]. reflexivity.
Qed.

Lemma update_where_independent (uid : string) (cond : Publication -> bool)
  (set : Z -> Publication -> Publication) (d1 d2 : TenantDb Rest) :
  (forall p, cond p = true -> owned_by uid p = true) ->
  (forall now p, pub_user_id (set now p) = pub_user_id p) ->
  agree_db uid d1 d2 ->
  fst (update_where cond set d1) = fst (update_where cond set d2)
  /\ agree_db uid (snd (update_where cond set d1))
                  (snd (update_where cond set d2)).
Proof.
  intros Hc Hs (Hp & Ha & Hn & Ht & Hr). unfold update_where. cbn [fst snd].
  split.
  - rewrite (filter_guarded uid cond (publications d1) Hc),
            (filter_guarded uid cond (publications d2) Hc), Hp, Ht.
    reflexivity.
  - unfold agree_db, set_publications. cbn.
    rewrite !(filter_map_guarded uid cond _ _ (Hs _)), Hp, Ht. auto.
Qed.

Lemma delete_where_independent (uid : string) (cond : Publication -> bool)
  (d1 d2 : TenantDb Rest) :
  agree_db uid d1 d2 ->
  fst (delete_where cond d1) = fst (delete_where cond d2)
  /\ agree_db uid (snd (delete_where cond d1)) (snd (delete_where cond d2)).
Proof.
  intros (Hp & Ha & Hn & Ht & Hr). unfold delete_where. cbn [fst snd].
  split; [reflexivity|].
  unfold agree_db, set_publications. cbn.
  rewrite !(filter_filter_comm (owned_by uid)), Hp. auto.
Qed.

Lemma guarded_first (uid : string) (p : Publication) (b : bool) :
  col_eq (pub_user_id p) (VStr uid) && b = true -> owned_by uid p = true.
Proof. intros H. apply andb_prop in H as [H _]. exact H. Qed.

Ltac independent_steps :=
  repeat match goal with
    | |- independent_of_others _ (bind _ _) =>
        apply independent_bind; [|intros ?]
    | |- independent_of_others _ (ret _) => apply independent_ret
    | |- independent_of_others _ (throw _) => apply independent_throw
    | |- independent_of_others _ (lift _) => apply independent_lift
    | |- independent_of_others _ (enter _) => apply independent_enter
    | |- independent_of_others _ (auditLog _ _ _ _ _ _ _) =>
        apply independent_auditLog
    | |- independent_of_others _ (createNotification _ _ _ _ _ _ _ _ _ _) =>
        apply independent_createNotification
    | |- independent_of_others _ (if ?b then _ else _) => destruct b
    | |- independent_of_others _ (match ?x with _ => _ end) => destruct x
    | |- independent_of_others _ (query _ _) =>
        apply independent_query; intros ? ? ? ?; cbn [denot]
    end.

Lemma getById_independent (self : BaseService) (id : string) :
  independent_of_others (usr_id (user self)) (getById self id).
Proof.
  unfold Publications.getById. independent_steps.
  apply select_independent; [apply guarded_by_user | assumption].
Qed.

Lemma getAll_independent (self : BaseService) (filters : Value) :
  independent_of_others (usr_id (user self)) (getAll self filters).
Proof.
  unfold Publications.getAll. independent_steps.
  match goal with
  | H : agree_db _ ?d1 ?d2 |- context [select ?c ?d1] =>
      destruct (select_independent (usr_id (user self)) c d1 d2) as [Hr Hd];
        [|exact H|]
  end.
  - intros p Hp. apply andb_prop in Hp as [Hp _].
    now apply guarded_first in Hp.
  - cbn [select fst snd] in *. rewrite Hr. split; [reflexivity | assumption].
Qed.

Lemma getStats_independent (self : BaseService) :
  independent_of_others (usr_id (user self)) (getStats self).
Proof.
  unfold Publications.getStats. independent_steps.
  apply independent_all.
  repeat (apply Forall_cons;
          [ unfold count_stmt; independent_steps;
            apply select_count_independent;
            [intros p Hp; exact (guarded_first _ _ _ Hp) | assumption] |]).
  apply Forall_nil.
Qed.

Ltac independent_getById :=
  match goal with
  | |- independent_of_others _ (Publications.getById _ _) =>
      apply getById_independent
  end.

Lemma updateStatus_independent (self : BaseService) (id status : string)
  (observacoes : option string) :
  independent_of_others (usr_id (user self))
    (updateStatus self id status observacoes).
Proof.
  unfold Publications.updateStatus.
  repeat first [independent_getById | progress independent_steps].
  apply update_where_independent;
    [apply guarded_by_user | reflexivity | assumption].
Qed.

Lemma assignToUser_independent (self : BaseService)
  (id assignedUserId assignedUserName : string) :
  independent_of_others (usr_id (user self))
    (assignToUser self id assignedUserId assignedUserName).
Proof.
  unfold Publications.assignToUser.
  repeat first [independent_getById | progress independent_steps].
  apply update_where_independent;
    [apply guarded_by_user | reflexivity | assumption].
Qed.

Lemma delete_independent (self : BaseService) (id : string) :
  independent_of_others (usr_id (user self)) (delete self id).
Proof.
  unfold Publications.delete.
  repeat first [independent_getById | progress independent_steps].
  now apply delete_where_independent.
Qed.

(** A row of another user is out of reach of [getById]. *)
Lemma getById_other_user (self : BaseService) (w : World) (y : Publication) :
  In y (publications (db w)) ->
  pub_user_id y <> usr_id (user self) ->
  NoDup (map pub_id (publications (db w))) ->
  exists w' : World,
    getById self (pub_id y) w
    = (if next_fault w then Throw (Error "Erro na consulta ao banco de dados")
       else Throw (Error "Publicação não encontrada"), w').
Proof.
  intros Hy Hother Hpk.
  destruct (getById_eq self (pub_id y) w) as [w' ->]. exists w'.
  destruct (next_fault w); [reflexivity|].
  destruct (filter _ (publications (db w))) as [|r rest] eqn:Hf; [reflexivity|].
  exfalso.
  assert (Hin : In r (r :: rest)) by now left.
  rewrite <- Hf in Hin. apply filter_In in Hin as [Hin Hc].
  apply andb_prop in Hc as [Hid Ho].
  apply String.eqb_eq in Hid. apply owned_by_eq in Ho.
  assert (r = y) by (apply (primary_key _ _ _ Hpk Hin Hy); congruence).
  congruence.
Qed.

(** C1.  Every operation of [PublicationService] run for a user reads,
    counts, updates and deletes only rows of [publications] whose
    [user_id] is that user's id: what it returns are rows and counts of
    the user's rows, the rows of the other users stay as they are, and
    neither its result nor its effects depend on them.  For a row [y] of
    another user, with [id] the primary key: [getById] on the id of [y]
    throws, with "Publicação não encontrada" whenever the RPC answers,
    and [updateStatus], [assignToUser] and [delete] leave [y] as it is. *)
Theorem publications_are_isolated_by_user (self : BaseService) (w : World) :
  let uid := usr_id (user self) in
  let table := publications (db w) in
  (forall (filters : Value) (rows : list Publication) (w' : World),
     getAll self filters w = (Ok rows, w') ->
     Forall (fun p => pub_user_id p = uid /\ In p table) rows)
  /\ (forall (id : string) (r : Publication) (w' : World),
        getById self id w = (Ok r, w') ->
        pub_user_id r = uid /\ pub_id r = id /\ In r table)
  /\ (forall (stats : Stats) (w' : World),
        getStats self w = (Ok stats, w') ->
        total stats = count_owned uid (fun _ => true) table
        /\ novas stats = count_owned uid (status_is "nova") table
        /\ pendentes stats = count_owned uid (status_is "pendente") table
        /\ atribuidas stats = count_owned uid (status_is "atribuida") table
        /\ finalizadas stats = count_owned uid (status_is "finalizada") table
        /\ descartadas stats = count_owned uid (status_is "descartada") table)
  /\ (forall (filters : Value) (id : string),
        publications (db (snd (getAll self filters w))) = table
        /\ publications (db (snd (getById self id w))) = table
        /\ publications (db (snd (getStats self w))) = table)
  /\ (forall (id status : string) (observacoes : option string)
             (assignedUserId assignedUserName : string),
        others uid (publications
                      (db (snd (updateStatus self id status observacoes w))))
        = others uid table
        /\ others uid (publications
                         (db (snd (assignToUser self id assignedUserId
                                                assignedUserName w))))
           = others uid table
        /\ others uid (publications (db (snd (delete self id w))))
           = others uid table)
  /\ (forall (filters : Value) (id status : string)
             (observacoes : option string)
             (assignedUserId assignedUserName : string),
        independent_of_others uid (getAll self filters)
        /\ independent_of_others uid (getById self id)
        /\ independent_of_others uid (getStats self)
        /\ independent_of_others uid (updateStatus self id status observacoes)
        /\ independent_of_others uid
             (assignToUser self id assignedUserId assignedUserName)
        /\ independent_of_others uid (delete self id))
  /\ (forall y : Publication,
        In y table -> pub_user_id y <> uid -> NoDup (map pub_id table) ->
        (exists (e : Exn) (w' : World),
           getById self (pub_id y) w = (Throw e, w'))
        /\ (next_fault w = false ->
            fst (getById self (pub_id y) w)
            = Throw (Error "Publicação não encontrada"))
        /\ (forall (id status : string) (observacoes : option string)
                   (assignedUserId assignedUserName : string),
              In y (publications
                      (db (snd (updateStatus self id status observacoes w))))
              /\ In y (publications
                         (db (snd (assignToUser self id assignedUserId
                                                assignedUserName w))))
              /\ In y (publications (db (snd (delete self id w)))))).
Proof.
  intros uid table. subst uid table.
  split; [intros filters rows w'; apply getAll_ok|].
  split; [intros id r w'; apply getById_ok|].
  split; [intros stats w'; apply getStats_ok|].
  split.
  { intros filters id. split; [apply getAll_read_only|].
    split; [apply getById_read_only | apply getStats_read_only]. }
  split.
  { intros id status observacoes assignedUserId assignedUserName.
    split; [apply updateStatus_keeps_others|].
    split; [apply assignToUser_keeps_others | apply delete_keeps_others]. }
  split.
  { intros filters id status observacoes assignedUserId assignedUserName.
    split; [apply getAll_independent|].
    split; [apply getById_independent|].
    split; [apply getStats_independent|].
    split; [apply updateStatus_independent|].
    split; [apply assignToUser_independent | apply delete_independent]. }
  intros y Hy Hother Hpk.
  destruct (getById_other_user self w y Hy Hother Hpk) as [w' Hget].
  split; [|split].
  - rewrite Hget. destruct (next_fault w); eauto.
  - intros Hnf. rewrite Hget, Hnf. reflexivity.
  - intros id status observacoes assignedUserId assignedUserName.
    assert (Hyo : In y (others (usr_id (user self)) (publications (db w))))
      by (apply in_others; auto).
    split; [|split].
    + rewrite <- (updateStatus_keeps_others self id status observacoes w) in Hyo.
      now apply in_others in Hyo.
    + rewrite <- (assignToUser_keeps_others self id assignedUserId
                    assignedUserName w) in Hyo.
      now apply in_others in Hyo.
    + rewrite <- (delete_keeps_others self id w) in Hyo.
      now apply in_others in Hyo.
Qed.

End WithRest.

Import Samples.

Lemma publications_are_isolated_by_user_witness :
  fst (Publications.getById (new_service ana_user) (pub_id pub_c1) world_pubs)
  = Throw (Error "Publicação não encontrada")
  /\ In pub_c1
       (publications
          (db (snd (Publications.delete sample_stringify (new_service ana_user)
                      (pub_id pub_c1) world_pubs)))).
Proof.
  destruct (publications_are_isolated_by_user (list Value) sample_stringify
              (fun _ _ => true) (fun a b => (a * 100 / b)%Z)
              (new_service ana_user) world_pubs)
    as (_ & _ & _ & _ & _ & _ & H).
  destruct (H pub_c1) as (_ & Hget & Hkeep).
  - cbn. auto.
  - discriminate.
  - cbn. repeat constructor; cbn; intuition discriminate.
  - split; [apply Hget; reflexivity|].
    apply (Hkeep (pub_id pub_c1) "pendente" None "u-costa" "Dra. Costa").
Defined.

End PublicationsFacts.

(* ================================================================== *)
(** * Further facts about the schema name and the substitution *)
(* ================================================================== *)

Module SchemaNameFacts.
Import JsString JsStringFacts Tenant Http Service TenantFacts Notions.

(** Dropping the hyphens of a text of a given shape leaves its
    hexadecimal digits, one for each digit position of the shape. *)
Lemma has_shape_digits (shape : list bool) (s : string) :
  has_shape shape s = true ->
  all_hex (remove_char "-" s) = true
  /\ String.length (remove_char "-" s) = List.length (filter negb shape).
Proof.
  revert s. induction shape as [|[|] shape IH]; intros [|c s] H;
    simpl in H; try discriminate.
  - split; reflexivity.
  - apply andb_prop in H as [Hc H]. cbn [remove_char]. rewrite Hc.
    exact (IH s H).
  - apply andb_prop in H as [Hc H]. cbn [remove_char].
    rewrite (hex_digit_not_hyphen c Hc).
    destruct (IH s H) as [Hh Hl]. cbn [all_hex String.length filter negb List.length].
    rewrite Hc, Hh, Hl. split; reflexivity.
Qed.

Lemma uuid_digits (t : string) :
  is_uuid t = true ->
  all_hex (remove_char "-" t) = true
  /\ String.length (remove_char "-" t) = 32.
Proof. intros H. exact (has_shape_digits uuid_shape t H). Qed.

(** For a tenant id that is a UUID, the schema name every service, the
    middleware and [getTenantConnection] compute is ["tenant_"] followed
    by exactly 32 hexadecimal digits: 39 characters, none of which needs
    quoting in an SQL identifier. *)
Theorem uuid_schema_name_shape (tenantId : string) :
  is_uuid tenantId = true ->
  exists digits : string,
    schema_of tenantId = "tenant_" ++ digits
    /\ String.length digits = 32
    /\ all_hex digits = true
    /\ String.length (schema_of tenantId) = 39.
Proof.
  intros H. destruct (uuid_digits tenantId H) as [Hh Hl].
  exists (remove_char "-" tenantId). rewrite schema_of_eq.
  repeat split; try assumption.
  rewrite length_append, Hl. reflexivity.
Qed.

(** The migration registers the demonstration tenant under the schema
    name ["tenant_demo"] and an id drawn by [gen_random_uuid()]; the name
    the server derives from a UUID is never that one. *)
Theorem demo_schema_is_never_addressed (tenantId : string) :
  is_uuid tenantId = true ->
  conn_schema (getTenantConnection tenantId) <> "tenant_demo"
  /\ forall u : AuthenticatedUser,
       usr_tenantId u = tenantId ->
       tenantSchema (new_service u) <> "tenant_demo".
Proof.
  intros H.
  assert (Hne : schema_of tenantId <> "tenant_demo").
  { destruct (uuid_digits tenantId H) as [_ Hl].
    rewrite schema_of_eq. intros E.
    change "tenant_demo" with ("tenant_" ++ "demo") in E.
    apply (append_inv_same_length "tenant_" "tenant_") in E as [_ E];
      [|reflexivity].
    rewrite E in Hl. discriminate. }
  split; [exact Hne|]. intros u <-. exact Hne.
Qed.

(** A text in which the pattern does not occur is left as it is. *)
Lemma replace_go_absent (pat repl : string) (s before : string) :
  occurs pat s = false -> replace_go pat repl 0 before s = s.
Proof.
  revert before. induction s as [|c s IH]; intros before H; [reflexivity|].
  cbn [occurs] in H. apply orb_false_elim in H as [Hc Hs].
  rewrite replace_go_step by exact Hc. now rewrite IH.
Qed.

(** A statement without the placeholder is sent as it was written,
    whatever the tenant: by [getTenantConnection(...).query] and by
    [BaseService.query] alike. *)
Theorem sql_without_placeholder_is_unchanged (sql : string) :
  occurs placeholder sql = false ->
  (forall schema : string, tenant_sql schema sql = sql)
  /\ (forall (tenantId : string) (P : Type) (params : list P),
        connection_request (getTenantConnection tenantId) sql params
        = mkRpc "exec_sql" sql params)
  /\ (forall (Rest R : Type) (self : BaseService) (s : Stmt Rest R)
             (w : Schema.World Rest),
        Service.sql s = sql ->
        Schema.rpc_log (snd (query self s w))
        = (Schema.rpc_log w ++ [mkRpc "exec_sql" sql (params s)])%list).
Proof.
  intros H.
  assert (Hsame : forall schema, tenant_sql schema sql = sql)
    by (intros schema; now apply replace_go_absent).
  split; [exact Hsame|]. split.
  - intros tenantId P params. unfold connection_request.
    now rewrite Hsame.
  - intros Rest R self s w Hs.
    rewrite ServiceFacts.query_log. unfold request_of.
    now rewrite Hs, Hsame.
Qed.

(** The substitution is idempotent: the text [query] sends holds no
    placeholder, so substituting again changes nothing. *)
Theorem schema_substitution_is_idempotent (tenantId sql : string) :
  dollar_free tenantId = true ->
  tenant_sql (schema_of tenantId) (tenant_sql (schema_of tenantId) sql)
  = tenant_sql (schema_of tenantId) sql.
Proof.
  intros H. apply replace_go_absent.
  destruct (tenant_sql_segments sql) as (segs & _ & Hf & Ht).
  rewrite (Ht _ (schema_dollar_free _ H)), schema_of_eq.
  apply join_schema_no_placeholder; [now apply dollar_free_remove | assumption].
Qed.

Import Samples.

Lemma uuid_schema_name_shape_witness :
  exists digits : string,
    schema_of tenant_a = "tenant_" ++ digits
    /\ String.length digits = 32
    /\ all_hex digits = true
    /\ String.length (schema_of tenant_a) = 39.
Proof. apply (uuid_schema_name_shape tenant_a). reflexivity. Defined.

Lemma demo_schema_is_never_addressed_witness :
  tenantSchema (new_service ana_user) <> "tenant_demo".
Proof.
  destruct (demo_schema_is_never_addressed tenant_a) as [_ H];
    [reflexivity | exact (H ana_user eq_refl)].
Defined.

Lemma sql_without_placeholder_is_unchanged_witness :
  tenant_sql (schema_of tenant_a) "SELECT 1" = "SELECT 1".
Proof.
  destruct (sql_without_placeholder_is_unchanged "SELECT 1") as [H _];
    [reflexivity | exact (H (schema_of tenant_a))].
Defined.

Lemma schema_substitution_is_idempotent_witness :
  tenant_sql (schema_of tenant_a)
    (tenant_sql (schema_of tenant_a) "SELECT * FROM ${schema}.clients")
  = tenant_sql (schema_of tenant_a) "SELECT * FROM ${schema}.clients".
Proof.
  apply (schema_substitution_is_idempotent tenant_a
           "SELECT * FROM ${schema}.clients").
  reflexivity.
Defined.

End SchemaNameFacts.

(* ================================================================== *)
(** * Further facts about tokens and sessions *)
(* ================================================================== *)

Module TokenFacts.
Import Js JsString JsStringFacts Tenant Http Auth AuthFacts Notions.

(** ** The [Authorization] header *)

Lemma split_go_plain (cur w : string) :
  lacks " " w = true -> split_go " " cur w = [cur ++ w].
Proof.
  revert cur. induction w as [|c w IH]; intros cur H; simpl.
  - now rewrite append_nil_r.
  - simpl in H. apply andb_prop in H as [Hc H].
    destruct (c =? " ")%char; [discriminate|].
    rewrite IH by assumption. now rewrite append_assoc.
Qed.

Lemma split_go_field (cur w x : string) :
  lacks " " w = true ->
  split_go " " cur (w ++ String " " x) = (cur ++ w) :: split_go " " "" x.
Proof.
  revert cur. induction w as [|c w IH]; intros cur H; simpl.
  - now rewrite append_nil_r.
  - simpl in H. apply andb_prop in H as [Hc H].
    destruct (c =? " ")%char; [discriminate|].
    rewrite IH by assumption. now rewrite append_assoc.
Qed.

Lemma append_space_not_empty (a b : string) : (a ++ String " " b =? "") = false.
Proof. destruct a; reflexivity. Qed.

Section Libraries.

Variable JWT_ACCESS_SECRET JWT_REFRESH_SECRET : string.
Variable jwt_verify : string -> string -> Z -> Result Value.
Variable jwt_sign : Value -> string -> string -> Z -> string.
Variable bcrypt_hash : string -> nat -> string -> string.
Variable bcrypt_compare : string -> string -> bool.

Local Abbreviation authenticateToken :=
  (authenticateToken JWT_ACCESS_SECRET jwt_verify).
Local Abbreviation login :=
  (login JWT_ACCESS_SECRET JWT_REFRESH_SECRET jwt_sign bcrypt_hash
         bcrypt_compare).
Local Abbreviation refreshAccessToken :=
  (refreshAccessToken JWT_ACCESS_SECRET JWT_REFRESH_SECRET jwt_verify jwt_sign
                      bcrypt_hash bcrypt_compare).
Local Abbreviation refresh_try :=
  (refresh_try JWT_ACCESS_SECRET JWT_REFRESH_SECRET jwt_verify jwt_sign
               bcrypt_hash bcrypt_compare).
Local Abbreviation generateTokens :=
  (generateTokens JWT_ACCESS_SECRET JWT_REFRESH_SECRET jwt_sign bcrypt_hash).

(** [authenticateToken] takes the second space-separated field of the
    [Authorization] header as the token and never looks at the first:
    any scheme word is accepted in place of [Bearer], what follows a
    second space is ignored, and a header without a space is answered
    401 like a missing one. *)
Theorem authorization_scheme_is_not_checked (scheme token : string) :
  lacks " " scheme = true ->
  lacks " " token = true ->
  bearer_token (Some (scheme ++ " " ++ token)) = Some token
  /\ (forall rest : string,
        bearer_token (Some (scheme ++ " " ++ token ++ " " ++ rest)) = Some token)
  /\ (forall (now : Z) (req : Request) (db : AdminDb),
        req_authorization req = Some scheme ->
        authenticateToken now req db
        = Respond (json 401 (error_body "Token de acesso necessário"))).
Proof.
  intros Hs Ht. unfold bearer_token, split.
  split; [|split].
  - change (scheme ++ " " ++ token) with (scheme ++ String " " token).
    rewrite append_space_not_empty, (split_go_field "" scheme token Hs).
    rewrite (split_go_plain "" token Ht). reflexivity.
  - intros rest.
    change (scheme ++ " " ++ token ++ " " ++ rest)
      with (scheme ++ String " " (token ++ String " " rest)).
    rewrite append_space_not_empty, (split_go_field "" scheme _ Hs).
    rewrite (split_go_field "" token rest Ht). reflexivity.
  - intros now req db Hreq. unfold Auth.authenticateToken, bearer_token, split.
    rewrite Hreq. destruct (scheme =? "") eqn:E; [reflexivity|].
    rewrite (split_go_plain "" scheme Hs). reflexivity.
Qed.

(** An active user whose [tenant_id] is NULL (the column is nullable)
    cannot use a tenant route: with a valid token the middleware answers
    403 "Token inválido", the answer of the [catch] block to the
    [TypeError] raised when the schema name is computed. *)
Theorem user_without_tenant_gets_403 (now : Z) (req : Request) (db : AdminDb)
  (token : string) (decoded userId : Value) (row : AdminUser) :
  bearer_token (req_authorization req) = Some token ->
  token <> "" ->
  jwt_verify token JWT_ACCESS_SECRET now = Ok decoded ->
  get_prop decoded "userId" = Ok userId ->
  single (filter (fun u => eq_col userId (u_id u)) (users db)) = Some row ->
  u_is_active row = true ->
  u_tenant_id row = None ->
  authenticateToken now req db
  = Respond (json 403 (error_body "Token inválido")).
Proof.
  intros Htok Hne Hv Hg Hs Ha Ht.
  unfold Auth.authenticateToken, Auth.authenticate_try, rbind.
  rewrite Htok, (no_token_some token Hne), Hv, Hg, Hs, Ha, Ht. reflexivity.
Qed.

(** ** [AuthService.login] *)

(** [login] returns tokens only when exactly one active user has the
    email and the password matches the stored hash.  It then stamps
    [last_login] on the rows with that user's id, leaves every other row
    of [admin.users] as it is, and appends one active row to
    [admin.refresh_tokens]: the hash of the refresh token it returns,
    expiring seven days later. *)
Theorem login_success (env : Env) (email password : string)
  (db db' : AdminDb) (tokens : Tokens) :
  login env email password db = (Ok tokens, db') ->
  exists user : AdminUser,
    single (filter (fun u => (u_email u =? email) && u_is_active u) (users db))
    = Some user
    /\ In user (users db)
    /\ u_email user = email
    /\ u_is_active user = true
    /\ bcrypt_compare password (u_password_hash user) = true
    /\ users db'
       = map (fun u => if (u_id u =? u_id user)
                       then touch_login (env_now env) u else u) (users db)
    /\ (forall u, In u (users db) -> u_id u <> u_id user -> In u (users db'))
    /\ refresh_tokens db'
       = (refresh_tokens db
          ++ [mkRefreshToken (env_new_id env) (u_id user)
                (bcrypt_hash (refreshToken tokens) 10 (env_salt env))
                (env_now env + 604800000)%Z true])%list.
Proof.
  unfold Auth.login.
  destruct (single _) as [user|] eqn:Hs; [|discriminate].
  destruct (bcrypt_compare password (u_password_hash user)) eqn:Hc;
    cbn [negb]; [|discriminate].
  unfold Auth.generateTokens. cbn [users refresh_tokens].
  intros H. injection H as <- <-.
  exists user. cbn [users refresh_tokens refreshToken].
  pose proof (single_in _ _ Hs) as Hf.
  assert (Hin : In user (filter (fun u => (u_email u =? email) && u_is_active u)
                                (users db))) by (rewrite Hf; now left).
  apply filter_In in Hin as [Hin Hcond].
  apply andb_prop in Hcond as [He Ha]. apply String.eqb_eq in He.
  repeat split; try assumption; try reflexivity.
  intros u Hu Hid. apply in_map_iff. exists u.
  apply String.eqb_neq in Hid. rewrite Hid. auto.
Qed.

(** ** [AuthService.refreshAccessToken] *)

(** What [refreshAccessToken] may change.  It never writes to
    [admin.users]; it never makes an inactive refresh token active: a
    row that is active afterwards was there before, unchanged, or is the
    one just inserted; every failure is the error "Refresh token
    inválido" and inserts nothing; a success inserts exactly one row. *)
Theorem refresh_never_reactivates (env : Env) (token : string) (db : AdminDb) :
  users (snd (refreshAccessToken env token db)) = users db
  /\ (forall t,
        In t (refresh_tokens (snd (refreshAccessToken env token db))) ->
        rt_is_active t = true ->
        In t (refresh_tokens db) \/ rt_id t = env_new_id env)
  /\ (forall e,
        fst (refreshAccessToken env token db) = Throw e ->
        e = Error "Refresh token inválido"
        /\ List.length (refresh_tokens (snd (refreshAccessToken env token db)))
           = List.length (refresh_tokens db))
  /\ (forall tokens,
        fst (refreshAccessToken env token db) = Ok tokens ->
        List.length (refresh_tokens (snd (refreshAccessToken env token db)))
        = S (List.length (refresh_tokens db))).
Proof.
  assert (Hdeact : forall id t,
            In t (map (fun t0 => if (rt_id t0 =? id) then deactivate t0 else t0)
                      (refresh_tokens db)) ->
            rt_is_active t = true -> In t (refresh_tokens db)).
  { intros id t Ht Ha. apply in_map_iff in Ht as (t0 & <- & Ht0).
    destruct (rt_id t0 =? id); [discriminate | assumption]. }
  assert (Hfail : forall d : AdminDb,
            users d = users db ->
            (forall t, In t (refresh_tokens d) -> rt_is_active t = true ->
                       In t (refresh_tokens db)) ->
            List.length (refresh_tokens d) = List.length (refresh_tokens db) ->
            forall e0 : Exn,
              let r := (let (r0, s') := (@Throw Tokens e0, d) in
                        match r0 with
                        | Ok a => (Ok a, s')
                        | Throw error =>
                            bind (if truthy (exn_userId error)
                                  then deactivate_by_user (exn_userId error)
                                  else ret tt)
                                 (fun _ => throw (Error "Refresh token inválido"))
                                 s'
                        end) in
              users (snd r) = users db
              /\ (forall t, In t (refresh_tokens (snd r)) ->
                            rt_is_active t = true ->
                            In t (refresh_tokens db) \/ rt_id t = env_new_id env)
              /\ (forall e, fst r = Throw e ->
                            e = Error "Refresh token inválido"
                            /\ List.length (refresh_tokens (snd r))
                               = List.length (refresh_tokens db))
              /\ (forall tokens, fst r = Ok tokens ->
                                 List.length (refresh_tokens (snd r))
                                 = S (List.length (refresh_tokens db)))).
  { intros d Hu Hin Hlen e0. cbn.
    split; [exact Hu|]. split; [intros t Ht Ha; left; now apply Hin|].
    split; [|intros tokens H; discriminate].
    intros e H. injection H as <-. split; [reflexivity | exact Hlen]. }
  unfold Auth.refreshAccessToken, try_catch, Auth.refresh_try.
  destruct (jwt_verify token JWT_REFRESH_SECRET (env_now env)) as [decoded|e0];
    [|apply Hfail; auto].
  destruct (get_prop decoded "userId") as [userId|e0];
    [|apply Hfail; auto].
  destruct (filter _ (refresh_tokens db)) as [|s0 rest];
    [apply Hfail; auto|].
  destruct (find _ (s0 :: rest)) as [vt|]; [|apply Hfail; auto].
  cbn [deactivate_by_id snd users].
  destruct (single _) as [user|];
    [|apply Hfail; [reflexivity | apply Hdeact | apply length_map]].
  destruct (u_is_active user); cbn [negb];
    [|apply Hfail; [reflexivity | apply Hdeact | apply length_map]].
  unfold Auth.generateTokens. cbn [users refresh_tokens fst snd].
  split; [reflexivity|]. split; [|split].
  - intros t Ht Ha. apply in_app_or in Ht as [Ht|[<-|[]]].
    + left. exact (Hdeact _ _ Ht Ha).
    + right. reflexivity.
  - intros e H. discriminate.
  - intros tokens _. rewrite length_app, length_map. cbn. lia.
Qed.

(** The expiry stored with a refresh token is enforced by the lookup:
    when every active stored token has expired, any presented token is
    refused, whatever [jwt.verify] says of it, and nothing is written. *)
Theorem expired_tokens_are_refused (env : Env) (token : string) (db : AdminDb) :
  (forall t, In t (refresh_tokens db) -> rt_is_active t = true ->
             (rt_expires_at t <= env_now env)%Z) ->
  refreshAccessToken env token db
  = (Throw (Error "Refresh token inválido"), db).
Proof.
  intros Hexp. unfold Auth.refreshAccessToken, try_catch, Auth.refresh_try.
  destruct (jwt_verify token JWT_REFRESH_SECRET (env_now env)) as [decoded|e0];
    [|reflexivity].
  destruct (get_prop decoded "userId") as [userId|e0]; [|reflexivity].
  destruct (filter _ (refresh_tokens db)) as [|s0 rest] eqn:Hf; [reflexivity|].
  exfalso.
  assert (Hin : In s0 (s0 :: rest)) by now left.
  rewrite <- Hf in Hin. apply filter_In in Hin as [Hin Hc].
  apply andb_prop in Hc as [Hc Hlt]. apply andb_prop in Hc as [_ Ha].
  apply Z.ltb_lt in Hlt. specialize (Hexp s0 Hin Ha). lia.
Qed.

(** With [id] a primary key of [admin.users], the lookup by id after a
    login finds the one row of the user, stamped. *)
Lemma lookup_after_touch (now : Z) (user : AdminUser) (rows : list AdminUser) :
  NoDup (map u_id rows) -> In user rows ->
  filter (fun u => eq_col (VStr (u_id user)) (u_id u))
         (map (fun u => if (u_id u =? u_id user) then touch_login now u else u)
              rows)
  = [touch_login now user].
Proof.
  induction rows as [|a rows IH]; intros Hnd Hin; [contradiction|].
  inversion Hnd as [|? ? Hnotin Hnd']; subst.
  cbn [map filter]. destruct Hin as [->|Hin].
  - rewrite String.eqb_refl. cbn [eq_col touch_login u_id].
    rewrite String.eqb_refl. f_equal.
    clear IH Hnd Hnd'. induction rows as [|b rows IHr]; [reflexivity|].
    cbn [map filter].
    assert (Hb : (u_id b =? u_id user) = false).
    { apply String.eqb_neq. intros E. apply Hnotin. left. exact E. }
    rewrite Hb. cbn [eq_col]. rewrite String.eqb_sym, Hb.
    apply IHr. intros H. apply Hnotin. now right.
  - assert (Ha : (u_id a =? u_id user) = false).
    { apply String.eqb_neq. intros E. apply Hnotin. rewrite E.
      now apply in_map. }
    rewrite Ha. cbn [eq_col]. rewrite String.eqb_sym, Ha. now apply IH.
Qed.

(** Round trip.  The refresh token returned by a successful [login] is
    accepted by [refreshAccessToken] at any instant before its stored
    expiry, provided the libraries do their part ([jwt.verify] accepts
    the token [jwt.sign] produced and yields its [userId], [bcrypt.compare]
    accepts the hash [bcrypt.hash] made of it) and [id] is a primary key
    of [admin.users]. *)
Theorem issued_refresh_token_is_accepted (env env' : Env)
  (email password : string) (db : AdminDb) (user : AdminUser)
  (decoded : Value) :
  NoDup (map u_id (users db)) ->
  single (filter (fun u => (u_email u =? email) && u_is_active u) (users db))
  = Some user ->
  bcrypt_compare password (u_password_hash user) = true ->
  jwt_verify
    (jwt_sign (VObj [("userId", VStr (u_id user)); ("type", VStr "refresh")])
              JWT_REFRESH_SECRET "7d" (env_now env))
    JWT_REFRESH_SECRET (env_now env') = Ok decoded ->
  get_prop decoded "userId" = Ok (VStr (u_id user)) ->
  bcrypt_compare
    (jwt_sign (VObj [("userId", VStr (u_id user)); ("type", VStr "refresh")])
              JWT_REFRESH_SECRET "7d" (env_now env))
    (bcrypt_hash
       (jwt_sign (VObj [("userId", VStr (u_id user)); ("type", VStr "refresh")])
                 JWT_REFRESH_SECRET "7d" (env_now env))
       10 (env_salt env)) = true ->
  (env_now env' < env_now env + 604800000)%Z ->
  exists (tokens : Tokens) (db1 : AdminDb),
    login env email password db = (Ok tokens, db1)
    /\ exists (tokens' : Tokens) (db2 : AdminDb),
         refreshAccessToken env' (refreshToken tokens) db1 = (Ok tokens', db2).
Proof.
  intros Hnd Hs Hpw Hv Hg Hcmp Hnow.
  set (rt := jwt_sign (VObj [("userId", VStr (u_id user));
                             ("type", VStr "refresh")])
                      JWT_REFRESH_SECRET "7d" (env_now env)) in *.
  pose proof (single_in _ _ Hs) as Hf.
  assert (Hin : In user (filter (fun u => (u_email u =? email) && u_is_active u)
                                (users db))) by (rewrite Hf; now left).
  apply filter_In in Hin as [Hin Hcond].
  apply andb_prop in Hcond as [_ Hact].
  unfold Auth.login. rewrite Hs, Hpw. cbn [negb].
  unfold Auth.generateTokens at 1. cbn [users refresh_tokens]. fold rt.
  eexists _, _. split; [reflexivity|].
  unfold Auth.refreshAccessToken, try_catch, Auth.refresh_try.
  cbn [refreshToken refresh_tokens users]. rewrite Hv, Hg.
  set (row := mkRefreshToken (env_new_id env) (u_id user)
                (bcrypt_hash rt 10 (env_salt env))
                (env_now env + 7 * 24 * 60 * 60 * 1000)%Z true).
  rewrite filter_app. cbn [filter eq_col rt_user_id rt_is_active rt_expires_at row].
  rewrite String.eqb_refl.
  replace (env_now env' <? env_now env + 7 * 24 * 60 * 60 * 1000)%Z with true
    by (symmetry; apply Z.ltb_lt; lia).
  cbn [andb].
  set (stored := (filter _ (refresh_tokens db) ++ [row])%list).
  assert (Hrow : In row stored) by (apply in_or_app; right; now left).
  destruct stored as [|s0 rest] eqn:Hst; [contradiction|].
  destruct (find (fun stored0 => bcrypt_compare rt (rt_token_hash stored0))
                 (s0 :: rest)) as [vt|] eqn:Hfind.
  2:{ exfalso. pose proof (find_none _ _ Hfind row Hrow) as Hn.
      cbn [rt_token_hash row] in Hn. rewrite Hcmp in Hn. discriminate. }
  cbn [deactivate_by_id snd users].
  pose proof (lookup_after_touch (env_now env) user (users db) Hnd Hin) as Hl.
  cbn [eq_col] in Hl. rewrite Hl.
  cbn [single touch_login u_is_active]. rewrite Hact. cbn [negb].
  unfold Auth.generateTokens. eexists _, _. reflexivity.
Qed.

End Libraries.

Import Samples.

Lemma authorization_scheme_is_not_checked_witness :
  bearer_token (Some "Basic access-secret:u-costa:1700000000")
  = Some "access-secret:u-costa:1700000000".
Proof.
  destruct (authorization_scheme_is_not_checked ACCESS sample_verify "Basic"
              "access-secret:u-costa:1700000000") as [H _];
    [reflexivity | reflexivity | exact H].
Defined.

Lemma user_without_tenant_gets_403_witness :
  authenticateToken ACCESS sample_verify 5
    (request (bearer "access-secret:u-sofia:1700000000")) admin1
  = Respond (json 403 (error_body "Token inválido")).
Proof.
  apply (user_without_tenant_gets_403 ACCESS sample_verify 5
           (request (bearer "access-secret:u-sofia:1700000000")) admin1
           "access-secret:u-sofia:1700000000"
           (VObj [("userId", VStr "u-sofia")]) (VStr "u-sofia") sofia);
    try reflexivity.
  discriminate.
Defined.

Lemma login_success_witness :
  exists user : AdminUser,
    In user (users admin0) /\ u_email user = "ana@escritorio.com"
    /\ refresh_tokens after_login
       = [mkRefreshToken "rt-1" (u_id user) (sample_hash ana_token 10 "s9")
            1700604800123 true].
Proof.
  destruct (login_success ACCESS REFRESH sample_sign sample_hash sample_compare
              env1 "ana@escritorio.com" "123456" admin0 after_login
              (mkTokens "access-secret:u-ana:1700000000" ana_token))
    as (user & _ & Hin & He & _ & _ & _ & _ & Hrt); [reflexivity|].
  exists user. split; [exact Hin|]. split; [exact He | exact Hrt].
Defined.

Lemma expired_tokens_are_refused_witness :
  sample_refresh (mkEnv 1700604800123 "s11" "rt-3") ana_token after_login
  = (Throw (Error "Refresh token inválido"), after_login).
Proof.
  apply (expired_tokens_are_refused ACCESS REFRESH sample_verify sample_sign
           sample_hash sample_compare
           (mkEnv 1700604800123 "s11" "rt-3") ana_token after_login).
  intros t [<-|[]] _. cbn. lia.
Defined.

Lemma issued_refresh_token_is_accepted_witness :
  exists (tokens : Tokens) (db1 : AdminDb),
    sample_login env1 "ana@escritorio.com" "123456" admin0 = (Ok tokens, db1)
    /\ exists (tokens' : Tokens) (db2 : AdminDb),
         sample_refresh env3 (refreshToken tokens) db1 = (Ok tokens', db2).
Proof.
  apply (issued_refresh_token_is_accepted ACCESS REFRESH sample_verify
           sample_sign sample_hash sample_compare env1 env3
           "ana@escritorio.com" "123456" admin0 ana
           (VObj [("userId", VStr "u-ana")])); try reflexivity.
  repeat constructor; cbn; intuition discriminate.
Defined.

End TokenFacts.

(* ================================================================== *)
(** * [BaseService] in a world without faults *)
(* ================================================================== *)

Module ServiceRunFacts.
Import Js JsString Tenant Http Schema Service ServiceFacts.

Section WithRest.

Variable Rest : Type.
Variable JSON_stringify : Value -> Value.

Local Abbreviation World := (World Rest).

(** A statement in a world without faults. *)
Lemma query_ok {R} (self : BaseService) (s : Stmt Rest R) (w : World) :
  faults w = [] ->
  query self s w
  = (Ok (fst (denot s (tenant_sql (tenantSchema self) (sql s)) (db w))),
     mkWorld (snd (denot s (tenant_sql (tenantSchema self) (sql s)) (db w)))
             [] (rpc_log w ++ [request_of self s]) (calls w)).
Proof.
  intros Hf. rewrite query_eq. unfold after_query, next_fault.
  rewrite Hf. reflexivity.
Qed.

Lemma auditLog_ok (self : BaseService) (tableName operation : string)
  (recordId oldData newData : Value) (w : World) :
  faults w = [] ->
  auditLog JSON_stringify self tableName operation recordId oldData newData w
  = (Ok tt,
     mkWorld
       (add_audit
          (mkAudit (VStr (usr_id (user self))) (VStr tableName) recordId
                   (VStr operation) (stringify_or_null JSON_stringify oldData)
                   (stringify_or_null JSON_stringify newData)) (db w))
       [] 
       (rpc_log w
        ++ [request_of self
              (audit_stmt Rest
                 [VStr (usr_id (user self)); VStr tableName; recordId;
                  VStr operation; stringify_or_null JSON_stringify oldData;
                  stringify_or_null JSON_stringify newData])])
       (calls w)).
Proof.
  intros Hf. rewrite auditLog_eq. unfold after_query, next_fault.
  rewrite Hf. reflexivity.
Qed.

Lemma createNotification_ok (self : BaseService)
  (type title message category : string)
  (entityType entityId actionData userId : Value) (w : World) :
  faults w = [] ->
  createNotification JSON_stringify self type title message category
    entityType entityId actionData userId w
  = (Ok tt,
     mkWorld
       (add_notification
          (mkNotification (VStr type) (VStr title) (VStr message)
             (VStr category) entityType entityId
             (stringify_or_null JSON_stringify actionData) userId
             (VStr (usr_name (user self)))) (db w))
       []
       (rpc_log w
        ++ [request_of self
              (notification_stmt Rest
                 [VStr type; VStr title; VStr message; VStr category;
                  entityType; entityId;
                  stringify_or_null JSON_stringify actionData; userId;
                  VStr (usr_name (user self))])])
       (calls w)).
Proof.
  intros Hf. rewrite createNotification_eq. unfold after_query, next_fault.
  rewrite Hf. reflexivity.
Qed.

End WithRest.

End ServiceRunFacts.

(* ================================================================== *)
(** * Further facts about [PublicationService] *)
(* ================================================================== *)

Module PublicationOpsFacts.
Import Js JsString Tenant Http Schema Service ServiceFacts Publications.
Import PublicationsFacts ServiceRunFacts Notions.

(** With [id] a primary key, the lookup by id and owner finds the one
    row of the user. *)
Lemma own_row_lookup (uid : string) (p : Publication) (rows : list Publication) :
  NoDup (map pub_id rows) -> In p rows -> pub_user_id p = uid ->
  filter (fun q => col_eq (pub_id q) (VStr (pub_id p))
                   && col_eq (pub_user_id q) (VStr uid)) rows = [p].
Proof.
  intros Hnd Hin Hu.
  induction rows as [|a rows IH]; [contradiction|].
  inversion Hnd as [|? ? Hnotin Hnd']; subst.
  cbn [filter col_eq Auth.eq_col]. destruct Hin as [->|Hin].
  - rewrite !String.eqb_refl. cbn [andb]. f_equal.
    clear IH Hnd Hnd'. induction rows as [|b rows IHr]; [reflexivity|].
    cbn [filter].
    assert (Hb : (pub_id p =? pub_id b) = false).
    { apply String.eqb_neq. intros E. apply Hnotin. left. now symmetry. }
    rewrite Hb. cbn [andb]. apply IHr. intros H. apply Hnotin. now right.
  - assert (Ha : (pub_id p =? pub_id a) = false).
    { apply String.eqb_neq. intros E. apply Hnotin. rewrite <- E.
      now apply in_map. }
    rewrite Ha. cbn [andb]. now apply IH.
Qed.

Section WithRest.

Variable Rest : Type.
Variable JSON_stringify : Value -> Value.
Variable ilike : string -> string -> bool.
Variable round_percent : Z -> Z -> Z.

Local Abbreviation World := (World Rest).
Local Abbreviation getAll := (@getAll Rest ilike).
Local Abbreviation getById := (@getById Rest).
Local Abbreviation updateStatus := (@updateStatus Rest JSON_stringify).
Local Abbreviation assignToUser := (@assignToUser Rest JSON_stringify).
Local Abbreviation delete := (@delete Rest JSON_stringify).
Local Abbreviation getStats := (@getStats Rest round_percent).

(** [getById] on a row of the user, in a world without faults. *)
Lemma getById_own (self : BaseService) (p : Publication) (w : World) :
  faults w = [] ->
  NoDup (map pub_id (publications (db w))) ->
  In p (publications (db w)) ->
  pub_user_id p = usr_id (user self) ->
  exists w1 : World,
    getById self (pub_id p) w = (Ok p, w1)
    /\ db w1 = db w /\ faults w1 = [].
Proof.
  intros Hf Hnd Hin Hu.
  unfold Publications.getById, bind, lift.
  rewrite enter_eq, requirePermission_publications.
  rewrite query_ok by exact Hf.
  cbn [fst snd denot select db entered].
  rewrite (own_row_lookup _ p _ Hnd Hin Hu).
  eexists. split; [reflexivity|]. split; reflexivity.
Qed.

(** [updateStatus] on a publication of the user, when no call fails.
    The row gets the new status and the time of the update; its
    [observacoes] are replaced when given and kept when omitted; no other
    row changes.  One audit entry records the row before and after.  A
    notification "Publicação Visualizada" is written exactly when the
    status goes from [nova] to [pendente]; it carries the process number
    and no [user_id], so it is addressed to every user of the tenant. *)
Theorem updateStatus_effect (self : BaseService) (p : Publication)
  (status : string) (observacoes : option string) (w : World) :
  faults w = [] ->
  NoDup (map pub_id (publications (db w))) ->
  In p (publications (db w)) ->
  pub_user_id p = usr_id (user self) ->
  exists w' : World,
    updateStatus self (pub_id p) status observacoes w
    = (Ok (Some (set_status status observacoes (db_now (db w)) p)), w')
    /\ pub_observacoes (set_status status observacoes (db_now (db w)) p)
       = match observacoes with
         | Some o => Some o
         | None => pub_observacoes p
         end
    /\ publications (db w')
       = map (fun q => if col_eq (pub_id q) (VStr (pub_id p))
                          && col_eq (pub_user_id q) (VStr (usr_id (user self)))
                       then set_status status observacoes (db_now (db w)) q
                       else q)
             (publications (db w))
    /\ audit_log (db w')
       = (audit_log (db w)
          ++ [mkAudit (VStr (usr_id (user self))) (VStr "publications")
                (VStr (pub_id p)) (VStr "UPDATE")
                (JSON_stringify (publication_value p))
                (JSON_stringify
                   (publication_value
                      (set_status status observacoes (db_now (db w)) p)))])%list
    /\ notifications (db w')
       = (notifications (db w)
          ++ (if status_is "nova" p && (status =? "pendente")
              then [mkNotification (VStr "info")
                      (VStr "Publicação Visualizada")
                      (VStr (usr_name (user self)
                             ++ " visualizou a publicação " ++ pub_processo p))
                      (VStr "publications") (VStr "publication")
                      (VStr (pub_id p))
                      (JSON_stringify
                         (VObj [("publication_id", VStr (pub_id p));
                                ("page", VStr "/publicacoes")]))
                      VUndefined (VStr (usr_name (user self)))]
              else []))%list.
Proof.
  intros Hf Hnd Hin Hu.
  unfold Publications.updateStatus, bind, lift.
  rewrite enter_eq, requirePermission_publications.
  destruct (getById_own self p (entered "PublicationService.updateStatus" w))
    as (w1 & Hget & Hdb & Hf1); try assumption.
  rewrite Hget, (query_ok Rest _ _ w1 Hf1).
  cbn [fst snd denot update_where db]. rewrite Hdb. cbn [entered db].
  rewrite (own_row_lookup _ p _ Hnd Hin Hu). cbn [map hd_error].
  rewrite auditLog_ok by reflexivity.
  cbn [opt_value].
  destruct (status_is "nova" p && (status =? "pendente")).
  - rewrite createNotification_ok by reflexivity.
    unfold ret. eexists. split; [reflexivity|].
    cbn [db publications audit_log notifications add_audit add_notification
         set_publications].
    repeat split; reflexivity.
  - unfold ret. eexists. split; [reflexivity|].
    cbn [db publications audit_log notifications add_audit add_notification
         set_publications].
    rewrite app_nil_r. repeat split; reflexivity.
Qed.

(** [assignToUser] on a publication of the user, when no call fails.
    The row gets the status [atribuida], the assignee as [responsavel],
    [atribuido_para_id] and [atribuido_para_nome], and the time of the
    assignment; no other row changes.  One audit entry is written, and one
    notification "Publicação Atribuída" addressed to the assigned user. *)
Theorem assignToUser_effect (self : BaseService) (p : Publication)
  (assignedUserId assignedUserName : string) (w : World) :
  faults w = [] ->
  NoDup (map pub_id (publications (db w))) ->
  In p (publications (db w)) ->
  pub_user_id p = usr_id (user self) ->
  exists (w' : World) (p' : Publication),
    assignToUser self (pub_id p) assignedUserId assignedUserName w
    = (Ok (Some p'), w')
    /\ p' = set_assignee assignedUserId assignedUserName (db_now (db w)) p
    /\ pub_status p' = Some "atribuida"
    /\ pub_responsavel p' = Some assignedUserName
    /\ pub_atribuido_para_id p' = Some assignedUserId
    /\ pub_user_id p' = pub_user_id p
    /\ publications (db w')
       = map (fun q => if col_eq (pub_id q) (VStr (pub_id p))
                          && col_eq (pub_user_id q) (VStr (usr_id (user self)))
                       then set_assignee assignedUserId assignedUserName
                              (db_now (db w)) q
                       else q)
             (publications (db w))
    /\ audit_log (db w')
       = (audit_log (db w)
          ++ [mkAudit (VStr (usr_id (user self))) (VStr "publications")
                (VStr (pub_id p)) (VStr "UPDATE")
                (JSON_stringify (publication_value p))
                (JSON_stringify (publication_value p'))])%list
    /\ notifications (db w')
       = (notifications (db w)
          ++ [mkNotification (VStr "info") (VStr "Publicação Atribuída")
                (VStr (usr_name (user self) ++ " atribuiu publicação para "
                       ++ assignedUserName))
                (VStr "publications") (VStr "publication") (VStr (pub_id p))
                (JSON_stringify
                   (VObj [("publication_id", VStr (pub_id p));
                          ("page", VStr "/publicacoes")]))
                (VStr assignedUserId) (VStr (usr_name (user self)))])%list.
Proof.
  intros Hf Hnd Hin Hu.
  unfold Publications.assignToUser, bind, lift.
  rewrite enter_eq, requirePermission_publications.
  destruct (getById_own self p (entered "PublicationService.assignToUser" w))
    as (w1 & Hget & Hdb & Hf1); try assumption.
  rewrite Hget, (query_ok Rest _ _ w1 Hf1).
  cbn [fst snd denot update_where db]. rewrite Hdb. cbn [entered db].
  rewrite (own_row_lookup _ p _ Hnd Hin Hu). cbn [map hd_error].
  rewrite auditLog_ok by reflexivity.
  rewrite createNotification_ok by reflexivity.
  unfold ret. eexists _, _. split; [reflexivity|].
  cbn [db publications audit_log notifications add_audit add_notification
       set_publications opt_value].
  repeat split; reflexivity.
Qed.

Lemma filter_out_then_in {A} (f : A -> bool) (rows : list A) :
  filter f (filter (fun x => negb (f x)) rows) = [].
Proof.
  induction rows as [|a rows IH]; [reflexivity|].
  cbn [filter]. destruct (f a) eqn:E; cbn [negb filter]; [assumption|].
  now rewrite E.
Qed.

(** [delete] on a publication of the user, when no call fails: the row
    is gone, no other row changes, one audit entry keeps the deleted row,
    no notification is written, and a later [getById] of the same id
    throws "Publicação não encontrada". *)
Theorem delete_then_getById (self : BaseService) (p : Publication)
  (w : World) :
  faults w = [] ->
  NoDup (map pub_id (publications (db w))) ->
  In p (publications (db w)) ->
  pub_user_id p = usr_id (user self) ->
  exists w' : World,
    delete self (pub_id p) w = (Ok tt, w')
    /\ ~ In p (publications (db w'))
    /\ (forall q, In q (publications (db w)) -> q <> p ->
                  In q (publications (db w')))
    /\ audit_log (db w')
       = (audit_log (db w)
          ++ [mkAudit (VStr (usr_id (user self))) (VStr "publications")
                (VStr (pub_id p)) (VStr "DELETE")
                (JSON_stringify (publication_value p)) VNull])%list
    /\ notifications (db w') = notifications (db w)
    /\ fst (getById self (pub_id p) w')
       = Throw (Error "Publicação não encontrada").
Proof.
  intros Hf Hnd Hin Hu.
  unfold Publications.delete, bind, lift.
  rewrite enter_eq, requirePermission_publications.
  destruct (getById_own self p (entered "PublicationService.delete" w))
    as (w1 & Hget & Hdb & Hf1); try assumption.
  rewrite Hget, (query_ok Rest _ _ w1 Hf1).
  cbn [fst snd denot delete_where db]. rewrite Hdb. cbn [entered db].
  rewrite auditLog_ok by reflexivity.
  eexists. split; [reflexivity|].
  cbn [db publications audit_log notifications add_audit set_publications].
  split; [|split; [|split; [|split]]]; try reflexivity.
  - intros H. apply filter_In in H as [_ H].
    cbn [col_eq Auth.eq_col] in H. rewrite Hu, !String.eqb_refl in H.
    discriminate.
  - intros q Hq Hne. apply filter_In. split; [assumption|].
    destruct (col_eq (pub_id q) (VStr (pub_id p))
              && col_eq (pub_user_id q) (VStr (usr_id (user self)))) eqn:E;
      [|reflexivity].
    exfalso. apply Hne. apply andb_prop in E as [E _].
    apply String.eqb_eq in E.
    apply (primary_key _ q p Hnd Hq Hin). now symmetry.
  - match goal with
    | |- fst (getById _ _ ?w2) = _ =>
        destruct (getById_eq Rest self (pub_id p) w2) as [w3 ->]
    end.
    cbn [fst next_fault faults db publications set_publications add_audit].
    fold (owned_by (usr_id (user self))).
    match goal with
    | |- context [filter ?f (filter ?g ?l)] =>
        replace (filter f (filter g l)) with (@nil Publication)
    end; [reflexivity|].
    symmetry. apply (filter_out_then_in
      (fun q => col_eq (pub_id q) (VStr (pub_id p))
                && col_eq (pub_user_id q) (VStr (usr_id (user self))))).
Qed.

(** The value [getStats] returns. *)
Lemma getStats_value (self : BaseService) (w w' : World) (stats : Stats) :
  getStats self w = (Ok stats, w') ->
  let count := fun cond =>
    count_owned (usr_id (user self)) cond (publications (db w)) in
  stats = mkStats (count (fun _ => true)) (count (status_is "nova"))
            (count (status_is "pendente")) (count (status_is "atribuida"))
            (count (status_is "finalizada")) (count (status_is "descartada"))
            (if (0 <? count (fun _ => true))%Z
             then round_percent (count (status_is "finalizada"))
                                (count (fun _ => true))
             else 0%Z).
Proof.
  unfold Publications.getStats, bind, lift.
  rewrite enter_eq, requirePermission_publications.
  set (uid := VStr (usr_id (user self))).
  match goal with
  | |- context [all [query self ?a; query self ?b; query self ?c;
                     query self ?d; query self ?e; query self ?f]] =>
      change (all [query self a; query self b; query self c;
                   query self d; query self e; query self f])
        with (all (map (query self) [a; b; c; d; e; f]));
      pose proof (all_read_only_queries Rest self [a; b; c; d; e; f]) as Hall
  end.
  match type of Hall with
  | ?P -> _ => assert (Hro : P) by (repeat constructor)
  end.
  specialize (Hall Hro (entered "PublicationService.getStats" w)).
  destruct (all _ (entered "PublicationService.getStats" w))
    as [[rs|e] w1]; [|discriminate].
  rewrite (Hall w1 rs eq_refl).
  unfold ret. intros H. injection H as <- _.
  reflexivity.
Qed.

End WithRest.

(** Under the CHECK constraint every row falls in exactly one of six
    classes: one of the five status values, or no status. *)
Lemma count_owned_partition (uid : string) (rows : list Publication) :
  forallb status_checked rows = true ->
  count_owned uid (fun _ => true) rows
  = (count_owned uid (status_is "nova") rows
     + count_owned uid (status_is "pendente") rows
     + count_owned uid (status_is "atribuida") rows
     + count_owned uid (status_is "finalizada") rows
     + count_owned uid (status_is "descartada") rows
     + count_owned uid status_null rows)%Z.
Proof.
  unfold count_owned. induction rows as [|a rows IH]; [reflexivity|].
  cbn [forallb]. intros H. apply andb_prop in H as [Ha H].
  specialize (IH H). cbn [filter].
  destruct (owned_by uid a); cbn [andb]; [|exact IH].
  assert (Hs : forall lit, status_is lit a
                           = match pub_status a with
                             | Some st => (st =? lit)
                             | None => false
                             end) by reflexivity.
  assert (Hn : status_null a = match pub_status a with
                               | Some _ => false
                               | None => true
                               end) by reflexivity.
  rewrite !Hs, Hn. clear Hs Hn. unfold status_checked in Ha.
  destruct (pub_status a) as [st|]; [|cbn [List.length]; lia].
  unfold status_values, includes in Ha. cbn [existsb] in Ha.
  destruct (String.eqb_spec st "nova") as [E|_];
    [subst st; cbn [String.eqb Ascii.eqb Bool.eqb andb List.length]; lia|].
  destruct (String.eqb_spec st "pendente") as [E|_];
    [subst st; cbn [String.eqb Ascii.eqb Bool.eqb andb List.length]; lia|].
  destruct (String.eqb_spec st "atribuida") as [E|_];
    [subst st; cbn [String.eqb Ascii.eqb Bool.eqb andb List.length]; lia|].
  destruct (String.eqb_spec st "finalizada") as [E|_];
    [subst st; cbn [String.eqb Ascii.eqb Bool.eqb andb List.length]; lia|].
  destruct (String.eqb_spec st "descartada") as [E|_];
    [subst st; cbn [String.eqb Ascii.eqb Bool.eqb andb List.length]; lia|].
  discriminate.
Qed.

Lemma count_owned_le (uid : string) (cond : Publication -> bool)
  (rows : list Publication) :
  (0 <= count_owned uid cond rows <= count_owned uid (fun _ => true) rows)%Z.
Proof.
  unfold count_owned. split; [lia|]. apply inj_le.
  induction rows as [|a rows IH]; [apply le_n|].
  cbn [filter]. destruct (owned_by uid a); cbn [andb]; [|exact IH].
  destruct (cond a); cbn [List.length]; lia.
Qed.

(** ** The order of [getAll] *)

Lemma comes_before_total (a b : Publication) :
  comes_before a b = false -> comes_before b a = true.
Proof.
  unfold comes_before, desc_opt. intros H.
  apply orb_false_elim in H as [Hlt H]. apply Z.ltb_ge in Hlt.
  destruct (Z.ltb_spec (pub_data_publicacao a) (pub_data_publicacao b))
    as [Hab|Hba]; [reflexivity|].
  assert (E : pub_data_publicacao a = pub_data_publicacao b) by lia.
  rewrite E, Z.eqb_refl in *. cbn [orb andb] in *.
  destruct (pub_created_at a) as [x|], (pub_created_at b) as [y|];
    try reflexivity; try discriminate.
  apply Z.leb_gt in H. apply Z.leb_le. lia.
Qed.

Lemma comes_before_dates (a b : Publication) :
  comes_before a b = true ->
  (pub_data_publicacao b <= pub_data_publicacao a)%Z.
Proof.
  unfold comes_before. intros H. apply orb_prop in H as [H|H].
  - apply Z.ltb_lt in H. lia.
  - apply andb_prop in H as [H _]. apply Z.eqb_eq in H. lia.
Qed.

Lemma insert_row_hd (q p : Publication) (rows : list Publication) :
  comes_before q p = true ->
  HdRel (fun a b => comes_before a b = true) q rows ->
  HdRel (fun a b => comes_before a b = true) q (insert_row p rows).
Proof.
  intros Hqp Hq. destruct rows as [|r rows]; cbn [insert_row].
  - now constructor.
  - destruct (comes_before p r); constructor; [assumption|].
    now inversion Hq.
Qed.

Lemma insert_row_sorted (p : Publication) (rows : list Publication) :
  Sorted (fun a b => comes_before a b = true) rows ->
  Sorted (fun a b => comes_before a b = true) (insert_row p rows).
Proof.
  induction 1 as [|q rows Hs IH Hq]; cbn [insert_row].
  - repeat constructor.
  - destruct (comes_before p q) eqn:E.
    + constructor; [now constructor | now constructor].
    + constructor; [assumption|].
      apply insert_row_hd; [now apply comes_before_total | assumption].
Qed.

Lemma order_by_sorted (rows : list Publication) :
  Sorted (fun a b => comes_before a b = true) (order_by rows).
Proof.
  unfold order_by. induction rows as [|p rows IH]; cbn [fold_right].
  - constructor.
  - now apply insert_row_sorted.
Qed.

Lemma insert_row_perm (p : Publication) (rows : list Publication) :
  Permutation (insert_row p rows) (p :: rows).
Proof.
  induction rows as [|q rows IH]; cbn [insert_row]; [reflexivity|].
  destruct (comes_before p q); [reflexivity|].
  rewrite IH. apply perm_swap.
Qed.

Lemma order_by_perm (rows : list Publication) :
  Permutation (order_by rows) rows.
Proof.
  unfold order_by. induction rows as [|p rows IH]; cbn [fold_right];
    [reflexivity|].
  rewrite insert_row_perm. now constructor.
Qed.

Lemma sorted_by_dates (rows : list Publication) :
  Sorted (fun a b => comes_before a b = true) rows ->
  StronglySorted
    (fun a b => (pub_data_publicacao b <= pub_data_publicacao a)%Z) rows.
Proof.
  intros H. apply Sorted_StronglySorted.
  - intros a b c Hab Hbc. lia.
  - induction H as [|q rows Hs IH Hq]; constructor; [assumption|].
    destruct Hq; constructor. now apply comes_before_dates.
Qed.

Section Listing.

Variable Rest : Type.
Variable ilike : string -> string -> bool.

(** [getAll] is complete and ordered.  When the query succeeds, the
    result lists every row of the user that passes the filters given,
    each once and no other row, by publication date with the newest
    first; the tables are left as they were.  The pattern of a search
    filter is the filter as a string ([text]) between two [%]. *)
Theorem getAll_lists_newest_first (self : BaseService) (filters : Value)
  (w w' : World Rest) (rows : list Publication) :
  @getAll Rest ilike self filters w = (Ok rows, w') ->
  exists text : string,
    (truthy (get_opt filters "search") = true ->
     to_js_string (get_opt filters "search") = Ok text)
    /\ Permutation rows
         (filter
            (fun p =>
               owned_by (usr_id (user self)) p
               && (if truthy (get_opt filters "search")
                   then ilike (pub_processo p) ("%" ++ text ++ "%")
                        || ilike (pub_nome_pesquisado p) ("%" ++ text ++ "%")
                   else true)
               && (if truthy (get_opt filters "status")
                   then opt_col_eq (pub_status p) (get_opt filters "status")
                   else true))
            (publications (db w)))
    /\ StronglySorted
         (fun a b => (pub_data_publicacao b <= pub_data_publicacao a)%Z) rows
    /\ db w' = db w.
Proof.
  unfold Publications.getAll, bind, lift.
  rewrite enter_eq, requirePermission_publications.
  destruct (if truthy _ then to_js_string _ else Ok _) as [text|e] eqn:Ht;
    [|discriminate].
  rewrite query_eq. unfold after_query.
  change (next_fault (entered "PublicationService.getAll" w))
    with (next_fault w).
  destruct (next_fault w); [discriminate|].
  cbn [fst snd denot select db entered]. intros H. injection H as <- <-.
  exists text. split; [intros Hs; now rewrite Hs in Ht|].
  split; [apply order_by_perm|].
  split; [apply sorted_by_dates, order_by_sorted | reflexivity].
Qed.

End Listing.

Section Creation.

Variable Rest : Type.
Variable JSON_stringify : Value -> Value.
Variable run : string -> list Value -> TenantDb Rest
               -> list Value * TenantDb Rest.

Local Abbreviation create := (PublicationCreation.create JSON_stringify run).
Local Abbreviation insert_params :=
  (PublicationCreation.insert_params JSON_stringify).

(** [create] files the publication under the caller.  The first
    parameter of the INSERT, the [user_id] of the new row, is always the
    id of the authenticated user; and nothing of the argument is read
    but the thirteen properties the method names: two arguments that
    agree on those, whatever else they carry (a [user_id], an [id]), are
    treated alike in every respect. *)
Theorem create_is_for_the_caller (self : BaseService)
  (data1 data2 : Value) (f1 f2 : string -> Value) (w : World Rest) :
  destructure data1 = Ok f1 ->
  destructure data2 = Ok f2 ->
  (forall k : string, In k PublicationCreation.fields -> f1 k = f2 k) ->
  create self data1 w = create self data2 w
  /\ nth 0 (insert_params self f1) VNull = VStr (usr_id (user self))
  /\ exists more : list (RpcCall Value),
       rpc_log (snd (create self data1 w))
       = (rpc_log w
          ++ mkRpc "exec_sql"
               (tenant_sql (tenantSchema self) PublicationCreation.insert_sql)
               (insert_params self f1) :: more)%list.
Proof.
  intros Hd1 Hd2 Hk.
  assert (E : insert_params self f1 = insert_params self f2).
  { unfold PublicationCreation.insert_params.
    rewrite (Hk "data_publicacao"), (Hk "processo"), (Hk "diario"),
      (Hk "vara_comarca"), (Hk "nome_pesquisado"), (Hk "status"),
      (Hk "conteudo"), (Hk "observacoes"), (Hk "responsavel"),
      (Hk "numero_processo"), (Hk "cliente"), (Hk "urgencia"), (Hk "tags")
      by (cbn; tauto).
    reflexivity. }
  split; [|split; [reflexivity|]].
  - unfold PublicationCreation.create, bind, lift.
    rewrite Hd1, Hd2. fold (insert_params self f1) (insert_params self f2).
    now rewrite E.
  - unfold PublicationCreation.create, bind, lift.
    rewrite enter_eq, requirePermission_publications, Hd1, query_eq.
    destruct (next_fault _); [exists []; reflexivity|].
    cbn [fst]. destruct (get_prop _ "id") as [id|e]; [|exists []; reflexivity].
    rewrite auditLog_eq. unfold ret. eexists.
    cbn [snd rpc_log after_query request_of sql params entered].
    rewrite <- app_assoc. reflexivity.
Qed.

End Creation.

Section Stats.

Variable Rest : Type.
Variable round_percent : Z -> Z -> Z.

(** The figures of [getStats] are consistent.  When the six counts are
    taken without a failure, each class count lies between zero and the
    total; under the CHECK constraint of the migration the total is the
    sum of the five classes plus the user's rows without a status; and
    the percentage is computed only for a positive total: a user without
    publications gets zero, not a division by zero. *)
Theorem getStats_figures (self : BaseService) (w w' : World Rest)
  (stats : Stats) :
  @getStats Rest round_percent self w = (Ok stats, w') ->
  (0 <= novas stats <= total stats)%Z
  /\ (0 <= pendentes stats <= total stats)%Z
  /\ (0 <= atribuidas stats <= total stats)%Z
  /\ (0 <= finalizadas stats <= total stats)%Z
  /\ (0 <= descartadas stats <= total stats)%Z
  /\ (forallb status_checked (publications (db w)) = true ->
      total stats
      = (novas stats + pendentes stats + atribuidas stats + finalizadas stats
         + descartadas stats
         + count_owned (usr_id (user self)) status_null (publications (db w)))%Z)
  /\ (total stats = 0%Z -> porcentagemConcluidas stats = 0%Z)
  /\ ((0 < total stats)%Z ->
      porcentagemConcluidas stats
      = round_percent (finalizadas stats) (total stats)).
Proof.
  intros H. apply getStats_value in H. cbv zeta in H. subst stats.
  cbn [total novas pendentes atribuidas finalizadas descartadas
       porcentagemConcluidas].
  repeat (split; [apply count_owned_le|]).
  split; [apply count_owned_partition|].
  split.
  - intros ->. reflexivity.
  - intros Hpos. apply Z.ltb_lt in Hpos. now rewrite Hpos.
Qed.

End Stats.

Import Samples.

Lemma updateStatus_effect_witness :
  exists w' : World (list Value),
    Publications.updateStatus sample_stringify (new_service ana_user)
      "p-1" "pendente" None world_pubs
    = (Ok (Some (set_status "pendente" None 2000 pub_a1)), w')
    /\ List.length (notifications (db w')) = 1.
Proof.
  destruct (updateStatus_effect (list Value) sample_stringify
              (new_service ana_user) pub_a1 "pendente" None world_pubs)
    as (w' & H & _ & _ & _ & Hn).
  - reflexivity.
  - repeat constructor; cbn; intuition discriminate.
  - now left.
  - reflexivity.
  - exists w'. split; [exact H|]. rewrite Hn. reflexivity.
Defined.

Lemma assignToUser_effect_witness :
  exists (w' : World (list Value)) (p' : Publication),
    Publications.assignToUser sample_stringify (new_service ana_user)
      "p-2" "u-costa" "Dra. Costa" world_pubs = (Ok (Some p'), w')
    /\ pub_status p' = Some "atribuida"
    /\ List.length (notifications (db w')) = 1.
Proof.
  destruct (assignToUser_effect (list Value) sample_stringify
              (new_service ana_user) pub_a2 "u-costa" "Dra. Costa" world_pubs)
    as (w' & p' & H & _ & Hs & _ & _ & _ & _ & _ & Hn).
  - reflexivity.
  - repeat constructor; cbn; intuition discriminate.
  - right. right. now left.
  - reflexivity.
  - exists w', p'. split; [exact H|]. split; [exact Hs|].
    rewrite Hn. reflexivity.
Defined.

Lemma delete_then_getById_witness :
  exists w' : World (list Value),
    Publications.delete sample_stringify (new_service ana_user) "p-1" world_pubs
    = (Ok tt, w')
    /\ fst (Publications.getById (new_service ana_user) "p-1" w')
       = Throw (Error "Publicação não encontrada").
Proof.
  destruct (delete_then_getById (list Value) sample_stringify
              (new_service ana_user) pub_a1 world_pubs)
    as (w' & H & _ & _ & _ & _ & Hget).
  - reflexivity.
  - repeat constructor; cbn; intuition discriminate.
  - now left.
  - reflexivity.
  - exists w'. split; [exact H | exact Hget].
Defined.

Lemma getAll_lists_newest_first_witness :
  exists (rows : list Publication) (w' : World (list Value)),
    Publications.getAll (fun _ _ => true) (new_service ana_user) (VObj [])
      world_pubs = (Ok rows, w')
    /\ Permutation rows [pub_a1; pub_a2].
Proof.
  destruct (Publications.getAll (fun _ _ => true) (new_service ana_user)
              (VObj []) world_pubs) as [[rows|e] w'] eqn:E;
    [|vm_compute in E; discriminate].
  exists rows, w'. split; [reflexivity|].
  destruct (getAll_lists_newest_first (list Value) (fun _ _ => true)
              (new_service ana_user) (VObj []) world_pubs w' rows E)
    as (text & _ & H & _ & _).
  exact H.
Defined.

Lemma create_is_for_the_caller_witness :
  PublicationCreation.create sample_stringify sample_run (new_service ana_user)
    (VObj [("processo", VStr "0001-11"); ("user_id", VStr "u-costa")]) world0
  = PublicationCreation.create sample_stringify sample_run
      (new_service ana_user) (VObj [("processo", VStr "0001-11")]) world0.
Proof.
  destruct (create_is_for_the_caller (list Value) sample_stringify sample_run
              (new_service ana_user)
              (VObj [("processo", VStr "0001-11"); ("user_id", VStr "u-costa")])
              (VObj [("processo", VStr "0001-11")])
              (get_opt (VObj [("processo", VStr "0001-11");
                              ("user_id", VStr "u-costa")]))
              (get_opt (VObj [("processo", VStr "0001-11")]))
              world0 eq_refl eq_refl) as [H _].
  - intros k Hk. cbn in Hk.
    repeat (destruct Hk as [<-|Hk]; [reflexivity|]). contradiction.
  - exact H.
Defined.

Lemma getStats_figures_witness :
  exists (stats : Stats) (w' : World (list Value)),
    Publications.getStats (fun a b => (a * 100 / b)%Z) (new_service ana_user)
      world_pubs = (Ok stats, w')
    /\ total stats
       = (novas stats + pendentes stats + atribuidas stats
          + finalizadas stats + descartadas stats + 0)%Z.
Proof.
  destruct (Publications.getStats (fun a b => (a * 100 / b)%Z)
              (new_service ana_user) world_pubs) as [[stats|e] w'] eqn:E;
    [|vm_compute in E; discriminate].
  exists stats, w'. split; [reflexivity|].
  destruct (getStats_figures (list Value) (fun a b => (a * 100 / b)%Z)
              (new_service ana_user) world_pubs w' stats E)
    as (_ & _ & _ & _ & _ & H & _).
  exact (H eq_refl).
Defined.

End PublicationOpsFacts.

(* ================================================================== *)
(** * Further facts about [CashFlowService] and its router *)
(* ================================================================== *)

Module CashFlowOpsFacts.
Import Js JsString Tenant Http Schema Service ServiceFacts CashFlow Notions.

(** [requirePermission] does not look at the permission asked. *)
Lemma requirePermission_any (self : BaseService) (p1 p2 module_ : string) :
  requirePermission self p1 module_ = requirePermission self p2 module_.
Proof. reflexivity. Qed.

Section WithEngine.

Variable Rest : Type.
Variable engine : string -> list Value -> Rest -> list Value * Rest.
Variable JSON_stringify : Value -> Value.
Variable js_sub : Value -> Value -> Value.
Variable render_csv : list Value -> Result string.
Variable today : string.

Local Abbreviation World := (World Rest).
Local Abbreviation pg := (pg Rest engine).
Local Abbreviation getAll := (getAll engine).
Local Abbreviation getById := (getById engine).
Local Abbreviation create := (create engine JSON_stringify).
Local Abbreviation update := (update engine JSON_stringify).
Local Abbreviation delete := (delete engine JSON_stringify).
Local Abbreviation exportCSV := (exportCSV engine render_csv).

(** The one statement [getAll] sends when the search filter, if there
    is one, converts to the string [text]. *)
Lemma getAll_request (self : BaseService) (filters : Value) (text : string)
  (w : World) :
  requirePermission self "read" "cash_flow" = Ok true ->
  (truthy (get_opt filters "search") = true ->
   to_js_string (get_opt filters "search") = Ok text) ->
  rpc_log (snd (getAll self filters w))
  = (rpc_log w
     ++ [mkRpc "exec_sql"
           (tenant_sql (tenantSchema self)
              (getAll_sql
               ++ numbered 1 (map (fun t => fst (fst t))
                                  (present (cash_flow_filters filters text)))
               ++ order_by_sql))
           (map snd (present (cash_flow_filters filters text)))])%list.
Proof.
  intros Hp Ht. unfold CashFlow.getAll, bind, lift, like_pattern.
  rewrite enter_eq, Hp.
  unfold add_filter, push, present, cash_flow_filters. cbn [filter fst snd].
  destruct (truthy (get_opt filters "search"));
    [rewrite (Ht eq_refl); cbn [rbind]|];
    rewrite query_log; cbn [rpc_log entered];
    unfold request_of; cbn [sql params CashFlow.pg fst snd];
    destruct (truthy (get_opt filters "type")),
             (truthy (get_opt filters "category")),
             (truthy (get_opt filters "status")),
             (truthy (get_opt filters "date_start")),
             (truthy (get_opt filters "date_end")); reflexivity.
Qed.

(** A search filter that does not convert to a string stops [getAll]
    before its statement is built. *)
Lemma getAll_unconvertible (self : BaseService) (filters : Value) (e : Exn)
  (w : World) :
  requirePermission self "read" "cash_flow" = Ok true ->
  truthy (get_opt filters "search") = true ->
  to_js_string (get_opt filters "search") = Throw e ->
  getAll self filters w = (Throw e, entered "CashFlowService.getAll" w).
Proof.
  intros Hp Hs Ht. unfold CashFlow.getAll, bind, lift, like_pattern.
  rewrite enter_eq, Hp, Hs, Ht. reflexivity.
Qed.

(** The query builder of [getAll] keeps placeholders and parameters in
    step.  When the search filter, if present, converts to a string, the
    text sent is the base query, one clause for each filter that is
    present, in the order search, type, category, status, date_start,
    date_end, and the ordering; the clauses carry the placeholders [$1],
    [$2], ... in that order, and the parameter array holds the values of
    the same filters in the same order.  A search filter whose
    conversion throws (an object with an own [toString]) makes [getAll]
    throw that error before anything is sent.  [exportCSV] sends what
    [getAll] sends. *)
Theorem getAll_placeholders_match_params (self : BaseService)
  (filters : Value) (w : World) :
  requirePermission self "read" "cash_flow" = Ok true ->
  (forall text : string,
     (truthy (get_opt filters "search") = true ->
      to_js_string (get_opt filters "search") = Ok text) ->
     rpc_log (snd (getAll self filters w))
     = (rpc_log w
        ++ [mkRpc "exec_sql"
              (tenant_sql (tenantSchema self)
                 (getAll_sql
                  ++ numbered 1 (map (fun t => fst (fst t))
                                     (present (cash_flow_filters filters text)))
                  ++ order_by_sql))
              (map snd (present (cash_flow_filters filters text)))])%list)
  /\ (forall e : Exn,
        truthy (get_opt filters "search") = true ->
        to_js_string (get_opt filters "search") = Throw e ->
        getAll self filters w = (Throw e, entered "CashFlowService.getAll" w)
        /\ rpc_log (snd (getAll self filters w)) = rpc_log w)
  /\ rpc_log (snd (exportCSV self filters w))
     = rpc_log (snd (getAll self filters w)).
Proof.
  intros Hp. split; [|split].
  - intros text Ht. now apply getAll_request.
  - intros e Hs Ht. rewrite (getAll_unconvertible self filters e w Hp Hs Ht).
    split; reflexivity.
  - unfold CashFlow.exportCSV, bind, lift. rewrite enter_eq, Hp.
    destruct (truthy (get_opt filters "search")) eqn:Hs;
      [destruct (to_js_string (get_opt filters "search")) as [text|e] eqn:Ht|].
    + assert (H : truthy (get_opt filters "search") = true ->
                  to_js_string (get_opt filters "search") = Ok text)
        by (intros _; exact Ht).
      pose proof (getAll_request self filters text
                    (entered "CashFlowService.exportCSV" w) Hp H) as H1.
      rewrite (getAll_request self filters text w Hp H).
      destruct (CashFlow.getAll engine self filters
                  (entered "CashFlowService.exportCSV" w)) as [[rows|e] w1];
        cbn [snd] in *; exact H1.
    + rewrite !(getAll_unconvertible self filters e _ Hp Hs Ht). reflexivity.
    + assert (H : truthy (get_opt filters "search") = true ->
                  to_js_string (get_opt filters "search") = Ok "")
        by (rewrite Hs; discriminate).
      pose proof (getAll_request self filters ""
                    (entered "CashFlowService.exportCSV" w) Hp H) as H1.
      rewrite (getAll_request self filters "" w Hp H).
      destruct (CashFlow.getAll engine self filters
                  (entered "CashFlowService.exportCSV" w)) as [[rows|e] w1];
        cbn [snd] in *; exact H1.
Qed.

(** [getById] when the lookup is answered. *)
Lemma getById_answered (self : BaseService) (id : string) (w : World) :
  requirePermission self "write" "cash_flow" = Ok true ->
  next_fault w = false ->
  getById self id w
  = (match fst (engine (tenant_sql (tenantSchema self) getById_sql)
                       [VStr id] (rest (db w))) with
     | [] => Throw (Error "Transação não encontrada")
     | r :: _ => Ok r
     end,
     mkWorld (set_rest (snd (engine (tenant_sql (tenantSchema self) getById_sql)
                                    [VStr id] (rest (db w)))) (db w))
             (tl (faults w))
             (rpc_log w
              ++ [mkRpc "exec_sql" (tenant_sql (tenantSchema self) getById_sql)
                        [VStr id]])
             (calls w ++ ["CashFlowService.getById"])).
Proof.
  intros Hp Hnf. unfold CashFlow.getById, bind, lift.
  rewrite enter_eq.
  rewrite (requirePermission_any self "read" "write"), Hp, query_eq.
  unfold after_query.
  change (next_fault (entered "CashFlowService.getById" w))
    with (next_fault w).
  rewrite Hnf. cbn [fst snd denot CashFlow.pg sql params db entered
                    faults rpc_log calls request_of].
  destruct (engine _ [VStr id] (rest (db w))) as [[|r rows] r1];
    reflexivity.
Qed.

(** [update] and [delete] of an id that is not in the table.  When the
    lookup is answered with no row, both throw "Transação não
    encontrada"; the lookup is the only statement sent, so no UPDATE or
    DELETE reaches the engine and no audit entry is written. *)
Theorem update_and_delete_of_missing_id (self : BaseService) (id : string)
  (transactionData : Value) (w : World) (r : Rest) :
  requirePermission self "write" "cash_flow" = Ok true ->
  next_fault w = false ->
  engine (tenant_sql (tenantSchema self) getById_sql) [VStr id] (rest (db w))
  = ([], r) ->
  (fst (update self id transactionData w)
   = Throw (Error "Transação não encontrada")
   /\ rpc_log (snd (update self id transactionData w))
      = (rpc_log w
         ++ [mkRpc "exec_sql" (tenant_sql (tenantSchema self) getById_sql)
                   [VStr id]])%list
   /\ audit_log (db (snd (update self id transactionData w)))
      = audit_log (db w))
  /\ (fst (delete self id w) = Throw (Error "Transação não encontrada")
      /\ rpc_log (snd (delete self id w))
         = (rpc_log w
            ++ [mkRpc "exec_sql" (tenant_sql (tenantSchema self) getById_sql)
                      [VStr id]])%list
      /\ audit_log (db (snd (delete self id w))) = audit_log (db w)).
Proof.
  intros Hp Hnf He. split.
  - unfold CashFlow.update, bind, lift. rewrite enter_eq, Hp.
    rewrite getById_answered by assumption.
    cbn [rest db entered]. rewrite He. repeat split; reflexivity.
  - unfold CashFlow.delete, bind, lift. rewrite enter_eq, Hp.
    rewrite getById_answered by assumption.
    cbn [rest db entered]. rewrite He. repeat split; reflexivity.
Qed.

(** A successful [delete] leaves a trace.  When no call fails and the
    lookup finds the transaction, three statements are sent, the lookup,
    the DELETE and the INSERT into the audit log, and the audit log gains
    exactly one entry: the user, the table, the id, the operation
    [DELETE] and the row as it was. *)
Theorem delete_writes_audit_entry (self : BaseService) (id : string)
  (w : World) (row : Value) (more : list Value) (r1 : Rest) :
  requirePermission self "write" "cash_flow" = Ok true ->
  faults w = [] ->
  engine (tenant_sql (tenantSchema self) getById_sql) [VStr id] (rest (db w))
  = (row :: more, r1) ->
  exists w' : World,
    delete self id w = (Ok tt, w')
    /\ rpc_log w'
       = (rpc_log w
          ++ [mkRpc "exec_sql" (tenant_sql (tenantSchema self) getById_sql)
                    [VStr id];
              mkRpc "exec_sql" (tenant_sql (tenantSchema self) delete_sql)
                    [VStr id];
              mkRpc "exec_sql" (tenant_sql (tenantSchema self) audit_sql)
                    [VStr (usr_id (user self)); VStr "cash_flow"; VStr id;
                     VStr "DELETE"; stringify_or_null JSON_stringify row;
                     VNull]])%list
    /\ audit_log (db w')
       = (audit_log (db w)
          ++ [mkAudit (VStr (usr_id (user self))) (VStr "cash_flow") (VStr id)
                (VStr "DELETE") (stringify_or_null JSON_stringify row)
                VNull])%list
    /\ rest (db w')
       = snd (engine (tenant_sql (tenantSchema self) delete_sql) [VStr id] r1).
Proof.
  intros Hp Hf He.
  assert (Hnf : next_fault w = false) by (unfold next_fault; now rewrite Hf).
  unfold CashFlow.delete, bind, lift. rewrite enter_eq, Hp.
  rewrite getById_answered by assumption.
  cbn [rest db entered faults rpc_log calls]. rewrite He, Hf. cbn [fst snd tl].
  rewrite (ServiceRunFacts.query_ok Rest) by reflexivity.
  cbn [fst snd denot CashFlow.pg sql params db rest set_rest].
  destruct (engine (tenant_sql (tenantSchema self) delete_sql) [VStr id] r1)
    as [rows r2] eqn:Hd.
  rewrite (ServiceRunFacts.auditLog_ok Rest) by reflexivity.
  eexists. split; [reflexivity|].
  cbn [db rpc_log audit_log rest add_audit set_rest request_of sql params
       CashFlow.pg audit_stmt tenantSchema].
  rewrite <- !app_assoc. repeat split; reflexivity.
Qed.

(** No category id of the table is the name of a member of
    [Object.prototype]. *)
Lemma categories_not_inherited (k : string) (b : Builtin) :
  inherited k = Some b -> lookup k categories = None /\ (k =? "") = false.
Proof.
  unfold inherited, inherited_members. cbn [inherited_in].
  repeat match goal with
         | |- context [(?lit =? k)] =>
             destruct (String.eqb_spec lit k) as [<-|_];
               [intros _; split; reflexivity|]
         end.
  discriminate.
Qed.

(** [create] without a project.  When [project_id] is absent or the
    string [none], no project lookup is sent: the INSERT goes out with
    the category name [getCategoryName] returned and NULL for the
    project title and the client name (and for [project_id] itself when
    it was [none]), followed by the audit entry [CREATE] keyed by the id
    of the row the INSERT returned.  When [description] converts to a
    string, one notification follows, "Nova Receita Registrada" for an
    income and "Nova Despesa Registrada" for anything else, and the
    inserted row is returned.  When the conversion throws (an object
    with an own [toString]), [create] throws that error after the INSERT
    and the audit entry: the row and the audit entry stay, no
    notification is written. *)
Theorem create_writes_audit_and_notification (self : BaseService)
  (transactionData : Value) (f : string -> Value) (categoryName : Value)
  (w : World) (row id : Value) (more : list Value) (r1 : Rest) :
  requirePermission self "write" "cash_flow" = Ok true ->
  faults w = [] ->
  destructure transactionData = Ok f ->
  getCategoryName (js_or (f "category_id") (VStr "")) = Ok categoryName ->
  truthy (f "project_id") && negb (is_str (f "project_id") "none") = false ->
  engine (tenant_sql (tenantSchema self) insert_sql)
         (insert_params JSON_stringify self f categoryName VNull VNull)
         (rest (db w))
  = (row :: more, r1) ->
  get_prop row "id" = Ok id ->
  nth 9 (insert_params JSON_stringify self f categoryName VNull VNull)
      VUndefined
  = none_to_null (f "project_id")
  /\ (forall text : string,
        to_js_string (f "description") = Ok text ->
        exists w' : World,
          create self transactionData w = (Ok row, w')
          /\ rpc_log w'
             = (rpc_log w
                ++ [mkRpc "exec_sql"
                      (tenant_sql (tenantSchema self) insert_sql)
                      (insert_params JSON_stringify self f categoryName
                                     VNull VNull);
                    mkRpc "exec_sql"
                      (tenant_sql (tenantSchema self) audit_sql)
                      [VStr (usr_id (user self)); VStr "cash_flow"; id;
                       VStr "CREATE"; VNull;
                       stringify_or_null JSON_stringify row];
                    mkRpc "exec_sql"
                      (tenant_sql (tenantSchema self) notification_sql)
                      [VStr "info";
                       VStr ("Nova "
                             ++ (if is_str (f "type") "income"
                                 then "Receita" else "Despesa")
                             ++ " Registrada");
                       VStr (usr_name (user self) ++ " registrou: " ++ text);
                       VStr "cash_flow"; VStr "transaction"; id;
                       JSON_stringify
                         (VObj [("transaction_id", id);
                                ("page", VStr "/fluxo-caixa")]);
                       VUndefined; VStr (usr_name (user self))]])%list
          /\ List.length (audit_log (db w'))
             = S (List.length (audit_log (db w)))
          /\ List.length (notifications (db w'))
             = S (List.length (notifications (db w)))
          /\ rest (db w') = r1)
  /\ (forall e : Exn,
        to_js_string (f "description") = Throw e ->
        exists w' : World,
          create self transactionData w = (Throw e, w')
          /\ rpc_log w'
             = (rpc_log w
                ++ [mkRpc "exec_sql"
                      (tenant_sql (tenantSchema self) insert_sql)
                      (insert_params JSON_stringify self f categoryName
                                     VNull VNull);
                    mkRpc "exec_sql"
                      (tenant_sql (tenantSchema self) audit_sql)
                      [VStr (usr_id (user self)); VStr "cash_flow"; id;
                       VStr "CREATE"; VNull;
                       stringify_or_null JSON_stringify row]])%list
          /\ List.length (audit_log (db w'))
             = S (List.length (audit_log (db w)))
          /\ notifications (db w') = notifications (db w)
          /\ rest (db w') = r1).
Proof.
  intros Hp Hf Hd Hc Hproj He Hid.
  split; [reflexivity|].
  split; [intros text Ht | intros e Ht];
    unfold CashFlow.create, bind, lift; rewrite enter_eq, Hp, Hd, Hc, Hproj;
    unfold ret at 1; cbn [fst snd];
    rewrite (ServiceRunFacts.query_ok Rest) by exact Hf;
    cbn [fst snd denot CashFlow.pg sql params db rest entered];
    rewrite He; cbn [fst snd first hd];
    unfold create_finish, bind, lift; rewrite Hid;
    rewrite (ServiceRunFacts.auditLog_ok Rest) by reflexivity;
    rewrite Ht.
  - rewrite (ServiceRunFacts.createNotification_ok Rest) by reflexivity.
    unfold ret. eexists. split; [reflexivity|].
    cbn [db rpc_log audit_log notifications rest add_audit add_notification
         set_rest request_of sql params CashFlow.pg audit_stmt
         notification_stmt tenantSchema entered stringify_or_null truthy].
    rewrite <- !app_assoc, !length_app. cbn [List.length app].
    repeat split; try reflexivity; lia.
  - eexists. split; [reflexivity|].
    cbn [db rpc_log audit_log notifications rest add_audit set_rest
         request_of sql params CashFlow.pg audit_stmt tenantSchema entered
         stringify_or_null truthy].
    rewrite <- !app_assoc, !length_app. cbn [List.length app].
    repeat split; try reflexivity; lia.
Qed.

(** A successful [update] and the category name.  When no call fails
    and the lookup finds the transaction, three statements are sent: the
    lookup, the UPDATE and the audit entry [UPDATE] holding the row
    before and after.  The fourth parameter of the UPDATE, which the
    statement reads as COALESCE($4, category_name), is what
    [getCategoryName] returned: the empty string for data without a
    [category_id], and for a [category_id] that names a member of
    [Object.prototype] (such as [constructor]) that built-in, not a
    string. *)
Theorem update_sends_category_name (self : BaseService) (id : string)
  (transactionData : Value) (f : string -> Value) (categoryName : Value)
  (w : World) (old : Value) (more : list Value) (r1 : Rest) :
  requirePermission self "write" "cash_flow" = Ok true ->
  faults w = [] ->
  engine (tenant_sql (tenantSchema self) getById_sql) [VStr id] (rest (db w))
  = (old :: more, r1) ->
  destructure transactionData = Ok f ->
  getCategoryName (js_or (f "category_id") (VStr "")) = Ok categoryName ->
  (exists (w' : World) (transaction : Value),
     update self id transactionData w = (Ok transaction, w')
     /\ transaction
        = first (fst (engine (tenant_sql (tenantSchema self) update_sql)
                             (update_params JSON_stringify f categoryName id)
                             r1))
     /\ rpc_log w'
        = (rpc_log w
           ++ [mkRpc "exec_sql" (tenant_sql (tenantSchema self) getById_sql)
                     [VStr id];
               mkRpc "exec_sql" (tenant_sql (tenantSchema self) update_sql)
                     (update_params JSON_stringify f categoryName id);
               mkRpc "exec_sql" (tenant_sql (tenantSchema self) audit_sql)
                     [VStr (usr_id (user self)); VStr "cash_flow"; VStr id;
                      VStr "UPDATE"; stringify_or_null JSON_stringify old;
                      stringify_or_null JSON_stringify transaction]])%list)
  /\ nth 3 (update_params JSON_stringify f categoryName id) VNull
     = categoryName
  /\ (truthy (f "category_id") = false -> categoryName = VStr "")
  /\ (forall (k : string) (b : Builtin),
        f "category_id" = VStr k -> inherited k = Some b ->
        categoryName = VBuiltin b).
Proof.
  intros Hp Hf He Hd Hc.
  assert (Hnf : next_fault w = false) by (unfold next_fault; now rewrite Hf).
  split; [|split; [reflexivity|split]].
  - unfold CashFlow.update, bind, lift. rewrite enter_eq, Hp.
    rewrite getById_answered by assumption.
    cbn [rest db entered faults rpc_log calls]. rewrite He, Hf, Hd, Hc.
    cbn [fst snd tl].
    rewrite (ServiceRunFacts.query_ok Rest) by reflexivity.
    cbn [fst snd denot CashFlow.pg sql params db rest set_rest].
    destruct (engine (tenant_sql (tenantSchema self) update_sql)
                (update_params JSON_stringify f categoryName id) r1)
      as [rows r2].
    rewrite (ServiceRunFacts.auditLog_ok Rest) by reflexivity.
    unfold ret. eexists _, _. split; [reflexivity|].
    cbn [db rpc_log request_of sql params CashFlow.pg audit_stmt tenantSchema
         fst snd].
    rewrite <- !app_assoc. cbn [app].
    split; reflexivity.
  - intros Ht. unfold js_or in Hc. rewrite Ht in Hc.
    cbn in Hc. now injection Hc as <-.
  - intros k b Hk Hb. rewrite Hk in Hc.
    destruct (categories_not_inherited k b Hb) as [Hl Hne].
    unfold getCategoryName, index, js_or in Hc.
    cbn [truthy to_js_string rbind] in Hc. rewrite Hne in Hc.
    cbn [negb to_js_string rbind] in Hc. rewrite Hl, Hb in Hc.
    cbn [rbind truthy] in Hc. now injection Hc as <-.
Qed.

Variable JWT_ACCESS_SECRET : string.
Variable jwt_verify : string -> string -> Z -> Result Value.

Local Abbreviation route :=
  (route engine JSON_stringify js_sub render_csv today JWT_ACCESS_SECRET
         jwt_verify).

(** Every route of the cash-flow router, GET /stats included, stands
    behind [authenticateToken].  When the middleware answers the request
    itself, that answer is the route's and the world is untouched: no
    service method is entered and no statement is sent.  Whenever a route
    changes anything, the request carried a token that resolved to an
    active user of [admin.users]. *)
Theorem cash_flow_requires_authentication (e : Endpoint) (now : Z)
  (admin : Auth.AdminDb) (req : Request) (w : World) :
  (forall r : Response,
     Auth.authenticateToken JWT_ACCESS_SECRET jwt_verify now req admin
     = Respond r ->
     route e now admin req w = (Ok r, w))
  /\ (snd (route e now admin req w) <> w ->
      exists req' : Request,
        Auth.authenticateToken JWT_ACCESS_SECRET jwt_verify now req admin
        = Next req'
        /\ Auth.resolves JWT_ACCESS_SECRET jwt_verify now req admin req').
Proof.
  split.
  - intros r H. unfold CashFlow.route. rewrite H. reflexivity.
  - unfold CashFlow.route.
    destruct (Auth.authenticateToken JWT_ACCESS_SECRET jwt_verify now req admin)
      as [r|req'] eqn:E.
    + intros H. exfalso. apply H. reflexivity.
    + intros _. exists req'. split; [reflexivity|].
      now apply AuthFacts.authenticateToken_next.
Qed.

End WithEngine.

Import Samples.

Lemma getAll_placeholders_match_params_witness :
  rpc_log (snd (CashFlow.getAll sample_engine (new_service costa_user)
                  (VObj [("search", VStr "aluguel"); ("status", VStr "confirmed")])
                  world0))
  = [mkRpc "exec_sql"
       (tenant_sql (schema_of tenant_a)
          (getAll_sql ++ " AND description ILIKE $1 AND status = $2"
           ++ order_by_sql))
       [VStr "%aluguel%"; VStr "confirmed"]].
Proof.
  destruct (getAll_placeholders_match_params (list Value) sample_engine
              sample_csv (new_service costa_user)
              (VObj [("search", VStr "aluguel"); ("status", VStr "confirmed")])
              world0) as [H _]; [reflexivity|].
  apply (H "aluguel"). reflexivity.
Defined.

Lemma update_and_delete_of_missing_id_witness :
  fst (CashFlow.delete sample_engine sample_stringify (new_service costa_user)
         "tx-9" world0)
  = Throw (Error "Transação não encontrada").
Proof.
  destruct (update_and_delete_of_missing_id (list Value) sample_engine
              sample_stringify (new_service costa_user) "tx-9" VUndefined
              world0 []) as [_ [H _]];
    [reflexivity | reflexivity | reflexivity | exact H].
Defined.

Lemma delete_writes_audit_entry_witness :
  exists w' : World (list Value),
    CashFlow.delete sample_engine sample_stringify (new_service costa_user)
      "tx-1" world_tx = (Ok tt, w')
    /\ List.length (audit_log (db w')) = 1.
Proof.
  destruct (delete_writes_audit_entry (list Value) sample_engine
              sample_stringify (new_service costa_user) "tx-1" world_tx
              sample_tx [] [sample_tx]) as (w' & H & _ & Ha & _);
    [reflexivity | reflexivity | reflexivity |].
  exists w'. split; [exact H|]. rewrite Ha. reflexivity.
Defined.

Lemma create_writes_audit_and_notification_witness :
  exists w' : World (list Value),
    CashFlow.create sample_engine sample_stringify (new_service costa_user)
      (VObj [("type", VStr "income"); ("description", VStr "Honorarios");
             ("project_id", VStr "none")]) world0
    = (Ok (VObj [("id", VStr "tx-1"); ("description", VStr "Honorarios")]), w')
    /\ List.length (rpc_log w') = 3.
Proof.
  destruct (create_writes_audit_and_notification (list Value) sample_engine
              sample_stringify (new_service costa_user)
              (VObj [("type", VStr "income"); ("description", VStr "Honorarios");
                     ("project_id", VStr "none")])
              (get_opt (VObj [("type", VStr "income");
                              ("description", VStr "Honorarios");
                              ("project_id", VStr "none")]))
              (VStr "")
              world0
              (VObj [("id", VStr "tx-1"); ("description", VStr "Honorarios")])
              (VStr "tx-1") []
              [VObj [("id", VStr "tx-1"); ("description", VStr "Honorarios")]])
    as (_ & Hok & _);
    [reflexivity | reflexivity | reflexivity | reflexivity | reflexivity
     | reflexivity | reflexivity |].
  destruct (Hok "Honorarios" eq_refl) as (w' & H & Hl & _).
  exists w'. split; [exact H|]. rewrite Hl. reflexivity.
Defined.

Lemma update_sends_category_name_witness :
  exists (w' : World (list Value)) (transaction : Value),
    CashFlow.update sample_engine sample_stringify (new_service costa_user)
      "tx-1" (VObj [("notes", VStr "pago")]) world_tx = (Ok transaction, w')
    /\ nth 3 (rpc_params (nth 1 (rpc_log w') (mkRpc "" "" []))) VNull
       = VStr "".
Proof.
  destruct (update_sends_category_name (list Value) sample_engine
              sample_stringify (new_service costa_user) "tx-1"
              (VObj [("notes", VStr "pago")])
              (get_opt (VObj [("notes", VStr "pago")])) (VStr "") world_tx
              sample_tx [] [sample_tx])
    as ((w' & t & H & _ & Hl) & _);
    [reflexivity | reflexivity | reflexivity | reflexivity | reflexivity |].
  exists w', t. split; [exact H|]. rewrite Hl. reflexivity.
Defined.

Lemma cash_flow_requires_authentication_witness :
  sample_route GET_stats 5 admin0 (request None) world0
  = (Ok (json 401 (error_body "Token de acesso necessário")), world0).
Proof.
  destruct (cash_flow_requires_authentication (list Value) sample_engine
              sample_stringify sample_sub sample_csv "2025-01-31" ACCESS
              sample_verify GET_stats 5 admin0 (request None) world0)
    as [H _].
  apply H. reflexivity.
Defined.

End CashFlowOpsFacts.

(* ================================================================== *)
(** * Facts about [NotificationService] *)
(* ================================================================== *)

Module NotificationFacts.
Import Js JsString Tenant Http Schema Service ServiceFacts.

Lemma requirePermission_notifications (self : BaseService) (permission : string) :
  requirePermission self permission "notifications" = Ok true.
Proof.
  unfold requirePermission.
  replace (includes ["cash_flow"; "financial_dashboard"] "notifications")
    with false by reflexivity.
  rewrite andb_false_r. reflexivity.
Qed.

(** A statement is sent under the schema of the service; nothing else of
    the service enters [query]. *)
Lemma query_same_schema {Rest R} (self1 self2 : BaseService)
  (s : Stmt Rest R) (w : World Rest) :
  tenantSchema self1 = tenantSchema self2 ->
  query self1 s w = query self2 s w.
Proof. intros H. unfold query. now rewrite H. Qed.

Section Clock.

Variable date_of : Value -> option Z.
Variable toLocaleDateString : Z -> string.

Local Abbreviation formatTimeAgo :=
  (Notifications.formatTimeAgo date_of toLocaleDateString).

(** The text [formatTimeAgo] shows, by the age of the date in whole
    seconds.  Under a minute, and for every date in the future, "Agora
    mesmo"; then minutes from 1 to 59, hours from 1 to 23 and days from 1
    to 29, never a zero; from thirty days on, the date itself. *)
Theorem formatTimeAgo_ranges (now : Z) (dateString : Value) (date : Z) :
  date_of dateString = Some date ->
  ((date > now)%Z -> formatTimeAgo now dateString = "Agora mesmo")
  /\ (((now - date) / 1000 < 60)%Z ->
      formatTimeAgo now dateString = "Agora mesmo")
  /\ ((60 <= (now - date) / 1000 < 3600)%Z ->
      exists n : Z,
        (1 <= n <= 59)%Z
        /\ formatTimeAgo now dateString = string_of_Z n ++ " minutos atrás")
  /\ ((3600 <= (now - date) / 1000 < 86400)%Z ->
      exists n : Z,
        (1 <= n <= 23)%Z
        /\ formatTimeAgo now dateString = string_of_Z n ++ " horas atrás")
  /\ ((86400 <= (now - date) / 1000 < 2592000)%Z ->
      exists n : Z,
        (1 <= n <= 29)%Z
        /\ formatTimeAgo now dateString = string_of_Z n ++ " dias atrás")
  /\ ((2592000 <= (now - date) / 1000)%Z ->
      formatTimeAgo now dateString = toLocaleDateString date).
Proof.
  intros Hd. unfold Notifications.formatTimeAgo. rewrite Hd. cbv zeta.
  set (s := ((now - date) / 1000)%Z).
  assert (Hfut : (date > now)%Z -> (s < 60)%Z).
  { intros H. unfold s.
    assert ((now - date) / 1000 < 0)%Z by (apply Z.div_lt_upper_bound; lia).
    lia. }
  assert (Hlt : forall b : Z, (s < b)%Z -> (s <? b)%Z = true)
    by (intros b H; now apply Z.ltb_lt).
  assert (Hge : forall b : Z, (b <= s)%Z -> (s <? b)%Z = false)
    by (intros b H; now apply Z.ltb_ge).
  split; [intros H; now rewrite (Hlt 60%Z (Hfut H))|].
  split; [intros H; now rewrite (Hlt 60%Z H)|].
  split; [|split; [|split]].
  - intros [H1 H2]. rewrite (Hge 60%Z), (Hlt 3600%Z) by lia.
    exists (s / 60)%Z. split; [|reflexivity]. split.
    + apply Z.div_le_lower_bound; lia.
    + assert (s / 60 < 60)%Z by (apply Z.div_lt_upper_bound; lia). lia.
  - intros [H1 H2].
    rewrite (Hge 60%Z), (Hge 3600%Z), (Hlt 86400%Z) by lia.
    exists (s / 3600)%Z. split; [|reflexivity]. split.
    + apply Z.div_le_lower_bound; lia.
    + assert (s / 3600 < 24)%Z by (apply Z.div_lt_upper_bound; lia). lia.
  - intros [H1 H2].
    rewrite (Hge 60%Z), (Hge 3600%Z), (Hge 86400%Z), (Hlt 2592000%Z) by lia.
    exists (s / 86400)%Z. split; [|reflexivity]. split.
    + apply Z.div_le_lower_bound; lia.
    + assert (s / 86400 < 30)%Z by (apply Z.div_lt_upper_bound; lia). lia.
  - intros H.
    rewrite (Hge 60%Z), (Hge 3600%Z), (Hge 86400%Z), (Hge 2592000%Z) by lia.
    reflexivity.
Qed.

(** The two copies of [formatTimeAgo].  [NotificationService] and
    [DashboardService] each carry one; they show the same text for every
    valid date less than thirty days old, and differ beyond: on an
    invalid date the first shows "Invalid Date" and the second "NaN dias
    atrás", and from thirty days on the first shows the date where the
    second goes on counting days. *)
Theorem formatTimeAgo_copies_agree (now : Z) (dateString : Value) :
  (forall date : Z,
     date_of dateString = Some date ->
     ((now - date) / 1000 < 2592000)%Z ->
     formatTimeAgo now dateString
     = Dashboard.formatTimeAgo date_of now dateString)
  /\ (forall date : Z,
        date_of dateString = Some date ->
        (2592000 <= (now - date) / 1000)%Z ->
        formatTimeAgo now dateString = toLocaleDateString date
        /\ Dashboard.formatTimeAgo date_of now dateString
           = string_of_Z ((now - date) / 1000 / 86400) ++ " dias atrás")
  /\ (date_of dateString = None ->
      formatTimeAgo now dateString = "Invalid Date"
      /\ Dashboard.formatTimeAgo date_of now dateString = "NaN dias atrás").
Proof.
  unfold Notifications.formatTimeAgo, Dashboard.formatTimeAgo.
  split; [|split].
  - intros date -> H. cbv zeta. apply Z.ltb_lt in H. rewrite H.
    destruct ((now - date) / 1000 <? 60)%Z; [reflexivity|].
    destruct ((now - date) / 1000 <? 3600)%Z; [reflexivity|].
    destruct ((now - date) / 1000 <? 86400)%Z; reflexivity.
  - intros date -> H. cbv zeta.
    assert (Hge : forall b : Z, (b <= 2592000)%Z ->
                                ((now - date) / 1000 <? b)%Z = false)
      by (intros b Hb; apply Z.ltb_ge; lia).
    rewrite !Hge by lia. split; reflexivity.
  - intros ->. split; reflexivity.
Qed.

End Clock.

Section WithEngine.

Variable Rest : Type.
Variable run : string -> list Value -> TenantDb Rest
               -> list Value * TenantDb Rest.
Variable JSON_parse : Value -> Result Value.
Variable date_of : Value -> option Z.
Variable toLocaleDateString : Z -> string.

Local Abbreviation getAll :=
  (Notifications.getAll run JSON_parse date_of toLocaleDateString).
Local Abbreviation getUnreadCount := (Notifications.getUnreadCount run).
Local Abbreviation markAllAsRead := (Notifications.markAllAsRead run).
Local Abbreviation markAsRead := (Notifications.markAsRead run).
Local Abbreviation handler :=
  (Notifications.handler run JSON_parse date_of toLocaleDateString).

(** Whose notifications are listed.  [getAll], [getUnreadCount] and
    [markAllAsRead] select on the user id they are given and fall back
    on the authenticated user only when none is given; the router passes
    them [req.query.user_id] and [req.body.user_id].  So for two users of
    one tenant and one non-empty [user_id], the three operations, and the
    route GET / itself, do and answer exactly the same whoever asks.  By
    contrast [markAsRead] always sends the id of the authenticated
    user. *)
Theorem notifications_follow_the_user_id_given (now : Z)
  (u1 u2 : AuthenticatedUser) (userId : Value) (w : World Rest) :
  usr_tenantId u1 = usr_tenantId u2 ->
  truthy userId = true ->
  getAll now (new_service u1) userId w = getAll now (new_service u2) userId w
  /\ getUnreadCount (new_service u1) userId w
     = getUnreadCount (new_service u2) userId w
  /\ markAllAsRead (new_service u1) userId w
     = markAllAsRead (new_service u2) userId w
  /\ (forall req1 req2 : Request,
        req_user req1 = Some u1 -> req_user req2 = Some u2 ->
        req_query req1 = req_query req2 ->
        get_prop (req_query req1) "user_id" = Ok userId ->
        handler now Notifications.GET_root req1 w
        = handler now Notifications.GET_root req2 w)
  /\ (forall id : string,
        rpc_log (snd (markAsRead (new_service u1) id w))
        = (rpc_log w
           ++ [mkRpc "exec_sql"
                 (tenant_sql (schema_of (usr_tenantId u1))
                             Notifications.markAsRead_sql)
                 [VStr id; VStr (usr_id u1)]])%list).
Proof.
  intros Ht Hu.
  assert (Hs : tenantSchema (new_service u1) = tenantSchema (new_service u2))
    by (cbn; now rewrite Ht).
  assert (Hall : getAll now (new_service u1) userId w
                 = getAll now (new_service u2) userId w).
  { unfold Notifications.getAll, bind, lift.
    rewrite !enter_eq, !requirePermission_notifications.
    unfold js_or. rewrite Hu.
    now rewrite (query_same_schema (new_service u1) (new_service u2) _ _ Hs). }
  split; [exact Hall|]. split; [|split; [|split]].
  - unfold Notifications.getUnreadCount, bind. rewrite !enter_eq.
    unfold js_or at 1 3. rewrite Hu.
    now rewrite (query_same_schema (new_service u1) (new_service u2) _ _ Hs).
  - unfold Notifications.markAllAsRead, bind, lift.
    rewrite !enter_eq, !requirePermission_notifications.
    unfold js_or. rewrite Hu.
    now rewrite (query_same_schema (new_service u1) (new_service u2) _ _ Hs).
  - intros req1 req2 H1 H2 Hq Hg.
    unfold Notifications.handler, Notifications.handler_try,
      Notifications.service_of, try_catch, bind, lift, ret.
    rewrite H1, H2, <- Hq, Hg. now rewrite Hall.
  - intros id. unfold Notifications.markAsRead, bind, lift.
    rewrite enter_eq, requirePermission_notifications, query_eq.
    destruct (next_fault _); reflexivity.
Qed.

End WithEngine.

Import Samples.

Lemma formatTimeAgo_ranges_witness :
  exists n : Z,
    (1 <= n <= 59)%Z
    /\ Notifications.formatTimeAgo sample_date string_of_Z 1700000300000
         (VNum 1700000000000)
       = string_of_Z n ++ " minutos atrás".
Proof.
  destruct (formatTimeAgo_ranges sample_date string_of_Z 1700000300000
              (VNum 1700000000000) 1700000000000 eq_refl)
    as (_ & _ & H & _).
  apply H. vm_compute. split; [discriminate | reflexivity].
Defined.

Lemma formatTimeAgo_copies_agree_witness :
  Notifications.formatTimeAgo sample_date string_of_Z 1700000300000
    (VNum 1700000000000)
  = Dashboard.formatTimeAgo sample_date 1700000300000 (VNum 1700000000000).
Proof.
  destruct (formatTimeAgo_copies_agree sample_date string_of_Z 1700000300000
              (VNum 1700000000000)) as (H & _).
  apply (H 1700000000000%Z); reflexivity.
Defined.

Lemma notifications_follow_the_user_id_given_witness :
  Notifications.getAll sample_run sample_parse sample_date string_of_Z 5
    (new_service ana_user) (VStr "u-costa") world0
  = Notifications.getAll sample_run sample_parse sample_date string_of_Z 5
      (new_service costa_user) (VStr "u-costa") world0.
Proof.
  destruct (notifications_follow_the_user_id_given (list Value) sample_run
              sample_parse sample_date string_of_Z 5 ana_user costa_user
              (VStr "u-costa") world0) as (H & _);
    [reflexivity | reflexivity | exact H].
Defined.

End NotificationFacts.

(* ================================================================== *)
(** * Facts about [DashboardService] *)
(* ================================================================== *)

Module DashboardFacts.
Import Js JsString Tenant Http Schema Service ServiceFacts.

(** [Promise.all] rejects when one of the calls always rejects. *)
Lemma all_some_throws {S A} (ms : list (M S A)) :
  Exists (fun m => forall s, exists e, fst (m s) = Throw e) ms ->
  forall s, exists e, fst (all ms s) = Throw e.
Proof.
  induction 1 as [m rest Hm | m rest Hrest IH]; intros s; cbn [all].
  - destruct (Hm s) as [e He].
    destruct (m s) as [[a|e0] s1]; cbn [fst] in *; [discriminate|].
    now exists e0.
  - destruct (m s) as [[a|e0] s1].
    + destruct (IH s1) as [e He].
      destruct (all rest s1) as [[xs|e1] s2]; cbn [fst] in *; [discriminate|].
      now exists e1.
    + now exists e0.
Qed.

Section WithEngine.

Variable Rest : Type.
Variable engine : string -> list Value -> Rest -> list Value * Rest.
Variable run : string -> list Value -> TenantDb Rest
               -> list Value * TenantDb Rest.
Variable js_sub : Value -> Value -> Value.
Variable js_ge0 js_le0 js_gt0 : Value -> bool.
Variable math_abs math_round parseFloat : Value -> Value.
Variable round_percent : Value -> Value -> Value.
Variable date_of : Value -> option Z.
Variable JWT_ACCESS_SECRET : string.
Variable jwt_verify : string -> string -> Z -> Result Value.

Local Abbreviation getDashboardData :=
  (Dashboard.getDashboardData engine run js_sub js_ge0 js_le0 js_gt0 math_abs
     math_round parseFloat round_percent date_of).
Local Abbreviation handler :=
  (Dashboard.handler engine run js_sub js_ge0 js_le0 js_gt0 math_abs
     math_round parseFloat round_percent date_of).
Local Abbreviation route :=
  (Dashboard.route engine run js_sub js_ge0 js_le0 js_gt0 math_abs
     math_round parseFloat round_percent date_of JWT_ACCESS_SECRET jwt_verify).

(** The dashboard of a Conta Simples.  [getDashboardData] gathers the
    financial statistics for every account type, and for the type
    [simples] [getFinancialStats] rejects from [requirePermission]; so
    [getDashboardData] rejects for every such user, whatever the tables
    hold, and the route GET / of the dashboard answers each of their
    authenticated requests with 500 "Erro ao carregar dados do
    dashboard". *)
Theorem dashboard_fails_for_simples (now : Z) (u : AuthenticatedUser)
  (w : World Rest) :
  usr_accountType u = Some "simples" ->
  (exists e : Exn, fst (getDashboardData now (new_service u) w) = Throw e)
  /\ (forall req : Request,
        req_user req = Some u ->
        fst (handler now req w)
        = Ok (json 500 (error_body "Erro ao carregar dados do dashboard")))
  /\ (forall (admin : Auth.AdminDb) (req req' : Request),
        Auth.authenticateToken JWT_ACCESS_SECRET jwt_verify now req admin
        = Next req' ->
        req_user req' = Some u ->
        fst (route now admin req w)
        = Ok (json 500 (error_body "Erro ao carregar dados do dashboard"))).
Proof.
  intros Hs.
  assert (Hdata : forall w0 : World Rest,
            exists e, fst (getDashboardData now (new_service u) w0) = Throw e).
  { intros w0. unfold Dashboard.getDashboardData, bind, lift.
    rewrite enter_eq.
    destruct (requirePermission (new_service u) "read" "dashboard")
      as [ok|e0]; [|now exists e0].
    match goal with
    | |- context [all ?ms ?s] =>
        assert (Hex : Exists (fun m => forall s0, exists e, fst (m s0) = Throw e)
                             ms);
        [|destruct (all_some_throws ms Hex s) as [e He];
          destruct (all ms s) as [[xs|e1] s1]; cbn [fst] in He;
          [discriminate | now exists e1]]
    end.
    apply Exists_cons_tl, Exists_cons_tl, Exists_cons_tl, Exists_cons_hd.
    intros s. exists (Error "Conta Simples não tem acesso a dados financeiros").
    unfold CashFlow.getFinancialStats, bind, lift. rewrite enter_eq.
    rewrite CashFlowFacts.requirePermission_simples by exact Hs.
    reflexivity. }
  assert (Hh : forall req : Request,
            req_user req = Some u ->
            fst (handler now req w)
            = Ok (json 500 (error_body "Erro ao carregar dados do dashboard"))).
  { intros req Hr. unfold Dashboard.handler, try_catch, bind, ret.
    rewrite Hr. destruct (Hdata w) as [e He].
    destruct (getDashboardData now (new_service u) w) as [[v|e1] w1];
      cbn [fst] in He; [discriminate | reflexivity]. }
  split; [apply Hdata|]. split; [exact Hh|].
  intros admin req req' Ha Hr. unfold Dashboard.route. rewrite Ha.
  now apply Hh.
Qed.

End WithEngine.

Import Samples.

Lemma dashboard_fails_for_simples_witness :
  fst (Dashboard.handler sample_engine sample_run sample_sub
         (fun _ => true) (fun _ => true) (fun _ => true)
         (fun v => v) (fun v => v) (fun v => v) (fun a _ => a) sample_date
         5 (mkRequest None (VObj []) "" VUndefined (Some ana_user) None None)
         world0)
  = Ok (json 500 (error_body "Erro ao carregar dados do dashboard")).
Proof.
  destruct (dashboard_fails_for_simples (list Value) sample_engine sample_run
              sample_sub (fun _ => true) (fun _ => true) (fun _ => true)
              (fun v => v) (fun v => v) (fun v => v) (fun a _ => a) sample_date
              ACCESS sample_verify 5 ana_user world0 eq_refl) as (_ & H & _).
  apply H. reflexivity.
Defined.

End DashboardFacts.

(* ================================================================== *)
(** * Facts about the authentication router *)
(* ================================================================== *)

Module AuthRoutesFacts.
Import Js JsString Http Auth AuthFacts AuthRoutes.

Section Libraries.

Variable JWT_ACCESS_SECRET JWT_REFRESH_SECRET : string.
Variable jwt_verify : string -> string -> Z -> Result Value.
Variable jwt_sign : Value -> string -> string -> Z -> string.
Variable bcrypt_hash : string -> nat -> string -> string.
Variable bcrypt_compare : string -> string -> bool.
Variable login_other : Env -> Value -> Value -> M AdminDb Tokens.
Variable refresh_other : Env -> Value -> M AdminDb Tokens.

Local Abbreviation login :=
  (login JWT_ACCESS_SECRET JWT_REFRESH_SECRET jwt_sign bcrypt_hash
         bcrypt_compare).
Local Abbreviation refreshAccessToken :=
  (refreshAccessToken JWT_ACCESS_SECRET JWT_REFRESH_SECRET jwt_verify jwt_sign
                      bcrypt_hash bcrypt_compare).
Local Abbreviation login_call :=
  (login_call JWT_ACCESS_SECRET JWT_REFRESH_SECRET jwt_sign bcrypt_hash
              bcrypt_compare login_other).
Local Abbreviation login_route :=
  (login_route JWT_ACCESS_SECRET JWT_REFRESH_SECRET jwt_sign bcrypt_hash
               bcrypt_compare login_other).
Local Abbreviation refresh_call :=
  (refresh_call JWT_ACCESS_SECRET JWT_REFRESH_SECRET jwt_verify jwt_sign
                bcrypt_hash bcrypt_compare refresh_other).
Local Abbreviation refresh_route :=
  (refresh_route JWT_ACCESS_SECRET JWT_REFRESH_SECRET jwt_verify jwt_sign
                 bcrypt_hash bcrypt_compare refresh_other).

(** POST /login always answers, and tells nothing of why a login
    failed.  A body without a non-empty [email] and a non-empty
    [password] is answered 400 before [AuthService.login] is called, and
    nothing is written.  Every exception, whatever its origin, is
    answered 401 "Email ou senha incorretos": so are an email no active
    user has and a password the stored hash does not match, both with
    the database untouched.  A successful login is answered 200 with the
    tokens [AuthService.login] returned. *)
Theorem login_route_answers (env : Env) (req : Request) (db : AdminDb) :
  (exists resp : Response, fst (login_route env req db) = Ok resp)
  /\ (forall f : string -> Value,
        destructure (req_body req) = Ok f ->
        truthy (f "email") && truthy (f "password") = false ->
        login_route env req db
        = (Ok (json 400 (error_body "Email e senha são obrigatórios")), db))
  /\ (forall (f : string -> Value) (e : Exn) (db' : AdminDb),
        destructure (req_body req) = Ok f ->
        truthy (f "email") && truthy (f "password") = true ->
        login_call env (f "email") (f "password") db = (Throw e, db') ->
        login_route env req db
        = (Ok (json 401 (error_body "Email ou senha incorretos")), db'))
  /\ (forall (f : string -> Value) (tokens : Tokens) (db' : AdminDb),
        destructure (req_body req) = Ok f ->
        truthy (f "email") && truthy (f "password") = true ->
        login_call env (f "email") (f "password") db = (Ok tokens, db') ->
        login_route env req db
        = (Ok (json 200
                 (VObj [ ("message", VStr "Login realizado com sucesso");
                         ("user", VObj [("email", f "email")]);
                         ("tokens", tokens_value tokens) ])), db'))
  /\ (forall email password : string,
        req_body req = VObj [("email", VStr email); ("password", VStr password)] ->
        email <> "" -> password <> "" ->
        (forall row, In row (users db) -> u_email row = email ->
                     u_is_active row = true ->
                     bcrypt_compare password (u_password_hash row) = false) ->
        login_route env req db
        = (Ok (json 401 (error_body "Email ou senha incorretos")), db)).
Proof.
  assert (Hcases : forall f : string -> Value,
            destructure (req_body req) = Ok f ->
            login_route env req db
            = if negb (truthy (f "email")) || negb (truthy (f "password"))
              then (Ok (json 400 (error_body "Email e senha são obrigatórios")),
                    db)
              else match login_call env (f "email") (f "password") db with
                   | (Ok tokens, db') =>
                       (Ok (json 200
                              (VObj [ ("message",
                                       VStr "Login realizado com sucesso");
                                      ("user", VObj [("email", f "email")]);
                                      ("tokens", tokens_value tokens) ])), db')
                   | (Throw _, db') =>
                       (Ok (json 401 (error_body "Email ou senha incorretos")),
                        db')
                   end).
  { intros f Hf. unfold AuthRoutes.login_route, try_catch, bind, lift, ret.
    rewrite Hf.
    destruct (negb (truthy (f "email")) || negb (truthy (f "password")));
      [reflexivity|].
    destruct (login_call env (f "email") (f "password") db) as [[t|e] d];
      reflexivity. }
  split; [|split; [|split; [|split]]].
  - destruct (destructure (req_body req)) as [f|e] eqn:Hf.
    + rewrite (Hcases f eq_refl).
      destruct (negb (truthy (f "email")) || negb (truthy (f "password")));
        [eexists; reflexivity|].
      destruct (login_call env (f "email") (f "password") db) as [[t|e] d];
        eexists; reflexivity.
    + unfold AuthRoutes.login_route, try_catch, bind, lift, ret.
      rewrite Hf. eexists. reflexivity.
  - intros f Hf Hm. rewrite (Hcases f Hf).
    replace (negb (truthy (f "email")) || negb (truthy (f "password")))
      with true; [reflexivity|].
    destruct (truthy (f "email")), (truthy (f "password"));
      try reflexivity; discriminate.
  - intros f e db' Hf Hm Hl. rewrite (Hcases f Hf), Hl.
    apply andb_prop in Hm as [-> ->]. reflexivity.
  - intros f tokens db' Hf Hm Hl. rewrite (Hcases f Hf), Hl.
    apply andb_prop in Hm as [-> ->]. reflexivity.
  - intros email password Hb He Hp Hbad.
    rewrite (Hcases (get_opt (req_body req))) by (rewrite Hb; reflexivity).
    rewrite Hb. cbn [get_opt assoc String.eqb Ascii.eqb Bool.eqb truthy].
    apply String.eqb_neq in He, Hp. rewrite He, Hp. cbn [negb orb].
    unfold AuthRoutes.login_call, Auth.login.
    destruct (single (filter (fun u => (u_email u =? email) && u_is_active u)
                             (users db))) as [row|] eqn:Hs; [|reflexivity].
    pose proof (single_in _ _ Hs) as Hf.
    assert (Hin : In row (filter (fun u => (u_email u =? email) && u_is_active u)
                                 (users db))) by (rewrite Hf; now left).
    apply filter_In in Hin as [Hin Hc].
    apply andb_prop in Hc as [Hem Hact]. apply String.eqb_eq in Hem.
    rewrite (Hbad row Hin Hem Hact). reflexivity.
Qed.

(** POST /refresh and POST /logout.  A body without a non-empty
    [refreshToken] is answered 400 and nothing is written; every failure
    of [refreshAccessToken] is answered 401 "Refresh token inválido"; a
    success is answered 200 with the new tokens.  POST /logout answers
    200 and writes nothing: the refresh tokens of the user stay as they
    were, and a refresh after the logout is answered as it would have
    been before. *)
Theorem refresh_and_logout_routes (env : Env) (req : Request) (db : AdminDb) :
  (exists resp : Response, fst (refresh_route env req db) = Ok resp)
  /\ (forall f : string -> Value,
        destructure (req_body req) = Ok f ->
        truthy (f "refreshToken") = false ->
        refresh_route env req db
        = (Ok (json 400 (error_body "Refresh token é obrigatório")), db))
  /\ (forall (f : string -> Value) (e : Exn) (db' : AdminDb),
        destructure (req_body req) = Ok f ->
        truthy (f "refreshToken") = true ->
        refresh_call env (f "refreshToken") db = (Throw e, db') ->
        refresh_route env req db
        = (Ok (json 401 (error_body "Refresh token inválido")), db'))
  /\ (forall (f : string -> Value) (tokens : Tokens) (db' : AdminDb),
        destructure (req_body req) = Ok f ->
        truthy (f "refreshToken") = true ->
        refresh_call env (f "refreshToken") db = (Ok tokens, db') ->
        refresh_route env req db
        = (Ok (json 200
                 (VObj [ ("message", VStr "Token renovado com sucesso");
                         ("tokens", tokens_value tokens) ])), db'))
  /\ (forall req0 : Request,
        logout_route req0 db
        = (Ok (json 200 (VObj [("message", VStr "Logout realizado com sucesso")])),
           db)
        /\ refresh_route env req (snd (logout_route req0 db))
           = refresh_route env req db).
Proof.
  assert (Hcases : forall f : string -> Value,
            destructure (req_body req) = Ok f ->
            refresh_route env req db
            = if negb (truthy (f "refreshToken"))
              then (Ok (json 400 (error_body "Refresh token é obrigatório")), db)
              else match refresh_call env (f "refreshToken") db with
                   | (Ok tokens, db') =>
                       (Ok (json 200
                              (VObj [ ("message",
                                       VStr "Token renovado com sucesso");
                                      ("tokens", tokens_value tokens) ])), db')
                   | (Throw _, db') =>
                       (Ok (json 401 (error_body "Refresh token inválido")), db')
                   end).
  { intros f Hf. unfold AuthRoutes.refresh_route, try_catch, bind, lift, ret.
    rewrite Hf. destruct (negb (truthy (f "refreshToken"))); [reflexivity|].
    destruct (refresh_call env (f "refreshToken") db) as [[t|e] d];
      reflexivity. }
  split; [|split; [|split; [|split]]].
  - destruct (destructure (req_body req)) as [f|e] eqn:Hf.
    + rewrite (Hcases f eq_refl).
      destruct (negb (truthy (f "refreshToken"))); [eexists; reflexivity|].
      destruct (refresh_call env (f "refreshToken") db) as [[t|e] d];
        eexists; reflexivity.
    + unfold AuthRoutes.refresh_route, try_catch, bind, lift, ret.
      rewrite Hf. eexists. reflexivity.
  - intros f Hf Hm. rewrite (Hcases f Hf), Hm. reflexivity.
  - intros f e db' Hf Hm Hl. rewrite (Hcases f Hf), Hm, Hl. reflexivity.
  - intros f tokens db' Hf Hm Hl. rewrite (Hcases f Hf), Hm, Hl. reflexivity.
  - intros req0. split; reflexivity.
Qed.

End Libraries.

Import Samples.

Lemma login_route_answers_witness :
  login_route ACCESS REFRESH sample_sign sample_hash sample_compare
    (fun _ _ _ => throw (Error "Illegal arguments")) env1
    (mkRequest None (VObj []) ""
       (VObj [("email", VStr "ana@escritorio.com"); ("password", VStr "errada")])
       None None None) admin0
  = (Ok (json 401 (error_body "Email ou senha incorretos")), admin0).
Proof.
  destruct (login_route_answers ACCESS REFRESH sample_sign sample_hash
              sample_compare (fun _ _ _ => throw (Error "Illegal arguments"))
              env1
              (mkRequest None (VObj []) ""
                 (VObj [("email", VStr "ana@escritorio.com");
                        ("password", VStr "errada")]) None None None) admin0)
    as (_ & _ & _ & _ & H).
  apply (H "ana@escritorio.com" "errada");
    [reflexivity | discriminate | discriminate |].
  intros row [<-|[<-|[<-|[]]]] He Ha; try discriminate. reflexivity.
Defined.

Lemma refresh_and_logout_routes_witness :
  refresh_route ACCESS REFRESH sample_verify sample_sign sample_hash
    sample_compare (fun _ _ => throw (Error "jwt must be a string")) env3
    (mkRequest None (VObj []) "" (VObj []) None None None) after_login
  = (Ok (json 400 (error_body "Refresh token é obrigatório")), after_login).
Proof.
  destruct (refresh_and_logout_routes ACCESS REFRESH sample_verify sample_sign
              sample_hash sample_compare
              (fun _ _ => throw (Error "jwt must be a string")) env3
              (mkRequest None (VObj []) "" (VObj []) None None None)
              after_login) as (_ & H & _).
  apply (H (get_opt (VObj []))); reflexivity.
Defined.

End AuthRoutesFacts.

(* ================================================================== *)
(** * Facts about [InvoiceService] and its router *)
(* ================================================================== *)

Module InvoiceFacts.
Import Js JsString Tenant Http Schema Service ServiceFacts.

Lemma requirePermission_receivables (self : BaseService) (permission : string) :
  requirePermission self permission "receivables" = Ok true.
Proof.
  unfold requirePermission.
  replace (includes ["cash_flow"; "financial_dashboard"] "receivables")
    with false by reflexivity.
  rewrite andb_false_r. reflexivity.
Qed.

Section WithEngine.

Variable Rest : Type.
Variable engine : string -> list Value -> Rest -> list Value * Rest.
Variable JSON_stringify : Value -> Value.
Variable js_add : Value -> Value -> Value.
Variable parseFloat parseInt : Value -> Value.
Variable slug : Value -> Result Value.
Variable taxa_cobrancas : Value.
Variable JWT_ACCESS_SECRET : string.
Variable jwt_verify : string -> string -> Z -> Result Value.

Local Abbreviation getAll := (Invoices.getAll engine).
Local Abbreviation getById := (Invoices.getById engine).
Local Abbreviation handler :=
  (Invoices.handler engine JSON_stringify js_add parseFloat parseInt slug
     taxa_cobrancas).
Local Abbreviation route :=
  (Invoices.route engine JSON_stringify js_add parseFloat parseInt slug
     taxa_cobrancas JWT_ACCESS_SECRET jwt_verify).

(** Receivables have no account-type gate.  No route of the invoices
    router has the account-type middleware, and [requirePermission]
    lets every account type through for the module [receivables].  So
    for every authenticated user, a Conta Simples included, GET / sends
    the SELECT on [invoices] and answers 200 with the rows the engine
    returned, and GET /:id answers with the invoice of that id. *)
Theorem receivables_have_no_account_gate (now : Z) (admin : Auth.AdminDb)
  (req req' : Request) (u : AuthenticatedUser) (w : World Rest) :
  Auth.authenticateToken JWT_ACCESS_SECRET jwt_verify now req admin
  = Next req' ->
  req_user req' = Some u ->
  (forall e : Invoices.Endpoint,
     route e now admin req w = handler now e req' w)
  /\ (forall permission : string,
        requirePermission (new_service u) permission "receivables" = Ok true)
  /\ (next_fault w = false ->
      truthy (get_opt (req_query req') "search") = false ->
      truthy (get_opt (req_query req') "status") = false ->
      fst (route Invoices.GET_root now admin req w)
      = Ok (json 200
              (VArr (fst (engine
                            (tenant_sql (schema_of (usr_tenantId u))
                               (Invoices.getAll_sql ++ Invoices.order_by_sql))
                            [] (rest (db w))))))
      /\ rpc_log (snd (route Invoices.GET_root now admin req w))
         = (rpc_log w
            ++ [mkRpc "exec_sql"
                  (tenant_sql (schema_of (usr_tenantId u))
                     (Invoices.getAll_sql ++ Invoices.order_by_sql)) []])%list)
  /\ (forall (row : Value) (more : list Value) (r1 : Rest),
        next_fault w = false ->
        engine (tenant_sql (schema_of (usr_tenantId u)) Invoices.getById_sql)
               [VStr (req_params_id req')] (rest (db w)) = (row :: more, r1) ->
        fst (route Invoices.GET_id now admin req w) = Ok (json 200 row)).
Proof.
  intros Ha Hu.
  assert (Hroute : forall e, route e now admin req w = handler now e req' w).
  { intros e. unfold Invoices.route. now rewrite Ha. }
  split; [exact Hroute|]. split; [intros; apply requirePermission_receivables|].
  split.
  - intros Hnf Hs Hst. rewrite Hroute.
    unfold Invoices.handler, Invoices.handler_try, Invoices.service_of,
      try_catch, bind, ret.
    rewrite Hu. unfold Invoices.getAll, bind, lift.
    rewrite enter_eq, requirePermission_receivables, Hs, Hst, query_eq.
    unfold after_query.
    change (next_fault (entered "InvoiceService.getAll" w)) with (next_fault w).
    rewrite Hnf.
    cbn [fst snd denot CashFlow.pg sql params db rest entered rpc_log
         request_of tenantSchema new_service].
    destruct (engine _ [] (rest (db w))) as [rows r1]. split; reflexivity.
  - intros row more r1 Hnf He. rewrite Hroute.
    unfold Invoices.handler, Invoices.handler_try, Invoices.service_of,
      try_catch, bind, ret.
    rewrite Hu. unfold Invoices.getById, bind, lift.
    rewrite enter_eq, requirePermission_receivables, query_eq.
    change (next_fault (entered "InvoiceService.getById" w)) with (next_fault w).
    rewrite Hnf.
    cbn [fst snd denot CashFlow.pg sql params db rest entered tenantSchema
         new_service].
    rewrite He. reflexivity.
Qed.

End WithEngine.

Import Samples.

Lemma receivables_have_no_account_gate_witness :
  fst (Invoices.route sample_engine sample_stringify sample_sub
         (fun v => v) (fun v => v) (fun v => Ok v) (VNum 97) ACCESS
         sample_verify Invoices.GET_root 5 admin0
         (request (bearer "access-secret:u-ana:1700000000")) world_tx)
  = Ok (json 200 (VArr [sample_tx])).
Proof.
  destruct (receivables_have_no_account_gate (list Value) sample_engine
              sample_stringify sample_sub (fun v => v) (fun v => v)
              (fun v => Ok v) (VNum 97) ACCESS sample_verify 5 admin0
              (request (bearer "access-secret:u-ana:1700000000"))
              (set_auth (request (bearer "access-secret:u-ana:1700000000"))
                        ana_user tenant_a (schema_of tenant_a))
              ana_user world_tx eq_refl eq_refl) as (_ & _ & H & _).
  destruct H as [H _]; [reflexivity | reflexivity | reflexivity |].
  exact H.
Defined.

End InvoiceFacts.
